(** * Olera onboarding / identity-verification flow (AuthFlowModal)

    A shallow embedding of the flow engine of [src/app/my-care/layout.tsx]
    (the [AuthFlowModal] component): the step configuration, the draft
    persistence effects, the navigation and identity handlers, and the
    commit orchestrator ([handleComplete], [createProviderProfile]).

    Conventions.
    - JavaScript strings are [string]; [s.length] is [String.length s];
      a string is truthy exactly when it is not [""].
    - A nullable value [T | null] is [option T].
    - React state is one record [State]; a handler is a function from the
      state (and the answers of the services it awaits) to the next state
      plus the list of outside calls it made, in order.
    - [localStorage] holds at most one item under [STORAGE_KEY]. *)

From Stdlib Require Import String Ascii List Bool Arith ZArith Lia.
Import ListNotations.
Local Open Scope string_scope.

(* ================================================================== *)
(** ** JavaScript string helpers *)
(* ================================================================== *)

Module Js.

(** White space removed by [String.prototype.trim]: the WhiteSpace and
    LineTerminator characters of ECMAScript.  Text outside ASCII is held
    as its UTF-8 bytes, so the characters are recognised by their
    encoding:
    - one byte: TAB, LF, VT, FF, CR, SPACE;
    - two bytes: U+00A0 (C2 A0);
    - three bytes: U+1680 (E1 9A 80), U+2000 to U+200A (E2 80 80 to
      E2 80 8A), U+2028, U+2029 (E2 80 A8, E2 80 A9), U+202F (E2 80 AF),
      U+205F (E2 81 9F), U+3000 (E3 80 80), U+FEFF (EF BB BF). *)
Definition is_space (c : ascii) : bool :=
  let n := nat_of_ascii c in
  (Nat.eqb n 9 || Nat.eqb n 10 || Nat.eqb n 11 || Nat.eqb n 12
   || Nat.eqb n 13 || Nat.eqb n 32)%bool.

Definition is_space2 (a b : ascii) : bool :=
  (Nat.eqb (nat_of_ascii a) 194 && Nat.eqb (nat_of_ascii b) 160)%bool.

Definition is_space3 (a b c : ascii) : bool :=
  let x := nat_of_ascii a in
  let y := nat_of_ascii b in
  let z := nat_of_ascii c in
  ((Nat.eqb x 225 && Nat.eqb y 154 && Nat.eqb z 128)
   || (Nat.eqb x 226 && Nat.eqb y 128
       && ((Nat.leb 128 z && Nat.leb z 138)
           || Nat.eqb z 168 || Nat.eqb z 169 || Nat.eqb z 175))
   || (Nat.eqb x 226 && Nat.eqb y 129 && Nat.eqb z 159)
   || (Nat.eqb x 227 && Nat.eqb y 128 && Nat.eqb z 128)
   || (Nat.eqb x 239 && Nat.eqb y 187 && Nat.eqb z 191))%bool.

(** [s.trimStart()]: the white-space characters at the head are
    dropped, whatever their length in bytes. *)
Fixpoint trimStart (s : string) : string :=
  match s with
  | EmptyString => EmptyString
  | String a rest1 =>
      if is_space a then trimStart rest1
      else
        match rest1 with
        | EmptyString => s
        | String b rest2 =>
            if is_space2 a b then trimStart rest2
            else
              match rest2 with
              | EmptyString => s
              | String c rest3 =>
                  if is_space3 a b c then trimStart rest3 else s
              end
        end
  end.

(** The string consists of white-space characters only. *)
Definition whiteOnly (s : string) : bool :=
  match trimStart s with EmptyString => true | _ => false end.

(** [s.trimEnd()]: the string is cut at the first position from which
    only white space follows. *)
Fixpoint trimEnd (s : string) : string :=
  match s with
  | EmptyString => EmptyString
  | String c rest => if whiteOnly s then EmptyString else String c (trimEnd rest)
  end.

Definition trim (s : string) : string := trimEnd (trimStart s).

(** [hay.includes(needle)] *)
Fixpoint includes (hay needle : string) : bool :=
  (String.prefix needle hay
   || match hay with
      | EmptyString => false
      | String _ rest => includes rest needle
      end)%bool.

(** Truthiness of a string. *)
Definition truthy (s : string) : bool :=
  match s with EmptyString => false | _ => true end.

(** Truthiness of [string | null | undefined]. *)
Definition truthy_opt (o : option string) : bool :=
  match o with Some s => truthy s | None => false end.

(** [a || b] on strings. *)
Definition or_else (a b : string) : string := if truthy a then a else b.

(** [o || ""] on a nullable string. *)
Definition or_empty (o : option string) : string :=
  match o with Some s => s | None => "" end.

(** [!o?.trim()] on a nullable string: null, undefined, empty or
    white space only. *)
Definition blank_opt (o : option string) : bool :=
  match o with Some s => negb (truthy (trim s)) | None => true end.

(** [s.trim().length > 0] *)
Definition nonblank (s : string) : bool := Nat.ltb 0 (String.length (trim s)).

End Js.

(* ================================================================== *)
(** ** Types *)
(* ================================================================== *)

(** [UserIntent] *)
Inductive UserIntent := family | provider.

(** [ProviderType] *)
Inductive ProviderType := organization | caregiver.

(** [AuthFlowStep]; the constructors are the string tags
    ["intent"], ["provider-type"], ... of the source. *)
Inductive AuthFlowStep :=
| step_intent
| step_provider_type
| step_provider_info
| step_org_search
| step_visibility
| step_family_info
| step_family_needs
| step_auth
| step_verify_code.

Definition UserIntent_eqb (a b : UserIntent) : bool :=
  match a, b with
  | family, family | provider, provider => true
  | _, _ => false
  end.

Definition ProviderType_eqb (a b : ProviderType) : bool :=
  match a, b with
  | organization, organization | caregiver, caregiver => true
  | _, _ => false
  end.

Definition AuthFlowStep_eqb (a b : AuthFlowStep) : bool :=
  match a, b with
  | step_intent, step_intent
  | step_provider_type, step_provider_type
  | step_provider_info, step_provider_info
  | step_org_search, step_org_search
  | step_visibility, step_visibility
  | step_family_info, step_family_info
  | step_family_needs, step_family_needs
  | step_auth, step_auth
  | step_verify_code, step_verify_code => true
  | _, _ => false
  end.

(** [ProfileCategory] is declared in [@/lib/types]; the flow only stores
    and forwards it, so it is kept as its string tag. *)
Definition ProfileCategory := string.

(** The row type [Profile] of [@/lib/types], restricted to the columns
    the flow reads or writes.  Every column the flow tests with [!s.col]
    or [s.col?.] is nullable. *)
Module Profile.
Record t := mk {
  id : string;
  account_id : option string;
  display_name : option string;
  city : option string;
  state : option string;
  zip : option string;
  care_types : option (list string);
  category : option ProfileCategory;
  description : option string;
  phone : option string;
  claim_state : string;
}.
End Profile.

(** [FlowData] *)
Record FlowData := mkFlowData {
  email : string;
  password : string;
  displayName : string;
  intent : option UserIntent;
  providerType : option ProviderType;
  orgName : string;
  city : string;
  state : string;
  zip : string;
  careTypes : list string;
  category : option ProfileCategory;
  description : string;
  phone : string;
  visibleToFamilies : bool;
  visibleToProviders : bool;
  claimedProfileId : option string;
  claimedProfile : option Profile.t;
  careRecipientName : string;
  careRecipientRelation : string;
  careNeeds : list string;
}.

Definition INITIAL_DATA : FlowData := {|
  email := "";
  password := "";
  displayName := "";
  intent := None;
  providerType := None;
  orgName := "";
  city := "";
  state := "";
  zip := "";
  careTypes := [];
  category := None;
  description := "";
  phone := "";
  visibleToFamilies := true;
  visibleToProviders := true;
  claimedProfileId := None;
  claimedProfile := None;
  careRecipientName := "";
  careRecipientRelation := "";
  careNeeds := [];
|}.

Definition STORAGE_KEY : string := "olera_onboarding_progress".

(* ================================================================== *)
(** ** Step configuration *)
(* ================================================================== *)

Record StepConfig := {
  title : string;
  stepNumber : nat;
  totalSteps : nat;
}.

(** Lookup in a [Record<string, number>] literal: [None] is [undefined]. *)
Fixpoint stepMap_get (m : list (AuthFlowStep * nat)) (k : AuthFlowStep)
  : option nat :=
  match m with
  | [] => None
  | (k', v) :: rest => if AuthFlowStep_eqb k' k then Some v else stepMap_get rest k
  end.

(** [stepMap[step] || 1]: [undefined] and [0] are both falsy. *)
Definition or_one (o : option nat) : nat :=
  match o with
  | Some (S n) => S n
  | Some 0 | None => 1
  end.

Definition providerStepMap (isOrg : bool) : list (AuthFlowStep * nat) :=
  [ (step_intent, 0);
    (step_provider_type, 1);
    (step_provider_info, 2);
    (step_org_search, 3);
    (step_visibility, if isOrg then 3 else 2);
    (step_auth, if isOrg then 4 else 3);
    (step_verify_code, if isOrg then 4 else 3) ].

Definition familyStepMap : list (AuthFlowStep * nat) :=
  [ (step_intent, 0);
    (step_family_info, 1);
    (step_family_needs, 2);
    (step_auth, 3);
    (step_verify_code, 3) ].

Definition isProviderData (data : FlowData) : bool :=
  match intent data with Some provider => true | _ => false end.

Definition isOrgData (data : FlowData) : bool :=
  match providerType data with Some organization => true | _ => false end.

Definition titles (data : FlowData) (step : AuthFlowStep) : string :=
  match step with
  | step_intent => "Welcome to Olera"
  | step_provider_type => "Tell us about yourself"
  | step_provider_info =>
      if isOrgData data then "About your organization" else "About you"
  | step_org_search => "Is your organization listed?"
  | step_visibility => "Who can find you?"
  | step_family_info => "Who needs care?"
  | step_family_needs => "Care preferences"
  | step_auth => "Create your account"
  | step_verify_code => "Verify your email"
  end.

Definition getStepConfig (step : AuthFlowStep) (data : FlowData)
    (isAuthenticated : bool) : StepConfig :=
  let isProvider := isProviderData data in
  let isOrg := isOrgData data in
  let '(total, number) :=
    if isProvider then
      let total0 := if isOrg then 3 else 2 in
      let total1 := if negb isAuthenticated then total0 + 1 else total0 in
      (total1, or_one (stepMap_get (providerStepMap isOrg) step))
    else
      ((if isAuthenticated then 2 else 3),
       or_one (stepMap_get familyStepMap step))
  in
  {| title := titles data step; stepNumber := number; totalSteps := total |}.

(* ================================================================== *)
(** ** Component props and state *)
(* ================================================================== *)

(** [AuthFlowModalProps] ([onClose] is a callback: calling it is logged
    as an outside call). *)
Record Props := {
  isOpen : bool;
  initialIntent : option UserIntent;
  initialProviderType : option ProviderType;
  claimProfile : option Profile.t;
  defaultToSignIn : bool;
}.

Inductive AuthMode := sign_up | sign_in.

(** All [useState] cells of the component, and the [useRef] latch. *)
Record State := {
  step : AuthFlowStep;
  data : FlowData;
  error : string;
  loading : bool;
  authMode : AuthMode;
  otpCode : string;
  resendCooldown : nat;
  searchQuery : string;
  searchResults : list Profile.t;
  searching : bool;
  hasSearched : bool;
  selectedOrgId : option string;
  claimAutoCompleteRef : bool;
}.

Definition setStep (v : AuthFlowStep) (s : State) : State :=
  {| step := v; data := data s; error := error s; loading := loading s;
     authMode := authMode s; otpCode := otpCode s;
     resendCooldown := resendCooldown s; searchQuery := searchQuery s;
     searchResults := searchResults s; searching := searching s;
     hasSearched := hasSearched s; selectedOrgId := selectedOrgId s;
     claimAutoCompleteRef := claimAutoCompleteRef s |}.

Definition setData (v : FlowData) (s : State) : State :=
  {| step := step s; data := v; error := error s; loading := loading s;
     authMode := authMode s; otpCode := otpCode s;
     resendCooldown := resendCooldown s; searchQuery := searchQuery s;
     searchResults := searchResults s; searching := searching s;
     hasSearched := hasSearched s; selectedOrgId := selectedOrgId s;
     claimAutoCompleteRef := claimAutoCompleteRef s |}.

Definition setError (v : string) (s : State) : State :=
  {| step := step s; data := data s; error := v; loading := loading s;
     authMode := authMode s; otpCode := otpCode s;
     resendCooldown := resendCooldown s; searchQuery := searchQuery s;
     searchResults := searchResults s; searching := searching s;
     hasSearched := hasSearched s; selectedOrgId := selectedOrgId s;
     claimAutoCompleteRef := claimAutoCompleteRef s |}.

Definition setLoading (v : bool) (s : State) : State :=
  {| step := step s; data := data s; error := error s; loading := v;
     authMode := authMode s; otpCode := otpCode s;
     resendCooldown := resendCooldown s; searchQuery := searchQuery s;
     searchResults := searchResults s; searching := searching s;
     hasSearched := hasSearched s; selectedOrgId := selectedOrgId s;
     claimAutoCompleteRef := claimAutoCompleteRef s |}.

Definition setOtpCode (v : string) (s : State) : State :=
  {| step := step s; data := data s; error := error s; loading := loading s;
     authMode := authMode s; otpCode := v;
     resendCooldown := resendCooldown s; searchQuery := searchQuery s;
     searchResults := searchResults s; searching := searching s;
     hasSearched := hasSearched s; selectedOrgId := selectedOrgId s;
     claimAutoCompleteRef := claimAutoCompleteRef s |}.

Definition setResendCooldown (v : nat) (s : State) : State :=
  {| step := step s; data := data s; error := error s; loading := loading s;
     authMode := authMode s; otpCode := otpCode s;
     resendCooldown := v; searchQuery := searchQuery s;
     searchResults := searchResults s; searching := searching s;
     hasSearched := hasSearched s; selectedOrgId := selectedOrgId s;
     claimAutoCompleteRef := claimAutoCompleteRef s |}.

Definition setSearchQuery (v : string) (s : State) : State :=
  {| step := step s; data := data s; error := error s; loading := loading s;
     authMode := authMode s; otpCode := otpCode s;
     resendCooldown := resendCooldown s; searchQuery := v;
     searchResults := searchResults s; searching := searching s;
     hasSearched := hasSearched s; selectedOrgId := selectedOrgId s;
     claimAutoCompleteRef := claimAutoCompleteRef s |}.

Definition setLatch (v : bool) (s : State) : State :=
  {| step := step s; data := data s; error := error s; loading := loading s;
     authMode := authMode s; otpCode := otpCode s;
     resendCooldown := resendCooldown s; searchQuery := searchQuery s;
     searchResults := searchResults s; searching := searching s;
     hasSearched := hasSearched s; selectedOrgId := selectedOrgId s;
     claimAutoCompleteRef := v |}.

(** [getInitialStep] *)
Definition getInitialStep (P : Props) : AuthFlowStep :=
  match claimProfile P with
  | Some _ => step_auth
  | None =>
      match initialIntent P with
      | Some provider =>
          match initialProviderType P with
          | Some _ => step_provider_info
          | None => step_provider_type
          end
      | Some family => step_family_info
      | None => step_intent
      end
  end.

Definition or_nil (o : option (list string)) : list string :=
  match o with Some l => l | None => [] end.

(** The initializer of the [data] cell, also used by the reset effect. *)
Definition initialData (P : Props) : FlowData :=
  match claimProfile P with
  | Some cp =>
      {| email := ""; password := ""; displayName := "";
         intent := Some provider;
         providerType := Some organization;
         orgName := Js.or_empty (Profile.display_name cp);
         city := Js.or_empty (Profile.city cp);
         state := Js.or_empty (Profile.state cp);
         zip := Js.or_empty (Profile.zip cp);
         careTypes := or_nil (Profile.care_types cp);
         category := Profile.category cp;
         description := Js.or_empty (Profile.description cp);
         phone := Js.or_empty (Profile.phone cp);
         visibleToFamilies := true; visibleToProviders := true;
         claimedProfileId := Some (Profile.id cp);
         claimedProfile := Some cp;
         careRecipientName := ""; careRecipientRelation := "";
         careNeeds := [] |}
  | None =>
      {| email := ""; password := ""; displayName := "";
         intent := initialIntent P;
         providerType := initialProviderType P;
         orgName := ""; city := ""; state := ""; zip := "";
         careTypes := []; category := None; description := ""; phone := "";
         visibleToFamilies := true; visibleToProviders := true;
         claimedProfileId := None; claimedProfile := None;
         careRecipientName := ""; careRecipientRelation := "";
         careNeeds := [] |}
  end.

(** The state of a freshly mounted component; the reset effect (run
    whenever [isOpen] is false) restores every cell to it. *)
Definition initialState (P : Props) : State :=
  {| step := getInitialStep P;
     data := initialData P;
     error := "";
     loading := false;
     authMode := if defaultToSignIn P then sign_in else sign_up;
     otpCode := "";
     resendCooldown := 0;
     searchQuery := "";
     searchResults := [];
     searching := false;
     hasSearched := false;
     selectedOrgId := None;
     claimAutoCompleteRef := false |}.

(** The reset effect: when the modal is closed, every state cell goes
    back to its initial value (the latch is handled by its own effect). *)
Definition resetEffect (P : Props) (s : State) : State :=
  if isOpen P then s
  else setLatch (claimAutoCompleteRef s) (initialState P).

(* ================================================================== *)
(** ** Partial updates of the flow data *)
(* ================================================================== *)

(** [Partial<FlowData>]: a key is present ([Some v]) or absent ([None]).
    For nullable fields a present key may carry [null]. *)
Record Partial := {
  p_email : option string;
  p_password : option string;
  p_displayName : option string;
  p_intent : option (option UserIntent);
  p_providerType : option (option ProviderType);
  p_orgName : option string;
  p_city : option string;
  p_state : option string;
  p_zip : option string;
  p_careTypes : option (list string);
  p_category : option (option ProfileCategory);
  p_description : option string;
  p_phone : option string;
  p_visibleToFamilies : option bool;
  p_visibleToProviders : option bool;
  p_claimedProfileId : option (option string);
  p_claimedProfile : option (option Profile.t);
  p_careRecipientName : option string;
  p_careRecipientRelation : option string;
  p_careNeeds : option (list string);
}.

Definition over {A : Type} (prev : A) (o : option A) : A :=
  match o with Some v => v | None => prev end.

(** [{ ...prev, ...partial }] *)
Definition spread (prev : FlowData) (p : Partial) : FlowData :=
  {| email := over (email prev) (p_email p);
     password := over (password prev) (p_password p);
     displayName := over (displayName prev) (p_displayName p);
     intent := over (intent prev) (p_intent p);
     providerType := over (providerType prev) (p_providerType p);
     orgName := over (orgName prev) (p_orgName p);
     city := over (city prev) (p_city p);
     state := over (state prev) (p_state p);
     zip := over (zip prev) (p_zip p);
     careTypes := over (careTypes prev) (p_careTypes p);
     category := over (category prev) (p_category p);
     description := over (description prev) (p_description p);
     phone := over (phone prev) (p_phone p);
     visibleToFamilies := over (visibleToFamilies prev) (p_visibleToFamilies p);
     visibleToProviders := over (visibleToProviders prev) (p_visibleToProviders p);
     claimedProfileId := over (claimedProfileId prev) (p_claimedProfileId p);
     claimedProfile := over (claimedProfile prev) (p_claimedProfile p);
     careRecipientName := over (careRecipientName prev) (p_careRecipientName p);
     careRecipientRelation :=
       over (careRecipientRelation prev) (p_careRecipientRelation p);
     careNeeds := over (careNeeds prev) (p_careNeeds p) |}.

(** [updateData(partial)] *)
Definition updateData (p : Partial) (s : State) : State :=
  setData (spread (data s) p) s.

(** The empty partial [{}]. *)
Definition no_keys : Partial :=
  {| p_email := None; p_password := None; p_displayName := None;
     p_intent := None; p_providerType := None; p_orgName := None;
     p_city := None; p_state := None; p_zip := None; p_careTypes := None;
     p_category := None; p_description := None; p_phone := None;
     p_visibleToFamilies := None; p_visibleToProviders := None;
     p_claimedProfileId := None; p_claimedProfile := None;
     p_careRecipientName := None; p_careRecipientRelation := None;
     p_careNeeds := None |}.

(* ================================================================== *)
(** ** Draft persistence (localStorage) *)
(* ================================================================== *)

(** A JavaScript number as far as the age test of the restore effect
    needs it: [NaN], an infinity ([JSON.parse] reads [1e999] as
    [Infinity]), or a whole number of milliseconds, which is what
    [Date.now()] gives and the save effect writes. *)
Inductive JsNumber :=
| NaN
| Infinity (negative : bool)
| Whole (z : Z).

(** The value under the key [timestamp] of a parsed blob.  [JSON.parse]
    accepts any JSON value there, and the subtraction
    [Date.now() - parsed.timestamp] coerces it with ToNumber before it
    compares.  A value that is not a number is kept by its kind where
    the kind fixes the number ([undefined], [null], a boolean), and by
    the number its text denotes where it does not: [JText n] is a string
    or an array whose text reads as [n] (["1700000000000"] and
    [[1700000000000]] read as that number, [""] and [[]] as 0), or a
    string, array or object whose text is no number ([n = NaN]). *)
Inductive JsonValue :=
| JAbsent
| JNull
| JBool (b : bool)
| JNumber (n : JsNumber)
| JText (n : JsNumber).

(** ToNumber *)
Definition ToNumber (v : JsonValue) : JsNumber :=
  match v with
  | JAbsent => NaN
  | JNull => Whole 0
  | JBool b => Whole (if b then 1 else 0)
  | JNumber n => n
  | JText n => n
  end.

(** What [JSON.parse(saved)] yields for the item under [STORAGE_KEY].
    - [Corrupt]: the [try] block throws before the age test has its
      result: [JSON.parse] throws, or the value is [null], so that
      reading [parsed.timestamp] throws, or the timestamp is an object
      that cannot be converted to a primitive;
    - [Parsed]: a value with whatever it has under [timestamp]
      ([JAbsent] also when the value is no object at all) and whose
      [data] is an object with keys of the flow data, or missing
      ([None]). *)
Record SavedProgress := {
  saved_step : option AuthFlowStep;
  saved_data : option Partial;
  saved_timestamp : JsonValue;
}.

Inductive Item :=
| Corrupt (text : string)
| Parsed (v : SavedProgress).

(** The one slot of [localStorage] the flow uses; [None] is no item. *)
Definition Storage := option Item.

(** The object literal [toSave.data]: sixteen keys, neither the auth
    fields nor the claim fields. *)
Definition draftOf (d : FlowData) : Partial :=
  {| p_email := None;
     p_password := None;
     p_displayName := Some (displayName d);
     p_intent := Some (intent d);
     p_providerType := Some (providerType d);
     p_orgName := Some (orgName d);
     p_city := Some (city d);
     p_state := Some (state d);
     p_zip := Some (zip d);
     p_careTypes := Some (careTypes d);
     p_category := Some (category d);
     p_description := Some (description d);
     p_phone := Some (phone d);
     p_visibleToFamilies := Some (visibleToFamilies d);
     p_visibleToProviders := Some (visibleToProviders d);
     p_claimedProfileId := None;
     p_claimedProfile := None;
     p_careRecipientName := Some (careRecipientName d);
     p_careRecipientRelation := Some (careRecipientRelation d);
     p_careNeeds := Some (careNeeds d) |}.

Definition toSave (stp : AuthFlowStep) (d : FlowData) (now : Z) : SavedProgress :=
  {| saved_step := Some stp;
     saved_data := Some (draftOf d);
     saved_timestamp := JNumber (Whole now) |}.

Definition isAuthStep (stp : AuthFlowStep) : bool :=
  match stp with step_auth | step_verify_code => true | _ => false end.

(** The save effect.  [writable = false] is [localStorage.setItem]
    throwing, which the effect swallows.  The result is the new content
    of the slot and whether [setItem] was called. *)
Definition saveEffect (P : Props) (now : Z) (writable : bool)
    (s : State) (store : Storage) : Storage * bool :=
  if (isOpen P && negb (isAuthStep (step s)))%bool then
    ((if writable then Some (Parsed (toSave (step s) (data s) now)) else store),
     true)
  else (store, false).

(** [Date.now() - parsed.timestamp < 30 * 60 * 1000] *)
Definition VALIDITY_MS : Z := 30 * 60 * 1000.

Definition isFresh (now : Z) (timestamp : JsonValue) : bool :=
  match ToNumber timestamp with
  | Whole t => (now - t <? VALIDITY_MS)%Z
  | Infinity negative => negb negative
  | NaN => false
  end.

(** [!initialIntent || parsed.data.intent === initialIntent]; [None] is
    the [TypeError] of reading [.intent] of a missing [data]. *)
Definition intentMatches (preset : option UserIntent) (d : option Partial)
  : option bool :=
  match preset with
  | None => Some true
  | Some i =>
      match d with
      | None => None
      | Some p =>
          match p_intent p with
          | Some (Some j) => Some (UserIntent_eqb j i)
          | _ => Some false
          end
      end
  end.

(** The restore effect: new content of the slot and new flow data. *)
Definition restoreEffect (P : Props) (now : Z) (store : Storage)
    (prev : FlowData) : Storage * FlowData :=
  match isOpen P, claimProfile P with
  | true, None =>
      match store with
      | None => (store, prev)
      | Some (Corrupt _) => (store, prev)
      | Some (Parsed parsed) =>
          if isFresh now (saved_timestamp parsed) then
            match intentMatches (initialIntent P) (saved_data parsed) with
            | Some true =>
                (store, match saved_data parsed with
                        | Some d => spread prev d
                        | None => prev
                        end)
            | Some false => (store, prev)
            | None => (store, prev)
            end
          else (None, prev)
      end
  | _, _ => (store, prev)
  end.

(** What happens when the flow opens, in the order React runs the two
    persistence effects of one render: the save effect, declared first,
    then the restore effect. *)
Definition openEffects (P : Props) (now : Z) (writable : bool) (s : State)
    (store : Storage) : Storage * State :=
  let store1 := fst (saveEffect P now writable s store) in
  let r := restoreEffect P now store1 (data s) in
  (fst r, setData (snd r) s).

(* ================================================================== *)
(** ** Outside services *)
(* ================================================================== *)

(** The identity returned by [supabase.auth.getUser()] / [useAuth().user]. *)
Record User := { user_email : option string }.

(** A row of [accounts]. *)
Record Account := {
  acct_id : string;
  acct_display_name : option string;
}.

(** The object [claimUpdate] of [createProviderProfile]: [account_id]
    and [claim_state] are always set, every other key is set or absent. *)
Record ClaimUpdate := {
  cu_account_id : string;
  cu_claim_state : string;
  cu_display_name : option string;
  cu_city : option string;
  cu_state : option string;
  cu_zip : option string;
  cu_care_types : option (list string);
  cu_description : option string;
  cu_phone : option string;
}.

Inductive Metadata :=
| ProviderMeta (visible_to_families visible_to_providers : bool)
| FamilyMeta (care_recipient_name care_recipient_relation : option string).

(** The row literal passed to [insert]. *)
Record ProfileInsert := {
  ins_account_id : string;
  ins_slug : string;
  ins_type : string;
  ins_category : option ProfileCategory;
  ins_display_name : string;
  ins_description : option string;
  ins_phone : option string;
  ins_city : option string;
  ins_state : option string;
  ins_zip : option string;
  ins_care_types : list string;
  ins_claim_state : string;
  ins_verification_state : string;
  ins_source : string;
  ins_is_active : bool;
  ins_metadata : Metadata;
}.

(** Calls that leave the component, in the order they are made. *)
Inductive Call :=
| GwSignUp (email password : string) (display_name : option string)
| GwSignInWithPassword (email password : string)
| GwSignInWithOtp (email : string)
| GwVerifyOtp (email token : string)
| GwGetUser
| ApiEnsureAccount (display_name : string)
| DbUpdateProfile (id : string) (u : ClaimUpdate)
| DbInsertProfile (row : ProfileInsert)
| DbUpdateAccount (id : string) (active_profile_id : string)
    (display_name : string)
| DbUpsertMembership (account_id : string)
| StorageRemove
| RefreshAccountData
| OnClose
| RouterPush (path : string).

(** The answer of an awaited call: a value, or a rejection (the [await]
    throws and control goes to the enclosing [catch]). *)
Inductive Awaited (A : Type) :=
| Resolved (a : A)
| Rejected.
Arguments Resolved {A} a.
Arguments Rejected {A}.

Inductive SignUpResult :=
| SignUpError (message : string)
| SignUpData (hasSession : bool) (identities : option nat).

Inductive EnsureResponse :=
| EnsureNotOk (errorField : option string)
| EnsureOk (newAccount : option Account).

Inductive InsertResult :=
| InsertError (message : string)
| Inserted (id : string).

(** Everything the outside answers during one handler run. *)
Record Env := {
  configured : bool;                         (* isSupabaseConfigured() *)
  signUp : Awaited SignUpResult;
  signInWithOtp : Awaited (option string);   (* the [error], if any *)
  signInWithPassword : Awaited (option string);
  verifyOtp : Awaited (option string);
  getUser : option User;
  account : option Account;                  (* useAuth().account *)
  ensureAccount : EnsureResponse;
  claimErr : option string;
  insertResult : InsertResult;
  accountErr : option string;
  slugSuffix : string;                       (* the Math.random part *)
}.

(* ================================================================== *)
(** ** Slugs *)
(* ================================================================== *)

Definition lower (c : ascii) : ascii :=
  let n := nat_of_ascii c in
  if (Nat.leb 65 n && Nat.leb n 90)%bool then ascii_of_nat (n + 32) else c.

Definition is_slug_char (c : ascii) : bool :=
  let n := nat_of_ascii c in
  ((Nat.leb 97 n && Nat.leb n 122) || (Nat.leb 48 n && Nat.leb n 57))%bool.

(** [.toLowerCase().replace(/[^a-z0-9]+/g, "-")]; [inRun] tells that the
    previous character already produced the dash of the current run. *)
Fixpoint dashify (inRun : bool) (s : string) : string :=
  match s with
  | EmptyString => EmptyString
  | String c rest =>
      let c' := lower c in
      if is_slug_char c' then String c' (dashify false rest)
      else if inRun then dashify true rest
      else String "-" (dashify true rest)
  end.

Fixpoint dropDashes (s : string) : string :=
  match s with
  | String "-" rest => dropDashes rest
  | _ => s
  end.

Fixpoint dropEndDashes (s : string) : string :=
  match s with
  | EmptyString => EmptyString
  | String c rest =>
      match dropEndDashes rest with
      | EmptyString => if Ascii.eqb c "-" then EmptyString else String c EmptyString
      | kept => String c kept
      end
  end.

Fixpoint join_space (parts : list string) : string :=
  match parts with
  | [] => ""
  | [p] => p
  | p :: rest => p ++ " " ++ join_space rest
  end.

(** [generateSlug]; [suffix] is
    [Math.random().toString(36).substring(2, 6)]. *)
Definition generateSlug (name city state suffix : string) : string :=
  let parts := filter Js.truthy [name; city; state] in
  let slug := dropEndDashes (dropDashes (dashify false (join_space parts))) in
  slug ++ "-" ++ suffix.

(* ================================================================== *)
(** ** Commit orchestrator *)
(* ================================================================== *)

(** [s || null] *)
Definition or_null (s : string) : option string :=
  if Js.truthy s then Some s else None.

Definition when {A : Type} (c : bool) (v : A) : option A :=
  if c then Some v else None.

Definition empty_list_opt (o : option (list string)) : bool :=
  match o with
  | None => true
  | Some l => Nat.eqb (List.length l) 0
  end.

(** The object [claimUpdate] built for the target [s]. *)
Definition claimUpdate (d : FlowData) (s : Profile.t) (accountId : string)
  : ClaimUpdate :=
  {| cu_account_id := accountId;
     cu_claim_state := "pending";
     cu_display_name :=
       when (Js.blank_opt (Profile.display_name s) && Js.truthy (orgName d))
            (orgName d);
     cu_city :=
       when (negb (Js.truthy_opt (Profile.city s)) && Js.truthy (city d))
            (city d);
     cu_state :=
       when (negb (Js.truthy_opt (Profile.state s)) && Js.truthy (state d))
            (state d);
     cu_zip :=
       when (negb (Js.truthy_opt (Profile.zip s)) && Js.truthy (zip d))
            (zip d);
     cu_care_types :=
       when (empty_list_opt (Profile.care_types s)
             && Nat.ltb 0 (List.length (careTypes d)))
            (careTypes d);
     cu_description :=
       when (Js.blank_opt (Profile.description s) && Js.truthy (description d))
            (description d);
     cu_phone :=
       when (negb (Js.truthy_opt (Profile.phone s)) && Js.truthy (phone d))
            (phone d) |}.

(** The row literal of the provider insert. *)
Definition providerRow (env : Env) (d : FlowData) (accountId : string)
  : ProfileInsert :=
  let profileType :=
    match providerType d with Some caregiver => "caregiver" | _ => "organization" end in
  let name := if isOrgData d then orgName d else displayName d in
  {| ins_account_id := accountId;
     ins_slug := generateSlug name (city d) (state d) (slugSuffix env);
     ins_type := profileType;
     ins_category := category d;
     ins_display_name := name;
     ins_description := or_null (description d);
     ins_phone := or_null (phone d);
     ins_city := or_null (city d);
     ins_state := or_null (state d);
     ins_zip := or_null (zip d);
     ins_care_types := careTypes d;
     ins_claim_state := "pending";
     ins_verification_state := "unverified";
     ins_source := "user_created";
     ins_is_active := true;
     ins_metadata := ProviderMeta (visibleToFamilies d) (visibleToProviders d) |}.

(** The row literal of the family insert. *)
Definition familyRow (env : Env) (d : FlowData) (accountId : string)
  : ProfileInsert :=
  {| ins_account_id := accountId;
     ins_slug := generateSlug (displayName d) (city d) (state d) (slugSuffix env);
     ins_type := "family";
     ins_category := None;
     ins_display_name := displayName d;
     ins_description := None;
     ins_phone := None;
     ins_city := or_null (city d);
     ins_state := or_null (state d);
     ins_zip := or_null (zip d);
     ins_care_types := careNeeds d;
     ins_claim_state := "claimed";
     ins_verification_state := "unverified";
     ins_source := "user_created";
     ins_is_active := true;
     ins_metadata := FamilyMeta (or_null (careRecipientName d))
                                (or_null (careRecipientRelation d)) |}.

(** The result of a profile helper: the calls made, and either the
    message of the error it throws or the profile id it returns. *)
Definition Created := (list Call * (string + string))%type.

Definition insertProfile (env : Env) (row : ProfileInsert) : Created :=
  ([DbInsertProfile row],
   match insertResult env with
   | InsertError m => inl m
   | Inserted newId => inr newId
   end).

(** [createProviderProfile] *)
Definition createProviderProfile (env : Env) (d : FlowData)
    (accountId : string) : Created :=
  match claimedProfileId d, claimedProfile d with
  | Some cid, Some s =>
      if Js.truthy cid then
        ([DbUpdateProfile cid (claimUpdate d s accountId)],
         match claimErr env with
         | Some m => inl m
         | None => inr cid
         end)
      else insertProfile env (providerRow env d accountId)
  | _, _ => insertProfile env (providerRow env d accountId)
  end.

(** [createFamilyProfile] *)
Definition createFamilyProfile (env : Env) (d : FlowData)
    (accountId : string) : Created :=
  insertProfile env (familyRow env d accountId).

(** The user-facing messages of [handleComplete]. *)
Definition MSG_BACKEND : string := "Backend not configured.".
Definition MSG_NOT_AUTHENTICATED : string := "Not authenticated. Please try again.".
Definition MSG_ACCOUNT_SETUP : string := "Account setup failed. Please try again.".
Definition MSG_MISSING_INTENT : string :=
  "Please select whether you're looking for care or providing care.".
Definition MSG_WENT_WRONG (message : string) : string :=
  "Something went wrong: " ++ message.

(** [email.split("@")[0]] *)
Fixpoint before_at (s : string) : string :=
  match s with
  | EmptyString => EmptyString
  | String c rest => if Ascii.eqb c "@" then EmptyString else String c (before_at rest)
  end.

(** An early [return] after [setError(msg); setLoading(false)]. *)
Definition failWith (msg : string) (calls : list Call) (s : State)
  : State * list Call :=
  (setLoading false (setError msg s), calls).

(** The [catch] block of [handleComplete]. *)
Definition caught (message : string) (calls : list Call) (s : State)
  : State * list Call :=
  failWith (MSG_WENT_WRONG message) calls s.

(** The tail of [handleComplete] once a profile id is known. *)
Definition finishCommit (env : Env) (d : FlowData) (accountRow : Account)
    (profileId : string) (calls : list Call) (s : State) : State * list Call :=
  let name := Js.or_else (displayName d) (orgName d) in
  let calls1 :=
    (calls ++ [DbUpdateAccount (acct_id accountRow) profileId
                 (Js.or_else (Js.or_empty (acct_display_name accountRow)) name)])%list in
  match accountErr env with
  | Some m => caught m calls1 s
  | None =>
      let calls2 :=
        match intent d with
        | Some provider => (calls1 ++ [DbUpsertMembership (acct_id accountRow)])%list
        | _ => calls1
        end in
      (s, (calls2 ++ [StorageRemove; RefreshAccountData; OnClose;
                      RouterPush (match intent d with
                                  | Some family => "/browse"
                                  | _ => "/portal"
                                  end)])%list)
  end.

(** The profile step of [handleComplete]: branch on the intent. *)
Definition commitProfile (env : Env) (d : FlowData) (accountRow : Account)
    (calls : list Call) (s : State) : State * list Call :=
  match intent d with
  | Some provider =>
      match createProviderProfile env d (acct_id accountRow) with
      | (cs, inl m) => caught m (calls ++ cs)%list s
      | (cs, inr pid) => finishCommit env d accountRow pid (calls ++ cs)%list s
      end
  | Some family =>
      match createFamilyProfile env d (acct_id accountRow) with
      | (cs, inl m) => caught m (calls ++ cs)%list s
      | (cs, inr pid) => finishCommit env d accountRow pid (calls ++ cs)%list s
      end
  | None => failWith MSG_MISSING_INTENT calls s
  end.

(** [handleComplete].  [d] is the [data] the closure captured at the
    render the handler belongs to; [s] is the state it updates. *)
Definition handleComplete (env : Env) (d : FlowData) (s : State)
  : State * list Call :=
  let s := setError "" (setLoading true s) in
  if negb (configured env) then failWith MSG_BACKEND [] s
  else
    match getUser env with
    | None => failWith MSG_NOT_AUTHENTICATED [GwGetUser] s
    | Some currentUser =>
        match account env with
        | Some accountRow => commitProfile env d accountRow [GwGetUser] s
        | None =>
            let name :=
              Js.or_else (displayName d)
                (Js.or_else (orgName d)
                   (match user_email currentUser with
                    | Some e => before_at e
                    | None => ""
                    end)) in
            let calls := [GwGetUser; ApiEnsureAccount name] in
            match ensureAccount env with
            | EnsureNotOk e =>
                caught (Js.or_else (Js.or_empty e) "Failed to set up account")
                       calls s
            | EnsureOk None => failWith MSG_ACCOUNT_SETUP calls s
            | EnsureOk (Some accountRow) =>
                commitProfile env d accountRow calls s
            end
        end
    end.

(* ================================================================== *)
(** ** Navigation *)
(* ================================================================== *)

(** [goBack] *)
Definition goBack (P : Props) (s : State) : State :=
  let s := setError "" s in
  match step s with
  | step_provider_type =>
      match initialIntent P with
      | None => setStep step_intent s
      | Some _ => s
      end
  | step_provider_info =>
      match initialProviderType P with
      | Some _ => s
      | None => setStep step_provider_type s
      end
  | step_org_search => setStep step_provider_info s
  | step_family_info =>
      match initialIntent P with
      | None => setStep step_intent s
      | Some _ => s
      end
  | step_family_needs => setStep step_family_info s
  | step_auth =>
      match claimProfile P with
      | Some _ => s
      | None =>
          if isProviderData (data s) then
            if isOrgData (data s) then setStep step_org_search s
            else setStep step_provider_info s
          else setStep step_family_needs s
      end
  | step_verify_code => setOtpCode "" (setStep step_auth s)
  | step_intent | step_visibility => s
  end.

Definition is_some {A : Type} (o : option A) : bool :=
  match o with Some _ => true | None => false end.

(** [canGoBack] *)
Definition canGoBack (P : Props) (s : State) : bool :=
  match step s with
  | step_intent => false
  | step_provider_type =>
      negb (match initialIntent P with Some provider => true | _ => false end)
  | step_provider_info => negb (is_some (initialProviderType P))
  | step_family_info =>
      negb (match initialIntent P with Some family => true | _ => false end)
  | step_auth => negb (is_some (claimProfile P))
  | _ => true
  end.

(** [handleIntentSelect] *)
Definition handleIntentSelect (i : UserIntent) (s : State) : State :=
  let s :=
    updateData {| p_email := None; p_password := None; p_displayName := None;
                  p_intent := Some (Some i); p_providerType := None;
                  p_orgName := None; p_city := None; p_state := None;
                  p_zip := None; p_careTypes := None; p_category := None;
                  p_description := None; p_phone := None;
                  p_visibleToFamilies := None; p_visibleToProviders := None;
                  p_claimedProfileId := None; p_claimedProfile := None;
                  p_careRecipientName := None;
                  p_careRecipientRelation := None; p_careNeeds := None |} s in
  match i with
  | provider => setStep step_provider_type s
  | family => setStep step_family_info s
  end.

(** [handleProviderTypeSelect] *)
Definition handleProviderTypeSelect (t : ProviderType) (s : State) : State :=
  setStep step_provider_info
    (updateData
       {| p_email := None; p_password := None; p_displayName := None;
          p_intent := None; p_providerType := Some (Some t);
          p_orgName := None; p_city := None; p_state := None;
          p_zip := None; p_careTypes := None; p_category := None;
          p_description := None; p_phone := None;
          p_visibleToFamilies := None; p_visibleToProviders := None;
          p_claimedProfileId := None; p_claimedProfile := None;
          p_careRecipientName := None;
          p_careRecipientRelation := None; p_careNeeds := None |} s).

(** [handleProviderInfoNext]; [user] is [useAuth().user]. *)
Definition handleProviderInfoNext (env : Env) (user : option User) (s : State)
  : State * list Call :=
  if isOrgData (data s) then
    (setStep step_org_search (setSearchQuery (orgName (data s)) s), [])
  else if is_some user then handleComplete env (data s) s
  else (setStep step_auth s, []).

(** [isProviderInfoValid] *)
Definition isProviderInfoValid (d : FlowData) : bool :=
  let name := if isOrgData d then orgName d else displayName d in
  (Js.nonblank name
   && (Js.nonblank (city d) || Js.nonblank (state d))
   && Nat.ltb 0 (List.length (careTypes d))
   && Js.nonblank (phone d))%bool.

(** The [disabled] attribute of the Continue button of
    [ProviderInfoStep]: [!isValid || loading]. *)
Definition providerInfoContinueDisabled (s : State) : bool :=
  (negb (isProviderInfoValid (data s)) || loading s)%bool.

(** [searchResults.find((p) => p.id === selectedOrgId)] *)
Definition findProfile (sel : string) (l : list Profile.t) : option Profile.t :=
  find (fun p => String.eqb (Profile.id p) sel) l.

(** [handleOrgSearchNext].  [handleComplete] runs with the [data] of the
    current render, that is without the claim keys set just before. *)
Definition handleOrgSearchNext (env : Env) (user : option User) (s : State)
  : State * list Call :=
  let s1 :=
    match selectedOrgId s with
    | Some sel =>
        if Js.truthy sel then
          match findProfile sel (searchResults s) with
          | Some profile =>
              updateData
                {| p_email := None; p_password := None; p_displayName := None;
                   p_intent := None; p_providerType := None;
                   p_orgName := None; p_city := None; p_state := None;
                   p_zip := None; p_careTypes := None; p_category := None;
                   p_description := None; p_phone := None;
                   p_visibleToFamilies := None; p_visibleToProviders := None;
                   p_claimedProfileId := Some (Some sel);
                   p_claimedProfile := Some (Some profile);
                   p_careRecipientName := None;
                   p_careRecipientRelation := None; p_careNeeds := None |} s
          | None => s
          end
        else s
    | None => s
    end in
  if is_some user then handleComplete env (data s) s1
  else (setStep step_auth s1, []).

(** [handleFamilyInfoNext] *)
Definition handleFamilyInfoNext (s : State) : State :=
  setStep step_family_needs s.

(** [handleFamilyNeedsNext] *)
Definition handleFamilyNeedsNext (env : Env) (user : option User) (s : State)
  : State * list Call :=
  if is_some user then handleComplete env (data s) s
  else (setStep step_auth s, []).

(* ================================================================== *)
(** ** Identity handlers *)
(* ================================================================== *)

Definition MSG_PASSWORD_SHORT : string := "Password must be at least 8 characters.".
Definition MSG_AUTH_NOT_CONFIGURED : string := "Authentication is not configured.".
Definition MSG_ALREADY_REGISTERED : string :=
  "This email is already registered. Try signing in instead.".
Definition MSG_TRY_AGAIN : string := "Something went wrong. Please try again.".
Definition MSG_WRONG_CREDENTIALS : string := "Wrong email or password. Please try again.".
Definition MSG_ENTER_CODE : string := "Please enter the 8-digit code.".
Definition MSG_CODE_EXPIRED : string :=
  "This code has expired. Please request a new one.".
Definition MSG_CODE_INVALID : string := "Invalid code. Please check and try again.".
Definition MSG_RESEND_FAILED : string := "Failed to resend code. Please try again.".
Definition MSG_EMAIL_FIRST : string := "Please enter your email address first.".
Definition MSG_NO_ACCOUNT : string :=
  "No account found with this email. Please sign up first.".
Definition MSG_SEND_FAILED : string := "Failed to send code. Please try again.".

(** [handleSignUp] *)
Definition handleSignUp (env : Env) (s : State) : State * list Call :=
  let d := data s in
  let s := setError "" s in
  if Nat.ltb (String.length (password d)) 8 then
    (setError MSG_PASSWORD_SHORT s, [])
  else
    let s := setLoading true s in
    if negb (configured env) then failWith MSG_AUTH_NOT_CONFIGURED [] s
    else
      let displayNameForAuth := Js.or_else (displayName d) (orgName d) in
      let calls := [GwSignUp (email d) (password d) (or_null displayNameForAuth)] in
      match signUp env with
      | Rejected => failWith MSG_TRY_AGAIN calls s
      | Resolved (SignUpError m) =>
          if Js.includes m "already registered"
          then failWith MSG_ALREADY_REGISTERED calls s
          else failWith m calls s
      | Resolved (SignUpData false identities) =>
          match identities with
          | Some 0 => failWith MSG_ALREADY_REGISTERED calls s
          | _ =>
              let calls := (calls ++ [GwSignInWithOtp (email d)])%list in
              match signInWithOtp env with
              | Rejected => failWith MSG_TRY_AGAIN calls s
              | Resolved _ =>
                  (setStep step_verify_code
                     (setLoading false (setResendCooldown 30 s)), calls)
              end
          end
      | Resolved (SignUpData true _) =>
          let '(s', cs) := handleComplete env d (setLoading false s) in
          (s', (calls ++ cs)%list)
      end.

(** [handleSignIn] *)
Definition handleSignIn (env : Env) (s : State) : State * list Call :=
  let d := data s in
  let s := setLoading true (setError "" s) in
  if negb (configured env) then failWith MSG_AUTH_NOT_CONFIGURED [] s
  else
    let calls := [GwSignInWithPassword (email d) (password d)] in
    match signInWithPassword env with
    | Rejected => failWith MSG_TRY_AGAIN calls s
    | Resolved (Some m) =>
        failWith (if String.eqb m "Invalid login credentials"
                  then MSG_WRONG_CREDENTIALS else m) calls s
    | Resolved None =>
        let '(s', cs) := handleComplete env d (setLoading false s) in
        (s', (calls ++ cs)%list)
    end.

(** [handleVerifyOtp] *)
Definition handleVerifyOtp (env : Env) (s : State) : State * list Call :=
  let d := data s in
  if negb (Nat.eqb (String.length (otpCode s)) 8) then
    (setError MSG_ENTER_CODE s, [])
  else
    let s := setLoading true (setError "" s) in
    if negb (configured env) then failWith MSG_AUTH_NOT_CONFIGURED [] s
    else
      let calls := [GwVerifyOtp (email d) (otpCode s)] in
      match verifyOtp env with
      | Rejected => failWith MSG_TRY_AGAIN calls s
      | Resolved (Some m) =>
          if Js.includes m "expired" then failWith MSG_CODE_EXPIRED calls s
          else if Js.includes m "invalid" then failWith MSG_CODE_INVALID calls s
          else failWith m calls s
      | Resolved None =>
          let '(s', cs) := handleComplete env d s in
          (s', (calls ++ cs)%list)
      end.

(** [handleResendCode] *)
Definition handleResendCode (env : Env) (s : State) : State * list Call :=
  if Nat.ltb 0 (resendCooldown s) then (s, [])
  else
    let s := setLoading true (setError "" s) in
    if negb (configured env) then failWith MSG_AUTH_NOT_CONFIGURED [] s
    else
      let calls := [GwSignInWithOtp (email (data s))] in
      match signInWithOtp env with
      | Rejected => failWith MSG_RESEND_FAILED calls s
      | Resolved (Some m) => failWith m calls s
      | Resolved None =>
          (setLoading false (setOtpCode "" (setResendCooldown 60 s)), calls)
      end.

(** [handleSendOtpForSignIn] *)
Definition handleSendOtpForSignIn (env : Env) (s : State) : State * list Call :=
  if negb (Js.truthy (Js.trim (email (data s)))) then
    (setError MSG_EMAIL_FIRST s, [])
  else
    let s := setLoading true (setError "" s) in
    if negb (configured env) then failWith MSG_AUTH_NOT_CONFIGURED [] s
    else
      let calls := [GwSignInWithOtp (email (data s))] in
      match signInWithOtp env with
      | Rejected => failWith MSG_SEND_FAILED calls s
      | Resolved (Some m) =>
          if (Js.includes m "not found" || Js.includes m "not registered")%bool
          then failWith MSG_NO_ACCOUNT calls s
          else failWith m calls s
      | Resolved None =>
          (setStep step_verify_code
             (setLoading false (setResendCooldown 30 s)), calls)
      end.

(** The cooldown timer effect: one firing of the one-second timeout. *)
Definition cooldownTick (s : State) : State :=
  if Nat.ltb 0 (resendCooldown s)
  then setResendCooldown (resendCooldown s - 1) s
  else s.

Fixpoint cooldownTicks (n : nat) (s : State) : State :=
  match n with
  | 0 => s
  | S k => cooldownTicks k (cooldownTick s)
  end.

(* ================================================================== *)
(** ** Auto-complete of claim flows *)
(* ================================================================== *)

(** One evaluation of the auto-complete effect on the latch alone: the
    new value of [claimAutoCompleteRef.current], and whether
    [handleComplete] is invoked. *)
Definition claimLatch (P : Props) (user : option User) (latch : bool)
  : bool * bool :=
  let fire :=
    (isOpen P && is_some (claimProfile P) && is_some user && negb latch)%bool in
  let latch1 := if fire then true else latch in
  ((if negb (isOpen P) then false else latch1), fire).

(** The whole effect on the component state. *)
Definition claimAutoCompleteEffect (env : Env) (P : Props)
    (user : option User) (s : State) : State * list Call :=
  let '(s1, calls) :=
    if snd (claimLatch P user (claimAutoCompleteRef s))
    then handleComplete env (data s) (setLatch true s)
    else (s, []) in
  (if negb (isOpen P) then setLatch false s1 else s1, calls).

(** A run of re-evaluations of the effect (each with the props and the
    user of that render): the final latch and the number of times
    [handleComplete] was invoked. *)
Fixpoint claimLatchRun (renders : list (Props * option User)) (latch : bool)
  : bool * nat :=
  match renders with
  | [] => (latch, 0)
  | (P, user) :: rest =>
      let '(latch1, fired) := claimLatch P user latch in
      let '(latch2, n) := claimLatchRun rest latch1 in
      (latch2, (if fired then 1 else 0) + n)
  end.

(* ================================================================== *)
(** ** The flow as a transition system *)
(* ================================================================== *)

(** The end of [searchOrgs]: the results are stored and the search is
    marked done. *)
Definition searchOrgsDone (v : list Profile.t) (s : State) : State :=
  {| step := step s; data := data s; error := error s; loading := loading s;
     authMode := authMode s; otpCode := otpCode s;
     resendCooldown := resendCooldown s; searchQuery := searchQuery s;
     searchResults := v; searching := false;
     hasSearched := true; selectedOrgId := selectedOrgId s;
     claimAutoCompleteRef := claimAutoCompleteRef s |}.

Definition setSelectedOrgId (v : option string) (s : State) : State :=
  {| step := step s; data := data s; error := error s; loading := loading s;
     authMode := authMode s; otpCode := otpCode s;
     resendCooldown := resendCooldown s; searchQuery := searchQuery s;
     searchResults := searchResults s; searching := searching s;
     hasSearched := hasSearched s; selectedOrgId := v;
     claimAutoCompleteRef := claimAutoCompleteRef s |}.

(** The state right after the flow opens: the initial state, with the
    data the restore effect leaves. *)
Definition openState (P : Props) (now : Z) (store : Storage) : State :=
  setData (snd (restoreEffect P now store (initialData P))) (initialState P).

(** What the user, the timer and the effects can do to an open flow. *)
Inductive Event :=
| EvIntentSelect (i : UserIntent)
| EvProviderTypeSelect (t : ProviderType)
| EvProviderInfoNext
| EvOrgSearchNext
| EvFamilyInfoNext
| EvFamilyNeedsNext
| EvBack
| EvEdit (p : Partial)                 (* an input of the current step *)
| EvType (code : string)               (* the code input *)
| EvSearchDone (results : list Profile.t)
| EvSelectOrg (sel : option string)
| EvSignUp
| EvSignIn
| EvSendOtpForSignIn
| EvVerifyOtp
| EvResendCode
| EvTick
| EvAutoComplete.

(** The inputs of the steps never carry the branch selectors or the
    claim keys: those are set by their own handlers. *)
Definition isFieldEdit (p : Partial) : bool :=
  (negb (is_some (p_intent p)) && negb (is_some (p_providerType p))
   && negb (is_some (p_claimedProfileId p))
   && negb (is_some (p_claimedProfile p)))%bool.

(** The step whose view offers the control. *)
Definition offered (ev : Event) (s : State) : bool :=
  match ev with
  | EvIntentSelect _ => AuthFlowStep_eqb (step s) step_intent
  | EvProviderTypeSelect _ => AuthFlowStep_eqb (step s) step_provider_type
  | EvProviderInfoNext =>
      (AuthFlowStep_eqb (step s) step_provider_info
       && negb (providerInfoContinueDisabled s))%bool
  | EvOrgSearchNext => AuthFlowStep_eqb (step s) step_org_search
  | EvFamilyInfoNext =>
      (AuthFlowStep_eqb (step s) step_family_info
       && Js.nonblank (displayName (data s)))%bool
  | EvFamilyNeedsNext => AuthFlowStep_eqb (step s) step_family_needs
  | EvBack => true
  | EvEdit p => isFieldEdit p
  | EvType _ => AuthFlowStep_eqb (step s) step_verify_code
  | EvSearchDone _ | EvSelectOrg _ => AuthFlowStep_eqb (step s) step_org_search
  | EvSignUp | EvSignIn | EvSendOtpForSignIn =>
      AuthFlowStep_eqb (step s) step_auth
  | EvVerifyOtp | EvResendCode => AuthFlowStep_eqb (step s) step_verify_code
  | EvTick | EvAutoComplete => true
  end.

Definition dispatch (env : Env) (P : Props) (user : option User)
    (ev : Event) (s : State) : State * list Call :=
  match ev with
  | EvIntentSelect i => (handleIntentSelect i s, [])
  | EvProviderTypeSelect t => (handleProviderTypeSelect t s, [])
  | EvProviderInfoNext => handleProviderInfoNext env user s
  | EvOrgSearchNext => handleOrgSearchNext env user s
  | EvFamilyInfoNext => (handleFamilyInfoNext s, [])
  | EvFamilyNeedsNext => handleFamilyNeedsNext env user s
  | EvBack => (goBack P s, [])
  | EvEdit p => (updateData p s, [])
  | EvType code => (setOtpCode code s, [])
  | EvSearchDone results => (searchOrgsDone results s, [])
  | EvSelectOrg sel => (setSelectedOrgId sel s, [])
  | EvSignUp => handleSignUp env s
  | EvSignIn => handleSignIn env s
  | EvSendOtpForSignIn => handleSendOtpForSignIn env s
  | EvVerifyOtp => handleVerifyOtp env s
  | EvResendCode => handleResendCode env s
  | EvTick => (cooldownTick s, [])
  | EvAutoComplete => claimAutoCompleteEffect env P user s
  end.

(** The states of an open flow with presets [P], together with the
    identity [useAuth().user] of the current render.  The identity is
    not the flow's own: it changes when a sign-in or a verification of
    the flow succeeds (the flow is then still on its identity step if
    the commit fails), when the session load finishes after the flow
    opened, and when the user signs out elsewhere.  The presets are
    those the flow was opened with; the reset effect puts the state
    back to [initialState P] whenever they change on a closed flow. *)
Inductive reachable (P : Props) : option User -> State -> Prop :=
| reach_open : forall user now store,
    reachable P user (openState P now store)
| reach_step : forall user env ev s,
    reachable P user s ->
    offered ev s = true ->
    reachable P user (fst (dispatch env P user ev s))
| reach_user : forall user user' s,
    reachable P user s ->
    reachable P user' s.

(** What the progress bar shows in state [s]. *)
Definition progressOf (user : option User) (s : State) : StepConfig :=
  getStepConfig (step s) (data s) (is_some user).

(** [showProgress] *)
Definition showProgress (s : State) : bool :=
  (negb (AuthFlowStep_eqb (step s) step_intent) && is_some (intent (data s)))%bool.

(** The row after [update(claimUpdate).eq("id", ...)]: the keys of the
    update replace the columns, the other columns stay. *)
Definition applyClaimUpdate (u : ClaimUpdate) (row : Profile.t) : Profile.t :=
  {| Profile.id := Profile.id row;
     Profile.account_id := Some (cu_account_id u);
     Profile.display_name :=
       match cu_display_name u with Some v => Some v | None => Profile.display_name row end;
     Profile.city :=
       match cu_city u with Some v => Some v | None => Profile.city row end;
     Profile.state :=
       match cu_state u with Some v => Some v | None => Profile.state row end;
     Profile.zip :=
       match cu_zip u with Some v => Some v | None => Profile.zip row end;
     Profile.care_types :=
       match cu_care_types u with Some v => Some v | None => Profile.care_types row end;
     Profile.category := Profile.category row;
     Profile.description :=
       match cu_description u with Some v => Some v | None => Profile.description row end;
     Profile.phone :=
       match cu_phone u with Some v => Some v | None => Profile.phone row end;
     Profile.claim_state := cu_claim_state u |}.

(* ================================================================== *)
(** ** Predicates used to state the properties *)
(* ================================================================== *)

(** The no-break space U+00A0 and the em space U+2003, as their UTF-8
    bytes. *)
Definition NBSP : string :=
  String (ascii_of_nat 194) (String (ascii_of_nat 160) "").

Definition EM_SPACE : string :=
  String (ascii_of_nat 226) (String (ascii_of_nat 128)
    (String (ascii_of_nat 131) "")).

(** What keeps the step counter within its total off the identity
    steps: the org-search step is only shown to organizations. *)
Definition progressInvariant (s : State) : Prop :=
  step s = step_org_search -> isOrgData (data s) = true.

(** The number of steps of a branch: three for a provider organization,
    two for a provider caregiver, two for a family. *)
Definition branchSteps (d : FlowData) : nat :=
  match intent d with
  | Some provider =>
      match providerType d with
      | Some organization => 3
      | _ => 2
      end
  | _ => 2
  end.

(** A nullable text column is empty: [null] or [""]. *)
Definition emptyText (o : option string) : Prop := o = None \/ o = Some "".

(** A nullable text column is blank: empty, or white space only. *)
Definition blankText (o : option string) : Prop :=
  o = None \/ exists t, o = Some t /\ Js.trim t = "".

(** A nullable list column is empty: [null] or [[]]. *)
Definition emptyList (o : option (list string)) : Prop := o = None \/ o = Some [].

(** How a committed text column relates to the target's column and to
    the value the flow collected: filled when the target's is empty,
    kept otherwise. *)
Definition mergedText (isEmpty : option string -> Prop)
    (target : option string) (flow : string) (committed : option string) : Prop :=
  (isEmpty target -> flow <> "" -> committed = Some flow)
  /\ (isEmpty target -> flow = "" -> committed = target)
  /\ (~ isEmpty target -> committed = target).

Definition mergedList (target : option (list string)) (flow : list string)
    (committed : option (list string)) : Prop :=
  (emptyList target -> flow <> [] -> committed = Some flow)
  /\ (emptyList target -> flow = [] -> committed = target)
  /\ (~ emptyList target -> committed = target).

Definition mergedCategory (target flow committed : option ProfileCategory) : Prop :=
  (target = None -> flow <> None -> committed = flow)
  /\ (target <> None -> committed = target).

(** The part of the merge on which the text of the specification and
    the code agree: account, claim state, location, care types,
    description and phone. *)
Definition claimMergeCommon (d : FlowData) (s : Profile.t) (accountId : string)
    (c : Profile.t) : Prop :=
  Profile.account_id c = Some accountId
  /\ Profile.claim_state c = "pending"
  /\ mergedText emptyText (Profile.city s) (city d) (Profile.city c)
  /\ mergedText emptyText (Profile.state s) (state d) (Profile.state c)
  /\ mergedText emptyText (Profile.zip s) (zip d) (Profile.zip c)
  /\ mergedList (Profile.care_types s) (careTypes d) (Profile.care_types c)
  /\ mergedText blankText (Profile.description s) (description d)
       (Profile.description c)
  /\ mergedText emptyText (Profile.phone s) (phone d) (Profile.phone c).

(** The claim merge as the specification words it: the category is one
    of the merged fields. *)
Definition claimMergeAsStated (d : FlowData) (s : Profile.t) (accountId : string)
  : Prop :=
  let c := applyClaimUpdate (claimUpdate d s accountId) s in
  claimMergeCommon d s accountId c
  /\ mergedCategory (Profile.category s) (category d) (Profile.category c).

(** An unclaimed listing without category, and the data of a flow that
    selected it in the org-search step. *)
Definition listingAustin : Profile.t :=
  {| Profile.id := "listing-1";
     Profile.account_id := None;
     Profile.display_name := Some "Sunrise Senior Living";
     Profile.city := Some "Austin";
     Profile.state := Some "TX";
     Profile.zip := None;
     Profile.care_types := Some [];
     Profile.category := None;
     Profile.description := None;
     Profile.phone := Some "(512) 555-0100";
     Profile.claim_state := "unclaimed" |}.

Definition flowDallas : FlowData :=
  {| email := "owner@example.com"; password := "correct horse";
     displayName := "";
     intent := Some provider;
     providerType := Some organization;
     orgName := "Sunrise Senior Living";
     city := "Dallas"; state := "TX"; zip := "75201";
     careTypes := ["Memory Care"];
     category := Some "memory_care";
     description := "A small memory care home.";
     phone := "(214) 555-0199";
     visibleToFamilies := true; visibleToProviders := true;
     claimedProfileId := Some "listing-1";
     claimedProfile := Some listingAustin;
     careRecipientName := ""; careRecipientRelation := "";
     careNeeds := [] |}.

(** Outside answers of a run in which every service succeeds: the user
    is signed in and has an account, sign-up asks for verification. *)
Definition envAllGood : Env :=
  {| configured := true;
     signUp := Resolved (SignUpData false (Some 1));
     signInWithOtp := Resolved None;
     signInWithPassword := Resolved None;
     verifyOtp := Resolved None;
     getUser := Some {| user_email := Some "owner@example.com" |};
     account := Some {| acct_id := "acct-1"; acct_display_name := None |};
     ensureAccount := EnsureOk None;
     claimErr := None;
     insertResult := Inserted "profile-new";
     accountErr := None;
     slugSuffix := "k3x9" |}.


(** The calls by which a commit that succeeded ends the flow. *)
Definition isFlowExit (c : Call) : bool :=
  match c with
  | StorageRemove | OnClose | RouterPush _ => true
  | _ => false
  end.

(** The identity and account steps of the commit succeed. *)
Definition accountResolved (env : Env) : bool :=
  (configured env && is_some (getUser env)
   && match account env with
      | Some _ => true
      | None =>
          match ensureAccount env with
          | EnsureOk (Some _) => true
          | _ => false
          end
      end)%bool.

(** A flow opened without any preset. *)
Definition propsNoPreset : Props :=
  {| isOpen := true; initialIntent := None; initialProviderType := None;
     claimProfile := None; defaultToSignIn := false |}.

(** A flow opened to claim [listingAustin]. *)
Definition propsClaim : Props :=
  {| isOpen := true; initialIntent := None; initialProviderType := None;
     claimProfile := Some listingAustin; defaultToSignIn := false |}.

(** One re-evaluation of the component: the props and the identity of
    that render, the event that follows it and what the outside answers. *)
Record Render := {
  r_env : Env;
  r_props : Props;
  r_user : option User;
  r_event : Event;
}.

(** Whether the event makes the auto-complete effect call
    [handleComplete]. *)
Definition autoCommitFires (r : Render) (s : State) : bool :=
  match r_event r with
  | EvAutoComplete =>
      snd (claimLatch (r_props r) (r_user r) (claimAutoCompleteRef s))
  | _ => false
  end.

(** A run of renders: the final state and the number of commits the
    auto-complete effect started. *)
Fixpoint autoCommits (rs : list Render) (s : State) : State * nat :=
  match rs with
  | [] => (s, 0)
  | r :: rest =>
      let s1 := fst (dispatch (r_env r) (r_props r) (r_user r) (r_event r) s) in
      let '(s2, n) := autoCommits rest s1 in
      (s2, (if autoCommitFires r s then 1 else 0) + n)
  end.

(** The evaluations of the auto-complete effect in a run of renders,
    in order, each with the state it ran in. *)
Fixpoint autoCompleteRuns (rs : list Render) (s : State)
  : list (Render * State) :=
  match rs with
  | [] => []
  | r :: rest =>
      let s1 := fst (dispatch (r_env r) (r_props r) (r_user r) (r_event r) s) in
      match r_event r with
      | EvAutoComplete => (r, s) :: autoCompleteRuns rest s1
      | _ => autoCompleteRuns rest s1
      end
  end.

(** The evaluation does nothing: the state stays and no call is made. *)
Definition effectIdle (e : Render * State) : Prop :=
  claimAutoCompleteEffect (r_env (fst e)) (r_props (fst e)) (r_user (fst e))
    (snd e)
  = (snd e, []).

(** The evaluation finds the latch released, sets it and runs the
    commit. *)
Definition effectCommits (e : Render * State) : Prop :=
  claimAutoCompleteRef (snd e) = false
  /\ claimAutoCompleteEffect (r_env (fst e)) (r_props (fst e))
       (r_user (fst e)) (snd e)
     = handleComplete (r_env (fst e)) (data (snd e)) (setLatch true (snd e)).

(** The family flow of the specification's scenario. *)
Definition flowJane : FlowData :=
  {| email := "jane@example.com"; password := "correct horse";
     displayName := "Jane Doe";
     intent := Some family;
     providerType := None;
     orgName := "";
     city := "Austin"; state := "TX"; zip := "";
     careTypes := []; category := None; description := ""; phone := "";
     visibleToFamilies := true; visibleToProviders := true;
     claimedProfileId := None; claimedProfile := None;
     careRecipientName := "Mom"; careRecipientRelation := "Parent";
     careNeeds := ["Home Care"] |}.

(** The verification step of that flow with a code typed in. *)
Definition stateAtVerify : State :=
  {| step := step_verify_code;
     data := flowJane;
     error := "";
     loading := false;
     authMode := sign_up;
     otpCode := "12345678";
     resendCooldown := 12;
     searchQuery := "";
     searchResults := [];
     searching := false;
     hasSearched := false;
     selectedOrgId := None;
     claimAutoCompleteRef := false |}.

(** The gateway rejects the code as invalid. *)
Definition envWrongCode : Env :=
  {| configured := true;
     signUp := Resolved (SignUpData false (Some 1));
     signInWithOtp := Resolved None;
     signInWithPassword := Resolved None;
     verifyOtp := Resolved (Some "Token is invalid");
     getUser := None;
     account := None;
     ensureAccount := EnsureOk None;
     claimErr := None;
     insertResult := Inserted "profile-new";
     accountErr := None;
     slugSuffix := "k3x9" |}.

(** The outcome of an incorrect code as the specification words it: the
    flow stays on the verification step with the invalid-code message,
    the code field is cleared and the flow data is untouched. *)
Definition invalidCodeAsStated (env : Env) (s : State) : Prop :=
  let s' := fst (handleVerifyOtp env s) in
  step s' = step_verify_code
  /\ error s' = MSG_CODE_INVALID
  /\ otpCode s' = ""
  /\ data s' = data s.

(** The draft is thirty minutes old or older: its timestamp, as the
    age test reads it, is a number that lies thirty minutes or more
    before [now]. *)
Definition isExpired (now : Z) (item : Item) : bool :=
  match item with
  | Parsed v =>
      match ToNumber (saved_timestamp v) with
      | Whole t => (VALIDITY_MS <=? now - t)%Z
      | Infinity negative => negative
      | NaN => false
      end
  | Corrupt _ => false
  end.

(** The value is a JSON number. *)
Definition isJsonNumber (v : JsonValue) : bool :=
  match v with JNumber _ => true | _ => false end.

(** The blob is malformed, that is, not what the save effect writes:
    it does not parse, its timestamp is not a number, or it has no data
    object. *)
Definition isMalformed (item : Item) : bool :=
  match item with
  | Corrupt _ => true
  | Parsed v =>
      (negb (isJsonNumber (saved_timestamp v))
       || negb (is_some (saved_data v)))%bool
  end.

(** The blob cannot be used as a draft by the restore effect: it does
    not parse, its timestamp reads as no number at all, or it has no
    data object. *)
Definition isUnusable (item : Item) : bool :=
  match item with
  | Corrupt _ => true
  | Parsed v =>
      (match ToNumber (saved_timestamp v) with NaN => true | _ => false end
       || negb (is_some (saved_data v)))%bool
  end.

(** The handling of a malformed blob as the specification words it:
    nothing of it reaches the flow data when the flow opens. *)
Definition malformedDraftAsStated (P : Props) (now : Z) (writable : bool)
    (item : Item) (s : State) : Prop :=
  isMalformed item = true ->
  data (snd (openEffects P now writable s (Some item))) = data s.

(** A draft of the family flow written at time 1000 (milliseconds). *)
Definition draftJane : Item := Parsed (toSave step_family_needs flowJane 1000).

(** A flow opened with the provider preset. *)
Definition propsProvider : Props :=
  {| isOpen := true; initialIntent := Some provider;
     initialProviderType := None; claimProfile := None;
     defaultToSignIn := false |}.

(** A draft like [draftJane] whose timestamp is the string ["1000"]
    and not the number. *)
Definition draftJaneTextStamp : Item :=
  Parsed {| saved_step := Some step_family_needs;
            saved_data := Some (draftOf flowJane);
            saved_timestamp := JText (Whole 1000) |}.

(** The handling of a draft of the other branch as the specification
    words it, when the flow opens in state [s]: nothing is merged and
    the draft is no longer in the store. *)
Definition conflictingDraftAsStated (P : Props) (now : Z) (writable : bool)
    (item : Item) (s : State) : Prop :=
  let r := openEffects P now writable s (Some item) in
  data (snd r) = data s /\ fst r <> Some item.

(** Two flow data that differ at most in the password, the email and
    the claim fields. *)
Definition sameExceptSecrets (d1 d2 : FlowData) : Prop :=
  displayName d1 = displayName d2
  /\ intent d1 = intent d2
  /\ providerType d1 = providerType d2
  /\ orgName d1 = orgName d2
  /\ city d1 = city d2
  /\ state d1 = state d2
  /\ zip d1 = zip d2
  /\ careTypes d1 = careTypes d2
  /\ category d1 = category d2
  /\ description d1 = description d2
  /\ phone d1 = phone d2
  /\ visibleToFamilies d1 = visibleToFamilies d2
  /\ visibleToProviders d1 = visibleToProviders d2
  /\ careRecipientName d1 = careRecipientName d2
  /\ careRecipientRelation d1 = careRecipientRelation d2
  /\ careNeeds d1 = careNeeds d2.

(** [flowDallas] with another email and password and without the claim
    fields. *)
Definition flowDallasOther : FlowData :=
  {| email := "someone.else@example.com"; password := "another secret";
     displayName := "";
     intent := Some provider;
     providerType := Some organization;
     orgName := "Sunrise Senior Living";
     city := "Dallas"; state := "TX"; zip := "75201";
     careTypes := ["Memory Care"];
     category := Some "memory_care";
     description := "A small memory care home.";
     phone := "(214) 555-0199";
     visibleToFamilies := true; visibleToProviders := true;
     claimedProfileId := None;
     claimedProfile := None;
     careRecipientName := ""; careRecipientRelation := "";
     careNeeds := [] |}.

(** The identity step of the family flow, about to sign up. *)
Definition stateAtAuth : State :=
  {| step := step_auth;
     data := flowJane;
     error := "";
     loading := false;
     authMode := sign_up;
     otpCode := "";
     resendCooldown := 0;
     searchQuery := "";
     searchResults := [];
     searching := false;
     hasSearched := false;
     selectedOrgId := None;
     claimAutoCompleteRef := false |}.

(** Whether a call goes to the identity gateway. *)
Definition isGatewayCall (c : Call) : bool :=
  match c with
  | GwSignUp _ _ _ | GwSignInWithPassword _ _ | GwSignInWithOtp _
  | GwVerifyOtp _ _ | GwGetUser => true
  | _ => false
  end.

(** The provider-info step of the flow that collected [flowDallas]. *)
Definition stateAtProviderInfo : State :=
  {| step := step_provider_info;
     data := flowDallas;
     error := "";
     loading := false;
     authMode := sign_up;
     otpCode := "";
     resendCooldown := 0;
     searchQuery := "";
     searchResults := [];
     searching := false;
     hasSearched := false;
     selectedOrgId := None;
     claimAutoCompleteRef := false |}.

(* ================================================================== *)
(** ** Further predicates and models *)
(* ================================================================== *)

Definition isProviderStep (stp : AuthFlowStep) : bool :=
  match stp with
  | step_provider_type | step_provider_info | step_org_search => true
  | _ => false
  end.

Definition isFamilyStep (stp : AuthFlowStep) : bool :=
  match stp with
  | step_family_info | step_family_needs => true
  | _ => false
  end.

(** The branch selectors agree with the step: the provider steps are
    shown with intent provider, the family steps with intent family,
    the identity steps with some intent; the intent step is shown only
    when no intent was preset; a claim flow stays on the identity steps
    with the data of its target. *)
Definition branchInvariant (P : Props) (s : State) : Prop :=
  (isProviderStep (step s) = true -> intent (data s) = Some provider)
  /\ (isFamilyStep (step s) = true -> intent (data s) = Some family)
  /\ (isAuthStep (step s) = true -> intent (data s) <> None)
  /\ step s <> step_visibility
  /\ (step s = step_intent -> initialIntent P = None)
  /\ (forall cp, claimProfile P = Some cp ->
        isAuthStep (step s) = true
        /\ intent (data s) = Some provider
        /\ providerType (data s) = Some organization
        /\ claimedProfileId (data s) = Some (Profile.id cp)
        /\ claimedProfile (data s) = Some cp).

(** A call that writes a profile row. *)
Definition isProfileWrite (c : Call) : bool :=
  match c with
  | DbUpdateProfile _ _ | DbInsertProfile _ => true
  | _ => false
  end.

(** The events that move the flow one step forward. *)
Definition isForward (P : Props) (ev : Event) : bool :=
  match ev with
  | EvIntentSelect _ | EvProviderInfoNext | EvOrgSearchNext
  | EvFamilyInfoNext | EvFamilyNeedsNext | EvSignUp | EvSendOtpForSignIn => true
  | EvProviderTypeSelect _ => negb (is_some (initialProviderType P))
  | _ => false
  end.

(** A flow at its family-needs step, nobody signed in. *)
Definition stateAtFamilyNeeds : State :=
  {| step := step_family_needs;
     data := flowJane;
     error := "";
     loading := false;
     authMode := sign_up;
     otpCode := "";
     resendCooldown := 0;
     searchQuery := "";
     searchResults := [];
     searching := false;
     hasSearched := false;
     selectedOrgId := None;
     claimAutoCompleteRef := false |}.

(** The calls of a commit before any write: identity and account. *)
Definition isPreamble (c : Call) : bool :=
  match c with
  | GwGetUser | ApiEnsureAccount _ => true
  | _ => false
  end.

(** The profile id a profile write yields: the id of the updated row,
    or the id the insert returns. *)
Definition writtenId (env : Env) (c : Call) : option string :=
  match c with
  | DbUpdateProfile id _ => Some id
  | DbInsertProfile _ =>
      match insertResult env with
      | Inserted id => Some id
      | InsertError _ => None
      end
  | _ => None
  end.

(** The membership call of a commit: for providers only. *)
Definition membershipCalls (d : FlowData) (acc : Account) : list Call :=
  match intent d with
  | Some provider => [DbUpsertMembership (acct_id acc)]
  | _ => []
  end.

(** The calls that end a commit that succeeded. *)
Definition exitCalls (d : FlowData) : list Call :=
  [StorageRemove; RefreshAccountData; OnClose;
   RouterPush (match intent d with
               | Some family => "/browse"
               | _ => "/portal"
               end)].

(** The state a failed commit leaves: a non-empty message, loading off,
    nothing else touched. *)
Definition failedState (st : State) (r : State * list Call) : Prop :=
  exists e, e <> "" /\ fst r = setLoading false (setError e st).

(** The runs of a commit: the preamble, then the profile write, then
    the account update with the id just written, then membership and
    exit; a run stops after any of the first three stages with a failed
    state, or goes through to the exit. *)
Definition commitTrace (env : Env) (d : FlowData) (st : State)
    (r : State * list Call) : Prop :=
  exists pre,
    forallb isPreamble pre = true
    /\ ((snd r = pre /\ failedState st r)
        \/ exists write,
             isProfileWrite write = true
             /\ ((snd r = (pre ++ [write])%list /\ failedState st r)
                 \/ exists acc pid name,
                      writtenId env write = Some pid
                      /\ ((snd r = (pre ++ [write; DbUpdateAccount (acct_id acc) pid name])%list
                           /\ failedState st r)
                          \/ (snd r = (pre ++ [write; DbUpdateAccount (acct_id acc) pid name]
                                         ++ membershipCalls d acc ++ exitCalls d)%list
                              /\ fst r = setError "" (setLoading true st))))).

Definition isAccountUpdate (c : Call) : bool :=
  match c with
  | DbUpdateAccount _ _ _ => true
  | _ => false
  end.

(** The org-search step of a signed-in organization: the search found
    [listingAustin] and the user selected it. *)
Definition stateAtOrgSearch : State :=
  {| step := step_org_search;
     data := flowDallasOther;
     error := "";
     loading := false;
     authMode := sign_up;
     otpCode := "";
     resendCooldown := 0;
     searchQuery := "Sunrise Senior Living";
     searchResults := [listingAustin];
     searching := false;
     hasSearched := true;
     selectedOrgId := Some "listing-1";
     claimAutoCompleteRef := false |}.

(** The backend is not configured. *)
Definition envUnconfigured : Env :=
  {| configured := false;
     signUp := Rejected;
     signInWithOtp := Rejected;
     signInWithPassword := Rejected;
     verifyOtp := Rejected;
     getUser := None;
     account := None;
     ensureAccount := EnsureOk None;
     claimErr := None;
     insertResult := InsertError "unreachable";
     accountErr := None;
     slugSuffix := "" |}.

(** The events that set answers of the flow: the inputs and the two
    selectors. *)
Definition setsAnswers (ev : Event) : bool :=
  match ev with
  | EvIntentSelect _ | EvProviderTypeSelect _ | EvEdit _ => true
  | _ => false
  end.

(** *** Slugs *)

(** The slug of [generateSlug] without its random suffix. *)
Definition slugBase (name city state : string) : string :=
  dropEndDashes
    (dropDashes (dashify false (join_space (filter Js.truthy [name; city; state])))).

Fixpoint allChars (f : ascii -> bool) (s : string) : bool :=
  match s with
  | EmptyString => true
  | String c rest => (f c && allChars f rest)%bool
  end.

Definition isDash (c : ascii) : bool := Ascii.eqb c "-".

(** No two dashes in a row; [prevDash] tells that a dash precedes. *)
Fixpoint noDoubleDash (prevDash : bool) (t : string) : bool :=
  match t with
  | EmptyString => true
  | String c rest =>
      if isDash c then (negb prevDash && noDoubleDash true rest)%bool
      else noDoubleDash false rest
  end.

Definition startsWithDash (t : string) : bool :=
  match t with
  | String c _ => isDash c
  | EmptyString => false
  end.

Fixpoint endsWithDash (t : string) : bool :=
  match t with
  | EmptyString => false
  | String c EmptyString => isDash c
  | String _ rest => endsWithDash rest
  end.

(** The input without its leading characters that are not slug
    characters. *)
Fixpoint skipSeparators (s : string) : string :=
  match s with
  | EmptyString => EmptyString
  | String c rest => if is_slug_char (lower c) then s else skipSeparators rest
  end.

(** The slug generator of the create-profile page. *)
Module CreateProfile.

(** [.replace(/(^-|-$)/g, "")]: one dash at the start and one at the
    end are removed. *)
Definition stripLeadingDash (t : string) : string :=
  match t with
  | String c rest => if isDash c then rest else t
  | EmptyString => EmptyString
  end.

Fixpoint stripTrailingDash (t : string) : string :=
  match t with
  | EmptyString => EmptyString
  | String c EmptyString => if isDash c then EmptyString else t
  | String c rest => String c (stripTrailingDash rest)
  end.

(** [generateSlug] of the create-profile page; [suffix] is the
    [Math.random] part. *)
Definition generateSlug (name city state suffix : string) : string :=
  let base :=
    stripTrailingDash
      (stripLeadingDash (dashify false (name ++ " " ++ city ++ " " ++ state))) in
  base ++ "-" ++ suffix.

(** [toggleCareType], also the click handler of the care-type chips of
    the flow. *)
Definition toggleCareType (ct : string) (prev : list string) : list string :=
  if existsb (String.eqb ct) prev
  then filter (fun t => negb (String.eqb t ct)) prev
  else (prev ++ [ct])%list.

End CreateProfile.

(** *** Partial updates *)

(** The later of two optional keys. *)
Definition laterKey {A : Type} (q p : option A) : option A :=
  match q with Some v => Some v | None => p end.

(** [{ ...p, ...q }] on partials: the keys of both, those of [q] win. *)
Definition mergePartial (p q : Partial) : Partial :=
  {| p_email := laterKey (p_email q) (p_email p);
     p_password := laterKey (p_password q) (p_password p);
     p_displayName := laterKey (p_displayName q) (p_displayName p);
     p_intent := laterKey (p_intent q) (p_intent p);
     p_providerType := laterKey (p_providerType q) (p_providerType p);
     p_orgName := laterKey (p_orgName q) (p_orgName p);
     p_city := laterKey (p_city q) (p_city p);
     p_state := laterKey (p_state q) (p_state p);
     p_zip := laterKey (p_zip q) (p_zip p);
     p_careTypes := laterKey (p_careTypes q) (p_careTypes p);
     p_category := laterKey (p_category q) (p_category p);
     p_description := laterKey (p_description q) (p_description p);
     p_phone := laterKey (p_phone q) (p_phone p);
     p_visibleToFamilies := laterKey (p_visibleToFamilies q) (p_visibleToFamilies p);
     p_visibleToProviders := laterKey (p_visibleToProviders q) (p_visibleToProviders p);
     p_claimedProfileId := laterKey (p_claimedProfileId q) (p_claimedProfileId p);
     p_claimedProfile := laterKey (p_claimedProfile q) (p_claimedProfile p);
     p_careRecipientName := laterKey (p_careRecipientName q) (p_careRecipientName p);
     p_careRecipientRelation :=
       laterKey (p_careRecipientRelation q) (p_careRecipientRelation p);
     p_careNeeds := laterKey (p_careNeeds q) (p_careNeeds p) |}.

(* ================================================================== *)
(** ** [AuthProvider]: the identity state the flow reads *)
(* ================================================================== *)

Module AuthProvider.

(** [state.user] *)
Record AuthUser := {
  id : string;
  email : string;
}.

(** The columns of the [Account] row ([@/lib/types]) the provider uses. *)
Record AccountRow := {
  account_id : string;
  active_profile_id : option string;
}.

(** [Membership] is declared in [@/lib/types]; the provider only stores
    the row. *)
Definition Membership := string.

(** [AuthState] *)
Record AuthState := {
  user : option AuthUser;
  account : option AccountRow;
  activeProfile : option Profile.t;
  profiles : list Profile.t;
  membership : option Membership;
  isLoading : bool;
}.

(** What the three queries of [fetchAccountData] answer: the account of
    the user, the profiles of the account in creation order ([None] is
    [null], a failed query) and the membership. *)
Record DbAnswers := {
  q_account : option AccountRow;
  q_profiles : option (list Profile.t);
  q_membership : option Membership;
}.

(** The object [fetchAccountData] returns. *)
Record AccountData := {
  d_account : option AccountRow;
  d_activeProfile : option Profile.t;
  d_profiles : list Profile.t;
  d_membership : option Membership;
}.

Definition noAccountData : AccountData :=
  {| d_account := None; d_activeProfile := None; d_profiles := [];
     d_membership := None |}.

(** [profiles.find((p) => p.id === wanted) || null] *)
Definition findById (wanted : string) (l : list Profile.t) : option Profile.t :=
  find (fun p => String.eqb (Profile.id p) wanted) l.

(** [fetchAccountData] *)
Definition fetchAccountData (configured : bool) (db : DbAnswers) : AccountData :=
  if negb configured then noAccountData
  else
    match q_account db with
    | None => noAccountData
    | Some acc =>
        let all := match q_profiles db with Some l => l | None => [] end in
        let active :=
          match active_profile_id acc with
          | Some wanted => if Js.truthy wanted then findById wanted all else None
          | None => None
          end in
        {| d_account := Some acc; d_activeProfile := active;
           d_profiles := all; d_membership := q_membership db |}
    end.

(** The state of a provider that was just mounted. *)
Definition initialAuthState : AuthState :=
  {| user := None; account := None; activeProfile := None; profiles := [];
     membership := None; isLoading := true |}.

(** The state every sign-out path sets. *)
Definition signedOutState : AuthState :=
  {| user := None; account := None; activeProfile := None; profiles := [];
     membership := None; isLoading := false |}.

(** The state set after a session was found or a sign-in was notified. *)
Definition signedInState (u : AuthUser) (d : AccountData) : AuthState :=
  {| user := Some u; account := d_account d;
     activeProfile := d_activeProfile d; profiles := d_profiles d;
     membership := d_membership d; isLoading := false |}.

Definition stopLoading (st : AuthState) : AuthState :=
  {| user := user st; account := account st;
     activeProfile := activeProfile st; profiles := profiles st;
     membership := membership st; isLoading := false |}.

(** The kinds of auth state change the listener tells apart. *)
Inductive AuthChange := SIGNED_IN | SIGNED_OUT | OTHER_CHANGE.

(** What can happen to the provider. *)
Inductive AuthEvent :=
| SessionLoaded (sessionUser : option AuthUser) (db : DbAnswers)
| AuthStateChange (change : AuthChange) (sessionUser : option AuthUser)
    (db : DbAnswers)
| SignOut
| RefreshAccountData (db : DbAnswers)
| SwitchProfile (profileId : string) (updateError : option string).

(** [refreshAccountData] *)
Definition refreshAccountData (configured : bool) (db : DbAnswers)
    (st : AuthState) : AuthState :=
  match user st with
  | None => st
  | Some _ =>
      let d := fetchAccountData configured db in
      {| user := user st; account := d_account d;
         activeProfile := d_activeProfile d; profiles := d_profiles d;
         membership := d_membership d; isLoading := isLoading st |}
  end.

(** [switchProfile]; [updateError] is the error of the account update. *)
Definition switchProfile (configured : bool) (profileId : string)
    (updateError : option string) (st : AuthState) : AuthState :=
  match user st, account st, configured with
  | Some _, Some acc, true =>
      match updateError with
      | Some _ => st
      | None =>
          {| user := user st;
             account := Some {| account_id := account_id acc;
                                active_profile_id := Some profileId |};
             activeProfile := findById profileId (profiles st);
             profiles := profiles st;
             membership := membership st;
             isLoading := isLoading st |}
      end
  | _, _, _ => st
  end.

(** One event of the provider. *)
Definition authStep (configured : bool) (st : AuthState) (ev : AuthEvent)
  : AuthState :=
  match ev with
  | SessionLoaded sessionUser db =>
      if negb configured then stopLoading st
      else
        match sessionUser with
        | Some u => signedInState u (fetchAccountData configured db)
        | None => stopLoading st
        end
  | AuthStateChange change sessionUser db =>
      if negb configured then st
      else
        match change, sessionUser with
        | SIGNED_IN, Some u => signedInState u (fetchAccountData configured db)
        | SIGNED_OUT, _ => signedOutState
        | _, _ => st
        end
  | SignOut => signedOutState
  | RefreshAccountData db => refreshAccountData configured db st
  | SwitchProfile profileId updateError =>
      switchProfile configured profileId updateError st
  end.

(** The cached identity hangs together: the active profile is one of
    the profiles of the account and the one the account row points to;
    without account there are no profiles, no active profile and no
    membership; without user there is no account. *)
Definition consistent (st : AuthState) : Prop :=
  (forall p, activeProfile st = Some p ->
     In p (profiles st)
     /\ exists acc, account st = Some acc
                    /\ active_profile_id acc = Some (Profile.id p))
  /\ (account st = None ->
      activeProfile st = None /\ profiles st = [] /\ membership st = None)
  /\ (user st = None -> account st = None).

(** The operations of the provider are asynchronous: a callback reads
    the state of the render it was created in (its closure), awaits the
    database, and only then updates the state of that moment with
    [setState((prev) => ...)].  Other events can land in between, so
    the closure and [prev] may differ. *)

(** [refreshAccountData] of a render with state [closure], finishing on
    the state [prev]. *)
Definition refreshAccountDataOn (configured : bool) (db : DbAnswers)
    (closure prev : AuthState) : AuthState :=
  match user closure with
  | None => prev
  | Some _ =>
      let d := fetchAccountData configured db in
      {| user := user prev; account := d_account d;
         activeProfile := d_activeProfile d; profiles := d_profiles d;
         membership := d_membership d; isLoading := isLoading prev |}
  end.

(** [switchProfile] of a render with state [closure], finishing on the
    state [prev]: the guards and the list searched are the closure's,
    the account row updated is the one [prev] holds. *)
Definition switchProfileOn (configured : bool) (profileId : string)
    (updateError : option string) (closure prev : AuthState) : AuthState :=
  match user closure, account closure, configured with
  | Some _, Some _, true =>
      match updateError with
      | Some _ => prev
      | None =>
          {| user := user prev;
             account :=
               match account prev with
               | Some acc =>
                   Some {| account_id := account_id acc;
                           active_profile_id := Some profileId |}
               | None => None
               end;
             activeProfile := findById profileId (profiles closure);
             profiles := profiles prev;
             membership := membership prev;
             isLoading := isLoading prev |}
      end
  | _, _, _ => prev
  end.

(** One event of the provider, landing on the state [st]; [closure] is
    the state of the render whose callback is finishing. *)
Definition authStepOn (configured : bool) (closure st : AuthState)
    (ev : AuthEvent) : AuthState :=
  match ev with
  | RefreshAccountData db => refreshAccountDataOn configured db closure st
  | SwitchProfile profileId updateError =>
      switchProfileOn configured profileId updateError closure st
  | _ => authStep configured st ev
  end.

(** The states of a mounted provider, with the states of the earlier
    renders: every event lands on the current state with the closure of
    the current or of an earlier render. *)
Inductive authRun (configured : bool) : list AuthState -> AuthState -> Prop :=
| run_mount : authRun configured [] initialAuthState
| run_event : forall past st closure ev,
    authRun configured past st ->
    In closure (st :: past) ->
    authRun configured (st :: past) (authStepOn configured closure st ev).

(** What the cache keeps also when operations overlap: without account
    row there are no profiles and no membership. *)
Definition cacheShape (st : AuthState) : Prop :=
  account st = None -> profiles st = [] /\ membership st = None.

End AuthProvider.

(** A family flow in which the sign-in succeeds and the commit fails:
    the presets, the one input the user makes, and the answers of the
    services (the account endpoint answers with an error). *)
Definition propsFamily : Props :=
  {| isOpen := true; initialIntent := Some family;
     initialProviderType := None; claimProfile := None;
     defaultToSignIn := true |}.

Definition editOrgName (v : string) : Partial :=
  {| p_email := None; p_password := None; p_displayName := None;
     p_intent := None; p_providerType := None; p_orgName := Some v;
     p_city := None; p_state := None; p_zip := None; p_careTypes := None;
     p_category := None; p_description := None; p_phone := None;
     p_visibleToFamilies := None; p_visibleToProviders := None;
     p_claimedProfileId := None; p_claimedProfile := None;
     p_careRecipientName := None; p_careRecipientRelation := None;
     p_careNeeds := None |}.

Definition editSignIn (e pw : string) : Partial :=
  {| p_email := Some e; p_password := Some pw; p_displayName := None;
     p_intent := None; p_providerType := None; p_orgName := None;
     p_city := None; p_state := None; p_zip := None; p_careTypes := None;
     p_category := None; p_description := None; p_phone := None;
     p_visibleToFamilies := None; p_visibleToProviders := None;
     p_claimedProfileId := None; p_claimedProfile := None;
     p_careRecipientName := None; p_careRecipientRelation := None;
     p_careNeeds := None |}.

(** A listing whose name and description are white space outside
    ASCII. *)
Definition listingBlank : Profile.t :=
  {| Profile.id := "listing-2";
     Profile.account_id := None;
     Profile.display_name := Some NBSP;
     Profile.city := Some "Austin";
     Profile.state := Some "TX";
     Profile.zip := None;
     Profile.care_types := Some [];
     Profile.category := None;
     Profile.description := Some (NBSP ++ EM_SPACE);
     Profile.phone := None;
     Profile.claim_state := "unclaimed" |}.

Definition editDisplayName (v : string) : Partial :=
  {| p_email := None; p_password := None; p_displayName := Some v;
     p_intent := None; p_providerType := None; p_orgName := None;
     p_city := None; p_state := None; p_zip := None; p_careTypes := None;
     p_category := None; p_description := None; p_phone := None;
     p_visibleToFamilies := None; p_visibleToProviders := None;
     p_claimedProfileId := None; p_claimedProfile := None;
     p_careRecipientName := None; p_careRecipientRelation := None;
     p_careNeeds := None |}.

Definition envAccountSetupFails : Env :=
  {| configured := true;
     signUp := Rejected;
     signInWithOtp := Rejected;
     signInWithPassword := Resolved None;
     verifyOtp := Rejected;
     getUser := Some {| user_email := Some "jane@example.com" |};
     account := None;
     ensureAccount := EnsureNotOk (Some "Service unavailable");
     claimErr := None;
     insertResult := InsertError "unreachable";
     accountErr := None;
     slugSuffix := "" |}.

(* ================================================================== *)
(** ** The create-profile page *)
(* ================================================================== *)

Module CreateProfilePage.

(** The [useState] cells of [CreateProfilePage]; [category] is [""]
    while no organization type is selected. *)
Record Form := {
  kind : option ProviderType;
  name : string;
  category : string;
  city : string;
  state : string;
  zip : string;
  careTypes : list string;
  description : string;
  phone : string;
  submitting : bool;
  error : string;
}.

(** The row literal of the insert into [profiles]. *)
Record Row := {
  row_account_id : string;
  row_slug : string;
  row_type : ProviderType;
  row_category : option string;
  row_display_name : string;
  row_description : option string;
  row_phone : option string;
  row_city : string;
  row_state : string;
  row_zip : option string;
  row_care_types : list string;
  row_claim_state : string;
  row_verification_state : string;
  row_source : string;
}.

Inductive PageCall :=
| OpenAuthModal (action returnUrl : string)
| InsertProfile (row : Row)
| UpdateAccount (id active_profile_id : string)
| SelectMembership (account_id : string)
| InsertTrialMembership (account_id trial_ends_at : string)
| Refresh
| Push (path : string).

(** What the outside answers during one submit. *)
Record PageEnv := {
  page_user : option User;
  page_account : option Account;
  page_configured : bool;
  page_insert : InsertResult;
  page_accountErr : option string;
  page_existingMembership : bool;
  page_trialEnd : string;        (* thirty days from now, ISO format *)
  page_slugSuffix : string;
}.

Definition withSubmitting (v : bool) (e : string) (f : Form) : Form :=
  {| kind := kind f; name := name f; category := category f; city := city f;
     state := state f; zip := zip f; careTypes := careTypes f;
     description := description f; phone := phone f;
     submitting := v; error := e |}.

Definition rowOf (env : PageEnv) (acc : Account) (k : ProviderType) (f : Form)
  : Row :=
  {| row_account_id := acct_id acc;
     row_slug := CreateProfile.generateSlug (name f) (city f) (state f)
                   (page_slugSuffix env);
     row_type := k;
     row_category :=
       match k with
       | organization => or_null (category f)
       | caregiver => Some "private_caregiver"
       end;
     row_display_name := Js.trim (name f);
     row_description := or_null (Js.trim (description f));
     row_phone := or_null (Js.trim (phone f));
     row_city := Js.trim (city f);
     row_state := Js.trim (state f);
     row_zip := or_null (Js.trim (zip f));
     row_care_types := careTypes f;
     row_claim_state := "claimed";
     row_verification_state := "unverified";
     row_source := "user_created" |}.

(** The [catch] block of [handleSubmit]. *)
Definition pageCaught (message : string) (calls : list PageCall) (f : Form)
  : Form * list PageCall :=
  (withSubmitting false ("Something went wrong: " ++ message) f, calls).

(** [handleSubmit] *)
Definition handleSubmit (env : PageEnv) (f : Form) : Form * list PageCall :=
  match page_user env with
  | None => (f, [OpenAuthModal "claim" "/for-providers/create"])
  | Some _ =>
      match page_account env, kind f with
      | Some acc, Some k =>
          if (Js.truthy (Js.trim (name f)) && Js.truthy (Js.trim (city f))
              && Js.truthy (Js.trim (state f)) && page_configured env)%bool
          then
            let f1 := withSubmitting true "" f in
            let calls := [InsertProfile (rowOf env acc k f)] in
            match page_insert env with
            | InsertError m => pageCaught m calls f1
            | Inserted newId =>
                let calls := (calls ++ [UpdateAccount (acct_id acc) newId])%list in
                match page_accountErr env with
                | Some m => pageCaught m calls f1
                | None =>
                    let calls := (calls ++ [SelectMembership (acct_id acc)])%list in
                    let calls :=
                      if page_existingMembership env then calls
                      else (calls ++ [InsertTrialMembership (acct_id acc)
                                        (page_trialEnd env)])%list in
                    (f1, (calls ++ [Refresh; Push "/portal"])%list)
                end
            end
          else (f, [])
      | _, _ => (f, [])
      end
  end.

Definition isInsertProfile (c : PageCall) : bool :=
  match c with InsertProfile _ => true | _ => false end.

Definition isTrialMembership (c : PageCall) : bool :=
  match c with InsertTrialMembership _ _ => true | _ => false end.

(** A form that is complete, and the answers of a run that succeeds
    for an account without membership. *)
Definition formSunrise : Form :=
  {| kind := Some organization; name := " Sunrise Senior Living ";
     category := "assisted_living"; city := "Austin"; state := "TX";
     zip := ""; careTypes := ["Memory Care"]; description := "";
     phone := ""; submitting := false; error := "" |}.

Definition formNamed (v : string) : Form :=
  {| kind := Some organization; name := v;
     category := "assisted_living"; city := "Austin"; state := "TX";
     zip := ""; careTypes := ["Memory Care"]; description := "";
     phone := ""; submitting := false; error := "" |}.

Definition pageEnvGood : PageEnv :=
  {| page_user := Some {| user_email := Some "owner@example.com" |};
     page_account := Some {| acct_id := "acct-1"; acct_display_name := None |};
     page_configured := true;
     page_insert := Inserted "profile-new";
     page_accountErr := None;
     page_existingMembership := false;
     page_trialEnd := "2026-03-01T00:00:00.000Z";
     page_slugSuffix := "k3x9" |}.

End CreateProfilePage.

(* ================================================================== *)
(** * Properties *)
(* ================================================================== *)

(** ** White space and trimming *)

(** [trimStart] either finds no white space at the head, or goes on
    with a shorter string. *)
Lemma trimStart_step (s : string) :
  Js.trimStart s = s
  \/ exists r, Js.trimStart s = Js.trimStart r
               /\ String.length r < String.length s.
Proof.
  destruct s as [|a [|b [|c r3]]]; cbn [Js.trimStart].
  - left. reflexivity.
  - destruct (Js.is_space a); [right; exists ""; cbn; split; [reflexivity|lia] | left; reflexivity].
  - destruct (Js.is_space a).
    + right. exists (String b ""). cbn [String.length]. split; [reflexivity | lia].
    + destruct (Js.is_space2 a b).
      * right. exists "". cbn [String.length]. split; [reflexivity | lia].
      * left. reflexivity.
  - destruct (Js.is_space a).
    + right. exists (String b (String c r3)). cbn [String.length].
      split; [reflexivity | lia].
    + destruct (Js.is_space2 a b).
      * right. exists (String c r3). cbn [String.length].
        split; [reflexivity | lia].
      * destruct (Js.is_space3 a b c).
        -- right. exists r3. cbn [String.length]. split; [reflexivity | lia].
        -- left. reflexivity.
Qed.

(** What [trimStart] returns has no white space at its head. *)
Lemma trimStart_idem (s : string) :
  Js.trimStart (Js.trimStart s) = Js.trimStart s.
Proof.
  remember (String.length s) as n eqn:En.
  revert s En. induction n as [n IH] using lt_wf_ind. intros s En.
  destruct (trimStart_step s) as [E | [r [E Hlt]]].
  - rewrite E. exact E.
  - rewrite E. apply (IH (String.length r)); [lia | reflexivity].
Qed.

Lemma whiteOnly_trimStart (s : string) :
  Js.whiteOnly (Js.trimStart s) = Js.whiteOnly s.
Proof. unfold Js.whiteOnly. rewrite trimStart_idem. reflexivity. Qed.

Lemma trimEnd_empty_iff (s : string) :
  Js.trimEnd s = "" <-> Js.whiteOnly s = true.
Proof.
  destruct s as [|c rest]; cbn [Js.trimEnd].
  - split; reflexivity.
  - destruct (Js.whiteOnly (String c rest)).
    + split; reflexivity.
    + split; intro H; discriminate H.
Qed.

(** [trim] leaves nothing exactly when the string is white space only. *)
Lemma trim_empty_iff (s : string) : Js.trim s = "" <-> Js.whiteOnly s = true.
Proof.
  unfold Js.trim. rewrite trimEnd_empty_iff, whiteOnly_trimStart. tauto.
Qed.

Lemma nonblank_iff (s : string) : Js.nonblank s = true <-> Js.trim s <> "".
Proof.
  unfold Js.nonblank. destruct (Js.trim s); simpl.
  - split; [discriminate | intro H; contradiction H; reflexivity].
  - split; [discriminate | reflexivity].
Qed.

Lemma truthy_iff (s : string) : Js.truthy s = true <-> s <> "".
Proof.
  destruct s; simpl; split; try discriminate; try reflexivity.
  intro H. contradiction H. reflexivity.
Qed.

Lemma truthy_opt_false_iff (o : option string) :
  Js.truthy_opt o = false <-> (o = None \/ o = Some "").
Proof.
  destruct o as [[|c r]|]; simpl; split; intro H;
    try discriminate; try (left; reflexivity); try (right; reflexivity);
    try reflexivity.
  destruct H as [H|H]; discriminate H.
Qed.

Lemma blank_opt_iff (o : option string) :
  Js.blank_opt o = true <-> (o = None \/ exists t, o = Some t /\ Js.trim t = "").
Proof.
  destruct o as [t|]; simpl.
  - destruct (Js.trim t) eqn:E; simpl; split; intro H.
    + right. exists t. split; [reflexivity | exact E].
    + reflexivity.
    + discriminate H.
    + destruct H as [H | [t' [H1 H2]]]; [discriminate H|].
      injection H1 as <-. rewrite E in H2. discriminate H2.
  - split; intro; [left|]; reflexivity.
Qed.

Example trim_example : Js.trim "  Sunrise Senior Living   " = "Sunrise Senior Living".
Proof. reflexivity. Qed.

(** White space outside ASCII is trimmed as well, and a string of it
    is blank; other characters outside ASCII stay. *)
Example trim_unicode_example :
  Js.trim (NBSP ++ " Sunrise" ++ EM_SPACE ++ NBSP) = "Sunrise"
  /\ Js.trim (NBSP ++ EM_SPACE) = ""
  /\ Js.blank_opt (Some NBSP) = true
  /\ Js.nonblank NBSP = false
  /\ Js.trim (String (ascii_of_nat 195) (String (ascii_of_nat 160) " "))
     = String (ascii_of_nat 195) (String (ascii_of_nat 160) "").
Proof. repeat split. Qed.

Example includes_example :
  Js.includes "Token is invalid" "invalid" = true
  /\ Js.includes "Token is invalid" "expired" = false.
Proof. split; reflexivity. Qed.

Example generateSlug_example :
  generateSlug "Sunrise Senior Living" "Austin" "TX" "k3x9"
  = "sunrise-senior-living-austin-tx-k3x9".
Proof. reflexivity. Qed.

(** ** Provider info validation *)

(** C10.  The Continue button of the provider-info step is enabled only
    when the relevant name (organization name for an organization, the
    display name otherwise) is non-empty after trimming, the city or the
    state is non-empty after trimming, at least one care type is
    selected, and the phone number is non-empty after trimming. *)
Theorem provider_info_continue_enabled_only_if_valid (s : State) :
  providerInfoContinueDisabled s = false ->
  let d := data s in
  let name :=
    match providerType d with
    | Some organization => orgName d
    | _ => displayName d
    end in
  Js.trim name <> ""
  /\ (Js.trim (city d) <> "" \/ Js.trim (state d) <> "")
  /\ careTypes d <> []
  /\ Js.trim (phone d) <> "".
Proof.
  intros H d name.
  unfold providerInfoContinueDisabled, isProviderInfoValid, isOrgData in H.
  fold d in H.
  apply orb_false_iff in H. destruct H as [H _].
  apply negb_false_iff in H.
  repeat (apply andb_true_iff in H; destruct H as [H ?]).
  repeat split.
  - apply nonblank_iff. subst name.
    destruct (providerType d) as [[|]|]; exact H.
  - match goal with
    | Hc : (_ || _)%bool = true |- _ =>
        apply orb_true_iff in Hc; destruct Hc as [Hc|Hc];
        [left | right]; apply nonblank_iff; exact Hc
    end.
  - match goal with
    | Hl : Nat.ltb 0 _ = true |- _ =>
        apply Nat.ltb_lt in Hl; intro E; rewrite E in Hl;
        simpl in Hl; lia
    end.
  - apply nonblank_iff. assumption.
Qed.

(** So does a name of no-break spaces. *)
Example provider_info_nbsp_name_disabled :
  providerInfoContinueDisabled
    (updateData (editOrgName (NBSP ++ NBSP)) stateAtProviderInfo) = true
  /\ providerInfoContinueDisabled
       (updateData (editOrgName (NBSP ++ "Sunrise")) stateAtProviderInfo) = false.
Proof. split; reflexivity. Qed.

(** ** Frame lemmas: what the handlers leave alone *)

Lemma failWith_frame (msg : string) (calls : list Call) (s0 s : State) :
  (exists e l, s0 = setLoading l (setError e s)) ->
  exists e l, fst (failWith msg calls s0) = setLoading l (setError e s).
Proof.
  intros [e [l ->]]. exists msg, false. reflexivity.
Qed.

Lemma finishCommit_frame env d acc pid calls (s0 s : State) :
  (exists e l, s0 = setLoading l (setError e s)) ->
  exists e l, fst (finishCommit env d acc pid calls s0) = setLoading l (setError e s).
Proof.
  intros H. unfold finishCommit, caught.
  destruct (accountErr env) as [m|].
  - apply failWith_frame, H.
  - exact H.
Qed.

Lemma commitProfile_frame env d acc calls (s0 s : State) :
  (exists e l, s0 = setLoading l (setError e s)) ->
  exists e l, fst (commitProfile env d acc calls s0) = setLoading l (setError e s).
Proof.
  intros H. unfold commitProfile, caught.
  destruct (intent d) as [[|]|].
  - destruct (createFamilyProfile env d (acct_id acc)) as [cs [m|pid]].
    + apply failWith_frame, H.
    + apply finishCommit_frame, H.
  - destruct (createProviderProfile env d (acct_id acc)) as [cs [m|pid]].
    + apply failWith_frame, H.
    + apply finishCommit_frame, H.
  - apply failWith_frame, H.
Qed.

(** [handleComplete] writes the [error] and [loading] cells only. *)
Lemma handleComplete_frame (env : Env) (d : FlowData) (s : State) :
  exists e l, fst (handleComplete env d s) = setLoading l (setError e s).
Proof.
  assert (exists e l, setError "" (setLoading true s) = setLoading l (setError e s))
    as H0 by (exists "", true; reflexivity).
  unfold handleComplete, caught.
  destruct (configured env); simpl negb; cbv iota;
    [|apply failWith_frame, H0].
  destruct (getUser env) as [u|]; [|apply failWith_frame, H0].
  destruct (account env) as [acc|]; [apply commitProfile_frame, H0|].
  destruct (ensureAccount env) as [e|[acc|]].
  - apply failWith_frame, H0.
  - apply commitProfile_frame, H0.
  - apply failWith_frame, H0.
Qed.

Ltac frame_of env d s :=
  let e := fresh "e" in
  let l := fresh "l" in
  let E := fresh "E" in
  destruct (handleComplete_frame env d s) as [e [l E]].

Lemma handleComplete_step env d s : step (fst (handleComplete env d s)) = step s.
Proof. frame_of env d s. rewrite E. reflexivity. Qed.

Lemma handleComplete_data env d s : data (fst (handleComplete env d s)) = data s.
Proof. frame_of env d s. rewrite E. reflexivity. Qed.

Lemma handleComplete_latch env d s :
  claimAutoCompleteRef (fst (handleComplete env d s)) = claimAutoCompleteRef s.
Proof. frame_of env d s. rewrite E. reflexivity. Qed.

Lemma handleComplete_otpCode env d s :
  otpCode (fst (handleComplete env d s)) = otpCode s.
Proof. frame_of env d s. rewrite E. reflexivity. Qed.

Lemma handleComplete_resendCooldown env d s :
  resendCooldown (fst (handleComplete env d s)) = resendCooldown s.
Proof. frame_of env d s. rewrite E. reflexivity. Qed.

(** Splitting the pair a handler returns after it called [handleComplete]. *)
Lemma fst_let_pair {A B C : Type} (p : A * B) (f : A -> B -> A * C) :
  fst (let '(a, b) := p in f a b) = fst (f (fst p) (snd p)).
Proof. destruct p; reflexivity. Qed.

(** ** Step configuration *)

(** The total is the number of steps of the branch, plus one for the
    identity step of a user who is not signed in; it does not depend on
    the current step. *)
Lemma totalSteps_formula (stp : AuthFlowStep) (d : FlowData) (auth : bool) :
  totalSteps (getStepConfig stp d auth)
  = branchSteps d + (if auth then 0 else 1).
Proof.
  unfold getStepConfig, branchSteps, isProviderData, isOrgData.
  destruct (intent d) as [[|]|], (providerType d) as [[|]|], auth; reflexivity.
Qed.

Lemma totalSteps_step_independent (s1 s2 : AuthFlowStep) (d : FlowData) (auth : bool) :
  totalSteps (getStepConfig s1 d auth) = totalSteps (getStepConfig s2 d auth).
Proof. rewrite !totalSteps_formula. reflexivity. Qed.

(** For a user who is not signed in, the identity step and the
    verification step both carry the last ordinal. *)
Lemma auth_steps_share_last_ordinal (d : FlowData) :
  stepNumber (getStepConfig step_auth d false)
  = totalSteps (getStepConfig step_auth d false)
  /\ stepNumber (getStepConfig step_verify_code d false)
     = totalSteps (getStepConfig step_verify_code d false).
Proof.
  unfold getStepConfig, isProviderData, isOrgData.
  destruct (intent d) as [[|]|], (providerType d) as [[|]|]; split; reflexivity.
Qed.

(** The ordinals of the data steps on each branch. *)
Lemma stepNumber_table (d : FlowData) (auth : bool) :
  (intent d = Some provider ->
     stepNumber (getStepConfig step_provider_type d auth) = 1
     /\ stepNumber (getStepConfig step_provider_info d auth) = 2
     /\ stepNumber (getStepConfig step_org_search d auth) = 3)
  /\ (intent d = Some family ->
     stepNumber (getStepConfig step_family_info d auth) = 1
     /\ stepNumber (getStepConfig step_family_needs d auth) = 2).
Proof.
  unfold getStepConfig, isProviderData.
  split; intros ->; repeat split; destruct (isOrgData d); reflexivity.
Qed.

(** Under the invariant the ordinal never exceeds the total. *)
Lemma progress_within_total (stp : AuthFlowStep) (d : FlowData) (auth : bool) :
  (stp = step_org_search -> isOrgData d = true) ->
  (auth = true -> isAuthStep stp = false) ->
  stepNumber (getStepConfig stp d auth) <= totalSteps (getStepConfig stp d auth).
Proof.
  unfold getStepConfig, isProviderData.
  intros Horg Hauth.
  destruct (intent d) as [[|]|], (isOrgData d), auth, stp; simpl;
    try lia;
    try (specialize (Hauth eq_refl); discriminate Hauth);
    try (specialize (Horg eq_refl); discriminate Horg).
Qed.

Lemma provider_info_continue_enabled_only_if_valid_witness :
  Js.trim (orgName flowDallas) <> ""
  /\ (Js.trim (city flowDallas) <> "" \/ Js.trim (state flowDallas) <> "")
  /\ careTypes flowDallas <> []
  /\ Js.trim (phone flowDallas) <> "".
Proof.
  exact (provider_info_continue_enabled_only_if_valid stateAtProviderInfo eq_refl).
Defined.

(** A name of spaces only keeps the button disabled. *)
Example provider_info_blank_name_disabled :
  providerInfoContinueDisabled
    (updateData {| p_email := None; p_password := None; p_displayName := None;
                   p_intent := None; p_providerType := None;
                   p_orgName := Some "   "; p_city := None; p_state := None;
                   p_zip := None; p_careTypes := None; p_category := None;
                   p_description := None; p_phone := None;
                   p_visibleToFamilies := None; p_visibleToProviders := None;
                   p_claimedProfileId := None; p_claimedProfile := None;
                   p_careRecipientName := None;
                   p_careRecipientRelation := None; p_careNeeds := None |}
       stateAtProviderInfo) = true.
Proof. reflexivity. Qed.

(** ** The invariant of the open flow *)

Lemma AuthFlowStep_eqb_eq (a b : AuthFlowStep) :
  AuthFlowStep_eqb a b = true <-> a = b.
Proof.
  destruct a, b; simpl; split; intro H;
    try reflexivity; try discriminate H.
Qed.

Lemma field_edit_keeps_branch (p : Partial) (d : FlowData) :
  isFieldEdit p = true ->
  intent (spread d p) = intent d
  /\ providerType (spread d p) = providerType d
  /\ claimedProfileId (spread d p) = claimedProfileId d
  /\ claimedProfile (spread d p) = claimedProfile d.
Proof.
  unfold isFieldEdit. intro H.
  repeat (apply andb_true_iff in H; destruct H as [H ?]).
  unfold spread; cbn.
  destruct (p_intent p), (p_providerType p), (p_claimedProfileId p),
    (p_claimedProfile p); try discriminate.
  repeat split; reflexivity.
Qed.

Lemma getInitialStep_cases (P : Props) :
  getInitialStep P <> step_org_search
  /\ getInitialStep P <> step_verify_code
  /\ (claimProfile P = None -> getInitialStep P <> step_auth).
Proof.
  unfold getInitialStep.
  destruct (claimProfile P), (initialIntent P) as [[|]|],
    (initialProviderType P); repeat split; intros; try discriminate.
Qed.

Lemma handleSignUp_shape (env : Env) (s : State) :
  data (fst (handleSignUp env s)) = data s
  /\ (step (fst (handleSignUp env s)) = step s
      \/ step (fst (handleSignUp env s)) = step_verify_code).
Proof.
  unfold handleSignUp, failWith.
  destruct (Nat.ltb _ 8); [split; [|left]; reflexivity|].
  destruct (configured env); simpl negb; cbv iota;
    [|split; [|left]; reflexivity].
  destruct (signUp env) as [[m|[|] ids]|].
  - destruct (Js.includes m _); split; try left; reflexivity.
  - rewrite fst_let_pair. cbn [fst].
    rewrite handleComplete_data, handleComplete_step.
    split; [|left]; reflexivity.
  - destruct ids as [[|n]|]; [split; [|left]; reflexivity | |];
      (destruct (signInWithOtp env);
       [split; [|right]; reflexivity | split; [|left]; reflexivity]).
  - split; [|left]; reflexivity.
Qed.

Lemma handleSignIn_shape (env : Env) (s : State) :
  data (fst (handleSignIn env s)) = data s
  /\ step (fst (handleSignIn env s)) = step s.
Proof.
  unfold handleSignIn, failWith.
  destruct (configured env); simpl negb; cbv iota; [|split; reflexivity].
  destruct (signInWithPassword env) as [[m|]|].
  - split; reflexivity.
  - rewrite fst_let_pair. cbn [fst].
    rewrite handleComplete_data, handleComplete_step. split; reflexivity.
  - split; reflexivity.
Qed.

Lemma handleVerifyOtp_shape (env : Env) (s : State) :
  data (fst (handleVerifyOtp env s)) = data s
  /\ step (fst (handleVerifyOtp env s)) = step s.
Proof.
  unfold handleVerifyOtp, failWith.
  destruct (negb (Nat.eqb _ 8)); [split; reflexivity|].
  destruct (configured env); simpl negb; cbv iota; [|split; reflexivity].
  destruct (verifyOtp env) as [[m|]|].
  - destruct (Js.includes m "expired"); [split; reflexivity|].
    destruct (Js.includes m "invalid"); split; reflexivity.
  - rewrite fst_let_pair. cbn [fst].
    rewrite handleComplete_data, handleComplete_step. split; reflexivity.
  - split; reflexivity.
Qed.

Lemma handleResendCode_shape (env : Env) (s : State) :
  data (fst (handleResendCode env s)) = data s
  /\ step (fst (handleResendCode env s)) = step s.
Proof.
  unfold handleResendCode, failWith.
  destruct (Nat.ltb 0 _); [split; reflexivity|].
  destruct (configured env); simpl negb; cbv iota; [|split; reflexivity].
  destruct (signInWithOtp env) as [[m|]|]; split; reflexivity.
Qed.

Lemma handleSendOtpForSignIn_shape (env : Env) (s : State) :
  data (fst (handleSendOtpForSignIn env s)) = data s
  /\ (step (fst (handleSendOtpForSignIn env s)) = step s
      \/ step (fst (handleSendOtpForSignIn env s)) = step_verify_code).
Proof.
  unfold handleSendOtpForSignIn, failWith.
  destruct (negb (Js.truthy _)); [split; [|left]; reflexivity|].
  destruct (configured env); simpl negb; cbv iota;
    [|split; [|left]; reflexivity].
  destruct (signInWithOtp env) as [[m|]|].
  - destruct (Js.includes m "not found" || Js.includes m "not registered")%bool;
      split; try left; reflexivity.
  - split; [|right]; reflexivity.
  - split; [|left]; reflexivity.
Qed.

Lemma claimAutoCompleteEffect_shape env P user s :
  data (fst (claimAutoCompleteEffect env P user s)) = data s
  /\ step (fst (claimAutoCompleteEffect env P user s)) = step s.
Proof.
  unfold claimAutoCompleteEffect.
  destruct (snd (claimLatch P user (claimAutoCompleteRef s))).
  - destruct (handleComplete env (data s) (setLatch true s)) as [s1 cs] eqn:E.
    assert (s1 = fst (handleComplete env (data s) (setLatch true s)))
      as -> by (rewrite E; reflexivity).
    cbn [fst].
    destruct (negb (isOpen P)); cbn;
      rewrite handleComplete_data, handleComplete_step; split; reflexivity.
  - cbn [fst]. destruct (negb (isOpen P)); split; reflexivity.
Qed.

Lemma openState_invariant (P : Props) now store :
  progressInvariant (openState P now store).
Proof.
  destruct (getInitialStep_cases P) as [H1 _].
  unfold progressInvariant, openState. cbn [step setData initialState].
  intro E. contradiction (H1 E).
Qed.

Lemma dispatch_invariant env (P : Props) (user : option User) ev s :
  progressInvariant s ->
  offered ev s = true ->
  progressInvariant (fst (dispatch env P user ev s)).
Proof.
  unfold progressInvariant. intros Horg Hoff.
  destruct ev; cbn [dispatch fst]; cbn [offered] in Hoff;
    try (apply AuthFlowStep_eqb_eq in Hoff).
  - (* intent select *)
    destruct i; cbn; intros; discriminate.
  - (* provider type select *)
    cbn; intros; discriminate.
  - (* provider info next *)
    apply andb_true_iff in Hoff. destruct Hoff as [Hoff _].
    apply AuthFlowStep_eqb_eq in Hoff.
    unfold handleProviderInfoNext.
    destruct (isOrgData (data s)) eqn:Eorg.
    + cbn. intros; exact Eorg.
    + destruct user as [u|]; cbn [is_some].
      * rewrite handleComplete_step, handleComplete_data, Hoff.
        intros; discriminate.
      * cbn. intros; discriminate.
  - (* org search next *)
    unfold handleOrgSearchNext.
    set (s1 := match selectedOrgId s with Some _ => _ | None => s end).
    assert (step s1 = step s /\ isOrgData (data s1) = isOrgData (data s))
      as [Es Ed].
    { subst s1. destruct (selectedOrgId s) as [sel|]; [|split; reflexivity].
      destruct (Js.truthy sel); [|split; reflexivity].
      destruct (findProfile sel (searchResults s)); split; reflexivity. }
    destruct user as [u|]; cbn [is_some].
    + rewrite handleComplete_step, handleComplete_data, Es, Ed, Hoff.
      intros; auto.
    + cbn. intros; discriminate.
  - (* family info next *)
    cbn. intros; discriminate.
  - (* family needs next *)
    unfold handleFamilyNeedsNext.
    destruct user as [u|]; cbn [is_some].
    + rewrite handleComplete_step, handleComplete_data, Hoff.
      intros; discriminate.
    + cbn. intros; discriminate.
  - (* back *)
    unfold goBack. cbn [step data setError].
    destruct (step s) eqn:Es;
      destruct (initialIntent P), (initialProviderType P),
        (claimProfile P) eqn:Ec, (isProviderData (data s)),
        (isOrgData (data s)) eqn:Eo;
      cbn; rewrite ?Es;
      intro Hx; try discriminate Hx; try exact Eo; auto.
  - (* field edit *)
    destruct (field_edit_keeps_branch p (data s) Hoff) as [_ [Ht _]].
    unfold isOrgData in *. cbn [updateData setData step data].
    rewrite Ht. assumption.
  - (* code input *)
    cbn. assumption.
  - cbn. assumption.
  - cbn. assumption.
  - (* sign up *)
    destruct (handleSignUp_shape env s) as [Ed [Es|Es]]; rewrite Ed, Es.
    + assumption.
    + intros; discriminate.
  - (* sign in *)
    destruct (handleSignIn_shape env s) as [Ed Es]; rewrite Ed, Es.
    assumption.
  - (* send code for sign-in *)
    destruct (handleSendOtpForSignIn_shape env s) as [Ed [Es|Es]]; rewrite Ed, Es.
    + assumption.
    + intros; discriminate.
  - (* verify *)
    destruct (handleVerifyOtp_shape env s) as [Ed Es]; rewrite Ed, Es.
    assumption.
  - (* resend *)
    destruct (handleResendCode_shape env s) as [Ed Es]; rewrite Ed, Es.
    assumption.
  - (* timer *)
    unfold cooldownTick. destruct (Nat.ltb 0 _); cbn; assumption.
  - (* auto-complete *)
    destruct (claimAutoCompleteEffect_shape env P user s) as [Ed Es];
      rewrite Ed, Es.
    assumption.
Qed.

Lemma reachable_invariant (P : Props) (user : option User) (s : State) :
  reachable P user s -> progressInvariant s.
Proof.
  induction 1 as [user now store | user env ev s Hr IH Hoff | user user' s Hr IH].
  - apply openState_invariant.
  - apply (dispatch_invariant env P user); assumption.
  - exact IH.
Qed.

(** On the two identity steps a signed-in user is shown an ordinal one
    above the total, whatever the flow data. *)
Lemma progress_signed_in_identity_step (stp : AuthFlowStep) (d : FlowData) :
  isAuthStep stp = true ->
  stepNumber (getStepConfig stp d true) = totalSteps (getStepConfig stp d true) + 1.
Proof.
  unfold getStepConfig, isProviderData.
  destruct (intent d) as [[|]|], (isOrgData d), stp; simpl;
    intro H; try discriminate H; reflexivity.
Qed.

(** X28.  The identity of the render is not the flow's own: in every
    state of an open flow the user who is not signed in is shown an ordinal
    within the total on every step, and the user who is signed in is
    shown one within the total off the two identity steps and one above
    the total on them.  A signed-in user is on an identity step when
    the flow was opened to claim a listing, and in any flow after a
    sign-in or a verification that succeeded and a commit that failed. *)
Lemma reachable_progress_within_total (P : Props) (user : option User) (s : State) :
  reachable P user s ->
  let shown := stepNumber (progressOf user s) in
  let total := totalSteps (progressOf user s) in
  ((is_some user && isAuthStep (step s))%bool = false -> shown <= total)
  /\ ((is_some user && isAuthStep (step s))%bool = true -> shown = total + 1).
Proof.
  intros Hr shown total. subst shown total.
  pose proof (reachable_invariant P user s Hr) as Horg.
  unfold progressOf. split; intro H.
  - apply progress_within_total; [exact Horg|].
    intro Hu. rewrite Hu in H. exact H.
  - apply andb_true_iff in H. destruct H as [Hu Ha]. rewrite Hu.
    apply progress_signed_in_identity_step, Ha.
Qed.

(** C3.  The claim flow of a signed-in user is a reachable state whose
    progress bar is shown with ordinal 4 of a total of 3: the flow
    starts at the identity step, which the total of a signed-in user
    does not count. *)
Theorem authenticated_claim_flow_progress_exceeds_total
    (cp : Profile.t) (u : User) (i : option UserIntent)
    (t : option ProviderType) (signIn : bool) :
  let P := {| isOpen := true; initialIntent := i; initialProviderType := t;
              claimProfile := Some cp; defaultToSignIn := signIn |} in
  let s := initialState P in
  reachable P (Some u) s
  /\ step s = step_auth
  /\ showProgress s = true
  /\ stepNumber (progressOf (Some u) s) = 4
  /\ totalSteps (progressOf (Some u) s) = 3.
Proof.
  intros P s. split; [|repeat split].
  exact (reach_open P (Some u) 0%Z None).
Qed.

(** ** Claim merge *)

Lemma mergedText_empty (target : option string) (flow : string) :
  mergedText emptyText target flow
    (match when (negb (Js.truthy_opt target) && Js.truthy flow) flow with
     | Some v => Some v
     | None => target
     end).
Proof.
  unfold mergedText, emptyText, when.
  destruct target as [[|c r]|], flow as [|c' r']; cbn; repeat split; intros;
    try reflexivity; try congruence;
    try (exfalso; tauto);
    try (match goal with H : _ \/ _ |- _ => destruct H; discriminate end).
Qed.

Lemma mergedText_blank (target : option string) (flow : string) :
  mergedText blankText target flow
    (match when (Js.blank_opt target && Js.truthy flow) flow with
     | Some v => Some v
     | None => target
     end).
Proof.
  unfold mergedText, when.
  destruct (Js.blank_opt target) eqn:Eb.
  - destruct flow as [|c' r']; cbn; repeat split; intros;
      try reflexivity; try congruence.
    exfalso. apply H. apply blank_opt_iff. exact Eb.
  - cbn. repeat split; intros; try reflexivity;
      apply blank_opt_iff in H; congruence.
Qed.

Lemma mergedList_ok (target : option (list string)) (flow : list string) :
  mergedList target flow
    (match when (empty_list_opt target && Nat.ltb 0 (List.length flow)) flow with
     | Some v => Some v
     | None => target
     end).
Proof.
  unfold mergedList, emptyList, when.
  destruct target as [[|x l]|], flow as [|y l']; cbn; repeat split; intros;
    try reflexivity; try congruence;
    try (exfalso; tauto);
    try (match goal with H : _ \/ _ |- _ => destruct H; discriminate end).
Qed.

Lemma claimMergeCommon_holds (d : FlowData) (s : Profile.t) (accountId : string) :
  claimMergeCommon d s accountId (applyClaimUpdate (claimUpdate d s accountId) s).
Proof.
  unfold claimMergeCommon, applyClaimUpdate, claimUpdate.
  cbn [Profile.account_id Profile.claim_state Profile.city Profile.state
       Profile.zip Profile.care_types Profile.description Profile.phone
       cu_account_id cu_claim_state cu_city cu_state cu_zip cu_care_types
       cu_description cu_phone].
  repeat split;
    try apply mergedText_empty; try apply mergedText_blank;
    try apply mergedList_ok.
Qed.

(** C1 (as stated).  With a listing that has no category and a flow
    that collected one, the committed profile does not carry the flow's
    category: the merge of the category the claim describes does not
    take place. *)
Lemma claim_merge_ignores_flow_category :
  claimedProfileId flowDallas = Some "listing-1"
  /\ claimedProfile flowDallas = Some listingAustin
  /\ Profile.category listingAustin = None
  /\ category flowDallas = Some "memory_care"
  /\ ~ claimMergeAsStated flowDallas listingAustin "acct-1".
Proof.
  repeat split.
  intros [_ [H _]].
  specialize (H eq_refl ltac:(discriminate)). discriminate H.
Qed.

(** C1 (amended).  A provider commit with a claim target makes exactly
    one profile call, the update of the target, never an insert.  The
    update always sets the account id and the claim state "pending";
    it fills city, state, zip, care types, description, phone and
    display name with the flow's value exactly when the target's value
    is empty (null, empty, or for description and display name white
    space only) and the flow's value is not; every non-empty target
    field is kept, and the category is never written. *)
Theorem claim_merge_fills_only_empty_fields
    (env : Env) (d : FlowData) (accountId cid : string) (s : Profile.t) :
  claimedProfileId d = Some cid ->
  cid <> "" ->
  claimedProfile d = Some s ->
  let u := claimUpdate d s accountId in
  let c := applyClaimUpdate u s in
  createProviderProfile env d accountId
    = ([DbUpdateProfile cid u],
       match claimErr env with Some m => inl m | None => inr cid end)
  /\ claimMergeCommon d s accountId c
  /\ Profile.category c = Profile.category s
  /\ mergedText blankText (Profile.display_name s) (orgName d)
       (Profile.display_name c).
Proof.
  intros Hid Hne Hs u c. split; [|split; [|split]].
  - unfold createProviderProfile. rewrite Hid, Hs.
    apply truthy_iff in Hne. rewrite Hne. reflexivity.
  - apply claimMergeCommon_holds.
  - reflexivity.
  - apply mergedText_blank.
Qed.

Lemma claim_merge_fills_only_empty_fields_witness :
  let u := claimUpdate flowDallas listingAustin "acct-1" in
  let c := applyClaimUpdate u listingAustin in
  createProviderProfile envAllGood flowDallas "acct-1"
    = ([DbUpdateProfile "listing-1" u], inr "listing-1")
  /\ claimMergeCommon flowDallas listingAustin "acct-1" c
  /\ Profile.category c = Profile.category listingAustin
  /\ mergedText blankText (Profile.display_name listingAustin)
       (orgName flowDallas) (Profile.display_name c).
Proof.
  exact (claim_merge_fills_only_empty_fields envAllGood flowDallas "acct-1"
           "listing-1" listingAustin eq_refl ltac:(discriminate) eq_refl).
Defined.

(** The example of the specification: the target's city "Austin" is
    kept against the flow's "Dallas"; the empty zip, care types and
    description are filled. *)
Example claim_merge_keeps_austin :
  applyClaimUpdate (claimUpdate flowDallas listingAustin "acct-1") listingAustin
  = {| Profile.id := "listing-1";
       Profile.account_id := Some "acct-1";
       Profile.display_name := Some "Sunrise Senior Living";
       Profile.city := Some "Austin";
       Profile.state := Some "TX";
       Profile.zip := Some "75201";
       Profile.care_types := Some ["Memory Care"];
       Profile.category := None;
       Profile.description := Some "A small memory care home.";
       Profile.phone := Some "(512) 555-0100";
       Profile.claim_state := "pending" |}.
Proof. reflexivity. Qed.

(** A target whose name and description hold white space only, also
    white space outside ASCII, gets both from the flow. *)
Example claim_merge_fills_blank_listing :
  let u := claimUpdate flowDallas listingBlank "acct-1" in
  cu_display_name u = Some "Sunrise Senior Living"
  /\ cu_description u = Some "A small memory care home."
  /\ cu_city u = None.
Proof. repeat split. Qed.

(** The commit of such a flow, run to its end. *)
Example claim_commit_calls :
  snd (handleComplete envAllGood flowDallas
         (setData flowDallas (initialState
            {| isOpen := true; initialIntent := Some provider;
               initialProviderType := Some organization;
               claimProfile := None; defaultToSignIn := false |})))
  = [ GwGetUser;
      DbUpdateProfile "listing-1" (claimUpdate flowDallas listingAustin "acct-1");
      DbUpdateAccount "acct-1" "listing-1" "Sunrise Senior Living";
      DbUpsertMembership "acct-1";
      StorageRemove; RefreshAccountData; OnClose; RouterPush "/portal" ].
Proof. reflexivity. Qed.

(** ** Missing intent *)

Lemma failWith_result (msg : string) (calls : list Call) (s : State) :
  error (fst (failWith msg calls s)) = msg
  /\ loading (fst (failWith msg calls s)) = false
  /\ snd (failWith msg calls s) = calls.
Proof. repeat split. Qed.



(** ** The auto-complete latch *)

(** The effect calls [handleComplete] exactly when the latch function
    says so, and then on a state whose latch is already set. *)
Lemma claimAutoCompleteEffect_fires env P user s :
  isOpen P = true ->
  claimAutoCompleteEffect env P user s
  = if snd (claimLatch P user (claimAutoCompleteRef s))
    then handleComplete env (data s) (setLatch true s)
    else (s, []).
Proof.
  intro Ho. unfold claimAutoCompleteEffect. rewrite Ho.
  destruct (snd (claimLatch P user (claimAutoCompleteRef s))).
  - destruct (handleComplete env (data s) (setLatch true s)); reflexivity.
  - reflexivity.
Qed.

Lemma claimAutoCompleteEffect_latch env P user s :
  claimAutoCompleteRef (fst (claimAutoCompleteEffect env P user s))
  = fst (claimLatch P user (claimAutoCompleteRef s)).
Proof.
  unfold claimAutoCompleteEffect, claimLatch. cbn [fst snd].
  destruct (isOpen P && is_some (claimProfile P) && is_some user
            && negb (claimAutoCompleteRef s))%bool eqn:Ef.
  - destruct (handleComplete env (data s) (setLatch true s)) as [s1 cs] eqn:E.
    assert (s1 = fst (handleComplete env (data s) (setLatch true s)))
      as -> by (rewrite E; reflexivity).
    cbn [fst]. destruct (negb (isOpen P)); cbn;
      [reflexivity | apply handleComplete_latch].
  - cbn [fst]. destruct (negb (isOpen P)); reflexivity.
Qed.

(** No handler other than the effect touches the latch. *)
Lemma dispatch_latch env P user ev s :
  claimAutoCompleteRef (fst (dispatch env P user ev s))
  = match ev with
    | EvAutoComplete => fst (claimLatch P user (claimAutoCompleteRef s))
    | _ => claimAutoCompleteRef s
    end.
Proof.
  destruct ev; cbn [dispatch fst]; try reflexivity.
  - destruct i; reflexivity.
  - unfold handleProviderInfoNext.
    destruct (isOrgData (data s)); [reflexivity|].
    destruct (is_some user); [apply handleComplete_latch | reflexivity].
  - unfold handleOrgSearchNext.
    set (s1 := match selectedOrgId s with Some _ => _ | None => s end).
    assert (claimAutoCompleteRef s1 = claimAutoCompleteRef s) as Es.
    { subst s1. destruct (selectedOrgId s) as [sel|]; [|reflexivity].
      destruct (Js.truthy sel); [|reflexivity].
      destruct (findProfile sel (searchResults s)); reflexivity. }
    destruct (is_some user); [rewrite handleComplete_latch|]; exact Es.
  - unfold handleFamilyNeedsNext.
    destruct (is_some user); [apply handleComplete_latch | reflexivity].
  - unfold goBack.
    destruct (step (setError "" s)), (initialIntent P), (initialProviderType P),
      (claimProfile P), (isProviderData (data (setError "" s))),
      (isOrgData (data (setError "" s))); reflexivity.
  - unfold handleSignUp, failWith.
    destruct (Nat.ltb _ 8); [reflexivity|].
    destruct (configured env); simpl negb; cbv iota; [|reflexivity].
    destruct (signUp env) as [[m|[|] ids]|].
    + destruct (Js.includes m _); reflexivity.
    + rewrite fst_let_pair. cbn [fst]. rewrite handleComplete_latch. reflexivity.
    + destruct ids as [[|n]|]; [reflexivity | |];
        destruct (signInWithOtp env); reflexivity.
    + reflexivity.
  - unfold handleSignIn, failWith.
    destruct (configured env); simpl negb; cbv iota; [|reflexivity].
    destruct (signInWithPassword env) as [[m|]|]; try reflexivity.
    rewrite fst_let_pair. cbn [fst]. rewrite handleComplete_latch. reflexivity.
  - unfold handleSendOtpForSignIn, failWith.
    destruct (negb (Js.truthy _)); [reflexivity|].
    destruct (configured env); simpl negb; cbv iota; [|reflexivity].
    destruct (signInWithOtp env) as [[m|]|]; try reflexivity.
    destruct (Js.includes m "not found" || Js.includes m "not registered")%bool;
      reflexivity.
  - unfold handleVerifyOtp, failWith.
    destruct (negb (Nat.eqb _ 8)); [reflexivity|].
    destruct (configured env); simpl negb; cbv iota; [|reflexivity].
    destruct (verifyOtp env) as [[m|]|]; try reflexivity.
    + destruct (Js.includes m "expired"); [reflexivity|].
      destruct (Js.includes m "invalid"); reflexivity.
    + rewrite fst_let_pair. cbn [fst]. rewrite handleComplete_latch. reflexivity.
  - unfold handleResendCode, failWith.
    destruct (Nat.ltb 0 _); [reflexivity|].
    destruct (configured env); simpl negb; cbv iota; [|reflexivity].
    destruct (signInWithOtp env) as [[m|]|]; reflexivity.
  - unfold cooldownTick. destruct (Nat.ltb 0 _); reflexivity.
  - apply claimAutoCompleteEffect_latch.
Qed.

(** While the flow is open a set latch stays set and blocks the effect. *)
Lemma claimLatch_open_set P user :
  isOpen P = true -> claimLatch P user true = (true, false).
Proof.
  intro Ho. unfold claimLatch. rewrite Ho.
  destruct (is_some (claimProfile P)), (is_some user); reflexivity.
Qed.

Lemma autoCommits_latched (rs : list Render) (s : State) :
  Forall (fun r => isOpen (r_props r) = true) rs ->
  claimAutoCompleteRef s = true ->
  snd (autoCommits rs s) = 0
  /\ claimAutoCompleteRef (fst (autoCommits rs s)) = true.
Proof.
  intro Hall. revert s.
  induction Hall as [|r rest Ho Hrest IH]; intros s Hl.
  - split; [reflexivity | exact Hl].
  - cbn [autoCommits].
    set (s1 := fst (dispatch (r_env r) (r_props r) (r_user r) (r_event r) s)).
    assert (claimAutoCompleteRef s1 = true) as Hl1.
    { subst s1. rewrite dispatch_latch, Hl.
      destruct (r_event r); try reflexivity.
      rewrite claimLatch_open_set by exact Ho. reflexivity. }
    assert (autoCommitFires r s = false) as Hf.
    { unfold autoCommitFires. destruct (r_event r); try reflexivity.
      rewrite Hl, claimLatch_open_set by exact Ho. reflexivity. }
    destruct (IH s1 Hl1) as [IHn IHl].
    destruct (autoCommits rest s1) as [s2 n]. cbn [fst snd] in *.
    rewrite Hf, IHn. split; [reflexivity | exact IHl].
Qed.

(** Once the latch is set, every evaluation of the effect in an open
    flow does nothing. *)
Lemma autoCompleteRuns_latched (rs : list Render) (s : State) :
  Forall (fun r => isOpen (r_props r) = true) rs ->
  claimAutoCompleteRef s = true ->
  Forall effectIdle (autoCompleteRuns rs s).
Proof.
  intro Hall. revert s.
  induction Hall as [|r rest Ho Hrest IH]; intros s Hl.
  - constructor.
  - cbn [autoCompleteRuns].
    set (s1 := fst (dispatch (r_env r) (r_props r) (r_user r) (r_event r) s)).
    assert (claimAutoCompleteRef s1 = true) as Hl1.
    { subst s1. rewrite dispatch_latch, Hl.
      destruct (r_event r); try reflexivity.
      rewrite claimLatch_open_set by exact Ho. reflexivity. }
    destruct (r_event r); try (apply IH; exact Hl1).
    constructor; [|apply IH; exact Hl1].
    unfold effectIdle. cbn [fst snd].
    rewrite claimAutoCompleteEffect_fires by exact Ho.
    rewrite Hl, claimLatch_open_set by exact Ho. reflexivity.
Qed.

(** C4.  While the flow stays open, whatever the sequence of renders,
    events and re-evaluations of the effect, the auto-complete effect
    runs the commit at most once: the evaluations of the effect in the
    run are a number of evaluations that leave the state as it is and
    make no call, then possibly one that finds the latch released, sets
    it and runs the commit, and after that only evaluations that leave
    the state as it is and make no call.  The effect is the function of
    the latch this rests on: it runs the commit, on a state whose latch
    is already set, exactly when the flow is open with a claim target
    and a user and the latch is released, and does nothing otherwise;
    an evaluation with the flow open never clears the latch; an
    evaluation with the flow closed always does. *)
Theorem auto_commit_at_most_once (rs : list Render) (s : State) :
  Forall (fun r => isOpen (r_props r) = true) rs ->
  (exists before after,
     autoCompleteRuns rs s = (before ++ after)%list
     /\ Forall effectIdle before
     /\ match after with
        | [] => True
        | e :: rest => effectCommits e /\ Forall effectIdle rest
        end)
  /\ snd (autoCommits rs s) <= 1
  /\ (forall env P user s0,
        isOpen P = true ->
        claimAutoCompleteEffect env P user s0
        = if (is_some (claimProfile P) && is_some user
              && negb (claimAutoCompleteRef s0))%bool
          then handleComplete env (data s0) (setLatch true s0)
          else (s0, []))
  /\ (forall P user latch,
        isOpen P = true -> latch = true -> fst (claimLatch P user latch) = true)
  /\ (forall P user latch,
        isOpen P = false -> claimLatch P user latch = (false, false)).
Proof.
  intro Hall. split; [|split; [|split; [|split]]].
  - revert s. induction Hall as [|r rest Ho Hrest IH]; intro s.
    + exists [], []. repeat split. constructor.
    + cbn [autoCompleteRuns].
      set (s1 := fst (dispatch (r_env r) (r_props r) (r_user r) (r_event r) s)).
      destruct (r_event r) eqn:Ev; try (exact (IH s1)).
      destruct (snd (claimLatch (r_props r) (r_user r) (claimAutoCompleteRef s)))
        eqn:Hf.
      * assert (claimAutoCompleteRef s = false) as Hl0.
        { unfold claimLatch in Hf. cbn [snd] in Hf.
          destruct (claimAutoCompleteRef s); [|reflexivity].
          rewrite andb_false_r in Hf. discriminate Hf. }
        assert (claimAutoCompleteRef s1 = true) as Hl1.
        { subst s1. rewrite dispatch_latch.
          unfold claimLatch in *. cbn [fst snd] in *.
          rewrite Hf, Ho. reflexivity. }
        exists [], ((r, s) :: autoCompleteRuns rest s1).
        split; [reflexivity|]. split; [constructor|].
        split; [|exact (autoCompleteRuns_latched rest s1 Hrest Hl1)].
        unfold effectCommits. cbn [fst snd]. split; [exact Hl0|].
        rewrite claimAutoCompleteEffect_fires by exact Ho.
        rewrite Hf. reflexivity.
      * assert (claimAutoCompleteEffect (r_env r) (r_props r) (r_user r) s
                = (s, [])) as Hidle.
        { rewrite claimAutoCompleteEffect_fires by exact Ho.
          rewrite Hf. reflexivity. }
        assert (s1 = s) as Es1.
        { subst s1. cbn [dispatch]. rewrite Hidle. reflexivity. }
        destruct (IH s1) as [before [after [E [Hb Ha]]]].
        exists ((r, s) :: before), after.
        split; [rewrite E; reflexivity|]. split; [|exact Ha].
        constructor; [exact Hidle | exact Hb].
  - revert s. induction Hall as [|r rest Ho Hrest IH]; intro s.
    + cbn. lia.
    + cbn [autoCommits].
      set (s1 := fst (dispatch (r_env r) (r_props r) (r_user r) (r_event r) s)).
      destruct (autoCommitFires r s) eqn:Hf.
      * assert (claimAutoCompleteRef s1 = true) as Hl1.
        { subst s1. rewrite dispatch_latch.
          unfold autoCommitFires in Hf.
          destruct (r_event r); try discriminate Hf.
          unfold claimLatch in *. cbn [fst snd] in *.
          rewrite Hf, Ho. reflexivity. }
        destruct (autoCommits_latched rest s1 Hrest Hl1) as [Hn _].
        destruct (autoCommits rest s1) as [s2 n]. cbn [snd] in *. lia.
      * specialize (IH s1).
        destruct (autoCommits rest s1) as [s2 n]. cbn [snd] in *. lia.
  - intros env P user s0 Ho.
    rewrite claimAutoCompleteEffect_fires by exact Ho.
    unfold claimLatch. cbn [snd]. rewrite Ho. reflexivity.
  - intros P user latch Ho ->. rewrite claimLatch_open_set by exact Ho.
    reflexivity.
  - intros P user latch Ho. unfold claimLatch. rewrite Ho. reflexivity.
Qed.

Lemma auto_commit_at_most_once_witness :
  let r := {| r_env := envAllGood; r_props := propsClaim;
              r_user := getUser envAllGood; r_event := EvAutoComplete |} in
  exists before after,
    autoCompleteRuns [r; r; r] (initialState propsClaim)
    = (before ++ after)%list
    /\ Forall effectIdle before
    /\ match after with
       | [] => True
       | e :: rest => effectCommits e /\ Forall effectIdle rest
       end.
Proof.
  intro r.
  apply (auto_commit_at_most_once [r; r; r] (initialState propsClaim)).
  repeat constructor.
Defined.

(** In that run the first evaluation runs the commit, with its eight
    outside calls; the second and the third make none and leave the
    state as the first left it. *)
Example auto_commit_run :
  let r := {| r_env := envAllGood; r_props := propsClaim;
              r_user := getUser envAllGood; r_event := EvAutoComplete |} in
  let s0 := initialState propsClaim in
  let s1 := fst (claimAutoCompleteEffect envAllGood propsClaim (r_user r) s0) in
  autoCompleteRuns [r; r; r] s0 = [(r, s0); (r, s1); (r, s1)]
  /\ List.length (snd (claimAutoCompleteEffect envAllGood propsClaim (r_user r) s0)) = 8
  /\ claimAutoCompleteEffect envAllGood propsClaim (r_user r) s1 = (s1, []).
Proof. repeat split. Qed.

(** The first evaluation does start the commit, the next ones do not. *)
Example auto_commit_fires_once :
  let r := {| r_env := envAllGood; r_props := propsClaim;
              r_user := getUser envAllGood; r_event := EvAutoComplete |} in
  snd (autoCommits [r; r; r] (initialState propsClaim)) = 1.
Proof. reflexivity. Qed.

(** ** Verification code *)

(** C5 (as stated).  After an invalid code the code field still holds
    what the user typed: it is not cleared. *)
Lemma invalid_code_is_not_cleared :
  otpCode (fst (handleVerifyOtp envWrongCode stateAtVerify)) = "12345678"
  /\ ~ invalidCodeAsStated envWrongCode stateAtVerify.
Proof.
  split; [reflexivity|].
  intros [_ [_ [H _]]]. discriminate H.
Qed.

(** C5 (amended).  When the gateway rejects a submitted code as invalid
    (its message mentions "invalid" and not "expired"), the handler made
    one gateway call and changed two cells only: the error, now the
    invalid-code message, which differs from the expired-code message,
    and the loading flag, now off.  The flow stays on the verification
    step; the typed code, the flow data and every other cell are as
    before. *)
Theorem invalid_code_keeps_step_and_code (env : Env) (s : State) (m : string) :
  step s = step_verify_code ->
  String.length (otpCode s) = 8 ->
  configured env = true ->
  verifyOtp env = Resolved (Some m) ->
  Js.includes m "expired" = false ->
  Js.includes m "invalid" = true ->
  handleVerifyOtp env s
  = (setLoading false (setError MSG_CODE_INVALID s),
     [GwVerifyOtp (email (data s)) (otpCode s)])
  /\ step (fst (handleVerifyOtp env s)) = step_verify_code
  /\ otpCode (fst (handleVerifyOtp env s)) = otpCode s
  /\ data (fst (handleVerifyOtp env s)) = data s
  /\ MSG_CODE_INVALID <> MSG_CODE_EXPIRED.
Proof.
  intros Hs Hlen Hc Hv He Hi.
  assert (handleVerifyOtp env s
          = (setLoading false (setError MSG_CODE_INVALID s),
             [GwVerifyOtp (email (data s)) (otpCode s)])) as E.
  { unfold handleVerifyOtp, failWith.
    rewrite Hlen, Hc, Hv, He, Hi. reflexivity. }
  rewrite E. repeat split; try assumption. discriminate.
Qed.

Lemma invalid_code_keeps_step_and_code_witness :
  handleVerifyOtp envWrongCode stateAtVerify
  = (setLoading false (setError MSG_CODE_INVALID stateAtVerify),
     [GwVerifyOtp "jane@example.com" "12345678"]).
Proof.
  exact (proj1 (invalid_code_keeps_step_and_code envWrongCode stateAtVerify
                  "Token is invalid" eq_refl eq_refl eq_refl eq_refl
                  eq_refl eq_refl)).
Defined.

(** The expired-code branch is tested first and has its own message. *)
Lemma expired_code_message (env : Env) (s : State) (m : string) :
  String.length (otpCode s) = 8 ->
  configured env = true ->
  verifyOtp env = Resolved (Some m) ->
  Js.includes m "expired" = true ->
  handleVerifyOtp env s
  = (setLoading false (setError MSG_CODE_EXPIRED s),
     [GwVerifyOtp (email (data s)) (otpCode s)]).
Proof.
  intros Hlen Hc Hv He. unfold handleVerifyOtp, failWith.
  rewrite Hlen, Hc, Hv, He. reflexivity.
Qed.

(** ** Draft persistence *)

Lemma isExpired_not_fresh (now : Z) (v : SavedProgress) :
  isExpired now (Parsed v) = true -> isFresh now (saved_timestamp v) = false.
Proof.
  unfold isExpired, isFresh.
  destruct (ToNumber (saved_timestamp v)) as [|negative|t]; intro H.
  - reflexivity.
  - rewrite H. reflexivity.
  - apply Z.leb_le in H. apply Z.ltb_ge. exact H.
Qed.

(** What the save effect writes is fresh at the time of the write. *)
Lemma own_draft_is_fresh (stp : AuthFlowStep) (d : FlowData) (now : Z) :
  isFresh now (saved_timestamp (toSave stp d now)) = true
  /\ isExpired now (Parsed (toSave stp d now)) = false.
Proof.
  unfold isFresh, isExpired. cbn [toSave saved_timestamp ToNumber].
  rewrite Z.sub_diag. split; reflexivity.
Qed.

(** What the restore effect does with a draft that is not fresh. *)
Lemma restoreEffect_stale (P : Props) (now : Z) (v : SavedProgress) (prev : FlowData) :
  isOpen P = true -> claimProfile P = None ->
  isFresh now (saved_timestamp v) = false ->
  restoreEffect P now (Some (Parsed v)) prev = (None, prev).
Proof.
  intros Ho Hc Hf. unfold restoreEffect. rewrite Ho, Hc, Hf. reflexivity.
Qed.

Lemma restoreEffect_none (P : Props) (now : Z) (prev : FlowData) :
  restoreEffect P now None prev = (None, prev).
Proof.
  unfold restoreEffect. destruct (isOpen P), (claimProfile P); reflexivity.
Qed.

Lemma restoreEffect_discard
    (P : Props) (now : Z) (item : Item) (prev : FlowData) :
  isExpired now item = true \/ isUnusable item = true ->
  let r := restoreEffect P now (Some item) prev in
  r = (fst r, prev)
  /\ (isOpen P = true -> claimProfile P = None ->
      isExpired now item = true -> fst r = None)
  /\ restoreEffect P now (fst r) prev = r.
Proof.
  intros H r.
  subst r. unfold restoreEffect.
    destruct (isOpen P); [|repeat split; intros; discriminate].
    destruct (claimProfile P); [repeat split; intros; discriminate|].
    destruct item as [txt|v]; [repeat split; intros; discriminate|].
    assert (isFresh now (saved_timestamp v) = true ->
            isExpired now (Parsed v) = false) as Hfe.
    { intro Ef. destruct (isExpired now (Parsed v)) eqn:Ee; [|reflexivity].
      apply isExpired_not_fresh in Ee. congruence. }
    destruct (isFresh now (saved_timestamp v)) eqn:Ef; [|repeat split].
    specialize (Hfe eq_refl).
    destruct H as [H|H]; [congruence|].
    unfold isUnusable in H.
    destruct (saved_data v) as [dd|] eqn:Ed.
    - unfold isFresh in Ef.
      destruct (ToNumber (saved_timestamp v)); [discriminate Ef | discriminate H | discriminate H].
    - cbn [intentMatches].
      destruct (initialIntent P); cbn [fst snd];
        (split; [reflexivity | split; [intros _ _ Hexp; congruence|]]);
        cbn [intentMatches fst snd]; rewrite Ef, ?Ed;
        cbn [intentMatches]; reflexivity.
Qed.

Lemma spread_own_draft (d : FlowData) : spread d (draftOf d) = d.
Proof. destruct d; reflexivity. Qed.

Lemma setData_same (s : State) : setData (data s) s = s.
Proof. destruct s; reflexivity. Qed.

(** The restore effect on the draft the save effect has just written
    from the same flow data: the store and the data stay. *)
Lemma restoreEffect_own_draft (P : Props) (now : Z) (stp : AuthFlowStep)
    (d : FlowData) :
  restoreEffect P now (Some (Parsed (toSave stp d now))) d
  = (Some (Parsed (toSave stp d now)), d).
Proof.
  unfold restoreEffect.
  destruct (isOpen P); [|reflexivity].
  destruct (claimProfile P); [reflexivity|].
  rewrite (proj1 (own_draft_is_fresh stp d now)).
  cbn [toSave saved_data].
  destruct (initialIntent P) as [i|]; cbn [intentMatches].
  - change (p_intent (draftOf d)) with (Some (intent d)).
    destruct (intent d) as [j|] eqn:Ej; [|reflexivity].
    destruct (UserIntent_eqb j i); [|reflexivity].
    rewrite spread_own_draft. reflexivity.
  - rewrite spread_own_draft. reflexivity.
Qed.

(** The two persistence effects of the opening render, by whether the
    save effect writes: if it does, the store holds the flow's own
    draft and the state stays; if it does not, the restore effect runs
    on the store as it was. *)
Lemma openEffects_cases (P : Props) (now : Z) (writable : bool) (s : State)
    (store : Storage) :
  openEffects P now writable s store
  = if (isOpen P && negb (isAuthStep (step s)) && writable)%bool
    then (Some (Parsed (toSave (step s) (data s) now)), s)
    else (fst (restoreEffect P now store (data s)),
          setData (snd (restoreEffect P now store (data s))) s).
Proof.
  unfold openEffects, saveEffect.
  destruct (isOpen P && negb (isAuthStep (step s)))%bool; cbn [andb fst];
    [|reflexivity].
  destruct writable; cbn [andb fst]; [|reflexivity].
  rewrite restoreEffect_own_draft. cbn [fst snd].
  rewrite setData_same. reflexivity.
Qed.

(** C6 (as stated).  A blob whose timestamp is a string and not a
    number is malformed, yet the age test coerces the string: when it
    reads as a recent time the draft is merged into the flow data.
    With a store that cannot be written, where the restore effect sees
    what was stored, the flow opens with the draft's display name. *)
Lemma text_timestamp_draft_is_restored :
  isMalformed draftJaneTextStamp = true
  /\ restoreEffect propsNoPreset 2000 (Some draftJaneTextStamp) INITIAL_DATA
     = (Some draftJaneTextStamp, spread INITIAL_DATA (draftOf flowJane))
  /\ displayName
       (data (snd (openEffects propsNoPreset 2000 false
                     (initialState propsNoPreset) (Some draftJaneTextStamp))))
     = "Jane Doe"
  /\ snd (openEffects propsNoPreset 2000 false (initialState propsNoPreset) None)
     = initialState propsNoPreset
  /\ ~ malformedDraftAsStated propsNoPreset 2000 false draftJaneTextStamp
         (initialState propsNoPreset).
Proof.
  repeat split.
  intro H. specialize (H eq_refl). discriminate H.
Qed.

(** C6 (amended).  A stored draft never reaches the flow data when its
    timestamp, read the way the age test coerces it, lies thirty minutes
    or more back, or when the blob cannot be used (it does not parse,
    its timestamp reads as no number, or it has no data object): the
    data after the restore effect are the data before it, which is what
    an empty store gives, and the flow opens in the same state as
    without draft, whether the save effect of the opening render can
    write or not.  When the restore takes place (flow open, no claim
    target) an expired draft is removed from the store, and after the
    opening render it is no longer in the store in any case.  Running
    the effect again on its own result changes nothing. *)
Theorem expired_or_unusable_draft_is_discarded
    (P : Props) (now : Z) (writable : bool) (item : Item) (s : State)
    (prev : FlowData) :
  isExpired now item = true \/ isUnusable item = true ->
  let r := restoreEffect P now (Some item) prev in
  let o := openEffects P now writable s (Some item) in
  snd r = prev
  /\ snd r = snd (restoreEffect P now None prev)
  /\ openState P now (Some item) = openState P now None
  /\ snd o = s
  /\ snd o = snd (openEffects P now writable s None)
  /\ (isOpen P = true -> claimProfile P = None ->
      isExpired now item = true -> fst r = None /\ fst o <> Some item)
  /\ restoreEffect P now (fst r) (snd r) = r.
Proof.
  intros H r o.
  destruct (restoreEffect_discard P now item prev H) as [E [Hx Hi]].
  fold r in E, Hx, Hi.
  assert (snd r = prev) as Es by (rewrite E; reflexivity).
  destruct (restoreEffect_discard P now item (data s) H) as [Eo [Hxo _]].
  assert (snd o = s) as Eos.
  { subst o. rewrite openEffects_cases.
    destruct (isOpen P && negb (isAuthStep (step s)) && writable)%bool;
      [reflexivity|].
    cbn [snd]. rewrite Eo. cbn [snd]. apply setData_same. }
  split; [exact Es|]. split; [|split; [|split; [|split; [|split]]]].
  - rewrite restoreEffect_none. exact Es.
  - unfold openState. rewrite restoreEffect_none.
    destruct (restoreEffect_discard P now item (initialData P) H) as [E0 _].
    rewrite E0. reflexivity.
  - exact Eos.
  - rewrite Eos. rewrite openEffects_cases.
    destruct (isOpen P && negb (isAuthStep (step s)) && writable)%bool;
      [reflexivity|].
    cbn [snd]. rewrite restoreEffect_none. cbn [snd].
    symmetry. apply setData_same.
  - intros Ho Hc Hexp. split; [exact (Hx Ho Hc Hexp)|].
    subst o. rewrite openEffects_cases.
    destruct (isOpen P && negb (isAuthStep (step s)) && writable)%bool;
      cbn [fst].
    + intro Heq. injection Heq as Heq. rewrite <- Heq in Hexp.
      rewrite (proj2 (own_draft_is_fresh (step s) (data s) now)) in Hexp.
      discriminate Hexp.
    + rewrite (Hxo Ho Hc Hexp). discriminate.
  - rewrite Es. exact Hi.
Qed.

Lemma expired_or_unusable_draft_is_discarded_witness :
  restoreEffect propsNoPreset 1801000 (Some draftJane) INITIAL_DATA
  = (None, INITIAL_DATA)
  /\ openState propsNoPreset 1801000 (Some draftJane)
     = openState propsNoPreset 1801000 None.
Proof.
  destruct (expired_or_unusable_draft_is_discarded propsNoPreset 1801000 false
              draftJane (initialState propsNoPreset) INITIAL_DATA
              (or_introl eq_refl))
    as [H1 [_ [H3 [_ [_ [H4 _]]]]]].
  split; [|exact H3].
  rewrite (surjective_pairing (restoreEffect _ _ _ _)).
  rewrite H1, (proj1 (H4 eq_refl eq_refl eq_refl)). reflexivity.
Defined.

(** A draft of less than thirty minutes is merged into the flow data. *)
Example fresh_draft_is_restored :
  snd (restoreEffect propsNoPreset 1800999 (Some draftJane) INITIAL_DATA)
  = spread INITIAL_DATA (draftOf flowJane)
  /\ displayName (spread INITIAL_DATA (draftOf flowJane)) = "Jane Doe"
  /\ email (spread INITIAL_DATA (draftOf flowJane)) = "".
Proof. repeat split. Qed.

(** A timestamp that reads as no number, and one that is infinitely far
    in the future: the first draft is removed, the second never
    expires. *)
Example timestamp_nan_and_infinity :
  let stamped t :=
    Parsed {| saved_step := None; saved_data := Some (draftOf flowJane);
              saved_timestamp := t |} in
  restoreEffect propsNoPreset 2000 (Some (stamped JAbsent)) INITIAL_DATA
  = (None, INITIAL_DATA)
  /\ restoreEffect propsNoPreset 2000 (Some (stamped (JText NaN))) INITIAL_DATA
     = (None, INITIAL_DATA)
  /\ snd (restoreEffect propsNoPreset 2000
            (Some (stamped (JNumber (Infinity false)))) INITIAL_DATA)
     = spread INITIAL_DATA (draftOf flowJane).
Proof. repeat split. Qed.

(** C7 (as stated).  When the store cannot be written, a fresh family
    draft met by a flow preset to provider is not merged, but it is
    still in the store after the opening render: it is not deleted.
    (When the store can be written the save effect of the opening
    render has replaced it by the flow's own draft.) *)
Lemma conflicting_draft_stays_in_store :
  openEffects propsProvider 2000 false (initialState propsProvider)
    (Some draftJane)
  = (Some draftJane, initialState propsProvider)
  /\ ~ conflictingDraftAsStated propsProvider 2000 false draftJane
         (initialState propsProvider)
  /\ conflictingDraftAsStated propsProvider 2000 true draftJane
       (initialState propsProvider).
Proof.
  split; [reflexivity|]. split.
  - intros [_ H]. apply H. reflexivity.
  - split; [reflexivity | discriminate].
Qed.

(** C7 (amended).  When the flow is opened with an intent preset and the
    stored draft carries another intent, none of the draft's fields are
    merged into the flow data: the state after the two persistence
    effects of the opening render is the state before them.  If the
    save effect of that render writes (the step is not an identity step
    and the store can be written), the stored draft is replaced by the
    flow's own draft before the restore effect reads the store;
    otherwise the restore effect leaves the conflicting draft in the
    store while it is fresh and removes it when it is thirty minutes
    old or older. *)
Theorem conflicting_draft_is_not_merged
    (P : Props) (now : Z) (writable : bool) (v : SavedProgress) (dd : Partial)
    (s : State) (i : UserIntent) :
  isOpen P = true ->
  claimProfile P = None ->
  initialIntent P = Some i ->
  saved_data v = Some dd ->
  p_intent dd <> Some (Some i) ->
  openEffects P now writable s (Some (Parsed v))
  = ((if (negb (isAuthStep (step s)) && writable)%bool
      then Some (Parsed (toSave (step s) (data s) now))
      else if isFresh now (saved_timestamp v) then Some (Parsed v) else None),
     s).
Proof.
  intros Ho Hc Hi Hd Hne. rewrite openEffects_cases. rewrite Ho. cbn [andb].
  destruct (negb (isAuthStep (step s)) && writable)%bool; [reflexivity|].
  unfold restoreEffect, intentMatches.
  rewrite Ho, Hc, Hi, Hd.
  destruct (isFresh now (saved_timestamp v)); cbn [fst snd];
    [|rewrite setData_same; reflexivity].
  destruct (p_intent dd) as [[j|]|]; cbn [fst snd];
    try (rewrite setData_same; reflexivity).
  destruct j, i; cbn [UserIntent_eqb fst snd];
    try (rewrite setData_same; reflexivity);
    contradiction Hne; reflexivity.
Qed.

Lemma conflicting_draft_is_not_merged_witness :
  openEffects propsProvider 2000 false (initialState propsProvider)
    (Some draftJane)
  = (Some draftJane, initialState propsProvider)
  /\ openEffects propsProvider 2000 true (initialState propsProvider)
       (Some draftJane)
     = (Some (Parsed (toSave step_provider_type (initialData propsProvider) 2000)),
        initialState propsProvider).
Proof.
  split.
  - exact (conflicting_draft_is_not_merged propsProvider 2000 false
             (toSave step_family_needs flowJane 1000) (draftOf flowJane)
             (initialState propsProvider) provider
             eq_refl eq_refl eq_refl eq_refl ltac:(discriminate)).
  - exact (conflicting_draft_is_not_merged propsProvider 2000 true
             (toSave step_family_needs flowJane 1000) (draftOf flowJane)
             (initialState propsProvider) provider
             eq_refl eq_refl eq_refl eq_refl ltac:(discriminate)).
Defined.

(** C8.  The draft is a function of the sixteen non-sensitive fields:
    flow data that differ only in password, email and the claim fields
    give the same stored draft, whose data object has none of these four
    keys.  On the identity step and on the verification step the save
    effect does not call [setItem] and leaves the store as it is. *)
Theorem draft_excludes_secrets_and_auth_steps :
  (forall (P : Props) (now : Z) (writable : bool) (s1 s2 : State) (store : Storage),
     step s1 = step s2 ->
     sameExceptSecrets (data s1) (data s2) ->
     saveEffect P now writable s1 store = saveEffect P now writable s2 store)
  /\ (forall d : FlowData,
        p_email (draftOf d) = None
        /\ p_password (draftOf d) = None
        /\ p_claimedProfileId (draftOf d) = None
        /\ p_claimedProfile (draftOf d) = None)
  /\ (forall (P : Props) (now : Z) (writable : bool) (s : State) (store : Storage),
        step s = step_auth \/ step s = step_verify_code ->
        saveEffect P now writable s store = (store, false)).
Proof.
  split; [|split].
  - intros P now writable s1 s2 store Hs Hd.
    unfold saveEffect, toSave, draftOf, sameExceptSecrets in *.
    rewrite Hs.
    repeat match goal with
           | H : _ /\ _ |- _ => destruct H as [? H]
           end.
    repeat match goal with
           | H : _ (data s1) = _ (data s2) |- _ => rewrite H; clear H
           end.
    reflexivity.
  - intro d. repeat split.
  - intros P now writable s store [H|H]; unfold saveEffect; rewrite H;
      destruct (isOpen P); reflexivity.
Qed.

Lemma draft_excludes_secrets_and_auth_steps_witness :
  saveEffect propsProvider 5000 true
    (setData flowDallas (setStep step_org_search (initialState propsProvider)))
    None
  = saveEffect propsProvider 5000 true
      (setData flowDallasOther
         (setStep step_org_search (initialState propsProvider)))
      None
  /\ saveEffect propsNoPreset 5000 true stateAtAuth (Some draftJane)
     = (Some draftJane, false).
Proof.
  destruct draft_excludes_secrets_and_auth_steps as [H1 [_ H3]].
  split.
  - apply H1; [reflexivity | repeat split].
  - apply H3. left. reflexivity.
Defined.

(** On a data step the draft is written, with the time of the write. *)
Example draft_written_on_data_step :
  saveEffect propsNoPreset 5000 true
    (setStep step_family_needs stateAtAuth) None
  = (Some (Parsed (toSave step_family_needs flowJane 5000)), true).
Proof. reflexivity. Qed.

(** ** Resend cooldown *)

Lemma cooldownTicks_value (k : nat) (s : State) :
  resendCooldown (cooldownTicks k s) = resendCooldown s - k.
Proof.
  revert s. induction k as [|k IH]; intro s; cbn [cooldownTicks].
  - lia.
  - rewrite IH. unfold cooldownTick.
    destruct (Nat.ltb 0 (resendCooldown s)) eqn:E.
    + cbn. lia.
    + apply Nat.ltb_ge in E. lia.
Qed.

Lemma handleResendCode_blocked (env : Env) (s : State) :
  0 < resendCooldown s -> handleResendCode env s = (s, []).
Proof.
  intro H. unfold handleResendCode.
  apply Nat.ltb_lt in H. rewrite H. reflexivity.
Qed.

(** C9.  A sign-up that requires verification and the email-me-a-code
    sign-in both set the resend cooldown to 30 when they move to the
    verification step; a resend that succeeded sets it to 60.  The
    timer takes one off per second while it is positive.  While the
    cooldown is positive a resend request returns at once: no gateway
    call, no state change.  So after a first send the resend is blocked
    for the next 30 ticks of the timer, after a resend for the next 60. *)
Theorem resend_cooldown_30_then_60 :
  (forall (env : Env) (s : State) (identities : option nat) (otp : option string),
     8 <= String.length (password (data s)) ->
     configured env = true ->
     signUp env = Resolved (SignUpData false identities) ->
     identities <> Some 0 ->
     signInWithOtp env = Resolved otp ->
     let s' := fst (handleSignUp env s) in
     step s' = step_verify_code /\ resendCooldown s' = 30)
  /\ (forall (env : Env) (s : State),
        Js.trim (email (data s)) <> "" ->
        configured env = true ->
        signInWithOtp env = Resolved None ->
        let s' := fst (handleSendOtpForSignIn env s) in
        step s' = step_verify_code /\ resendCooldown s' = 30)
  /\ (forall (env : Env) (s : State),
        resendCooldown s = 0 ->
        configured env = true ->
        signInWithOtp env = Resolved None ->
        resendCooldown (fst (handleResendCode env s)) = 60
        /\ snd (handleResendCode env s) = [GwSignInWithOtp (email (data s))])
  /\ (forall (env : Env) (s : State),
        0 < resendCooldown s ->
        handleResendCode env s = (s, []))
  /\ (forall (env : Env) (s : State) (k : nat),
        k < resendCooldown s ->
        handleResendCode env (cooldownTicks k s) = (cooldownTicks k s, []))
  /\ (forall (s : State) (k : nat),
        resendCooldown (cooldownTicks k s) = resendCooldown s - k).
Proof.
  repeat match goal with |- _ /\ _ => split end.
  - intros env s ids otp Hp Hc Hs Hi Ho. unfold handleSignUp.
    apply Nat.ltb_ge in Hp. rewrite Hp, Hc, Hs. cbn [negb].
    destruct ids as [[|n]|]; [contradiction Hi; reflexivity | |];
      rewrite Ho; split; reflexivity.
  - intros env s He Hc Ho. unfold handleSendOtpForSignIn.
    apply truthy_iff in He. rewrite He, Hc, Ho. split; reflexivity.
  - intros env s H0 Hc Ho. unfold handleResendCode.
    rewrite H0, Hc, Ho. split; reflexivity.
  - intros env s H. apply handleResendCode_blocked, H.
  - intros env s k H. apply handleResendCode_blocked.
    rewrite cooldownTicks_value. lia.
  - intros s k. apply cooldownTicks_value.
Qed.

Lemma resend_cooldown_30_then_60_witness :
  resendCooldown (fst (handleSignUp envAllGood stateAtAuth)) = 30
  /\ handleResendCode envAllGood stateAtVerify = (stateAtVerify, [])
  /\ resendCooldown
       (fst (handleResendCode envAllGood (cooldownTicks 12 stateAtVerify))) = 60.
Proof.
  destruct resend_cooldown_30_then_60 as [H1 [_ [H3 [H4 _]]]].
  split; [|split].
  - apply (H1 envAllGood stateAtAuth (Some 1) None);
      try reflexivity; [cbn; lia | discriminate].
  - apply H4. cbn. lia.
  - apply H3; reflexivity.
Defined.

(** A whole cycle: first send, 30 ticks, resend, 60 ticks, resend. *)
Example cooldown_cycle :
  let s1 := fst (handleSignUp envAllGood stateAtAuth) in
  let s2 := cooldownTicks 29 s1 in
  let s3 := cooldownTick s2 in
  let s4 := fst (handleResendCode envAllGood s3) in
  snd (handleSignUp envAllGood stateAtAuth)
  = [GwSignUp "jane@example.com" "correct horse" (Some "Jane Doe");
     GwSignInWithOtp "jane@example.com"]
  /\ snd (handleResendCode envAllGood s2) = []
  /\ resendCooldown s3 = 0
  /\ snd (handleResendCode envAllGood s3) = [GwSignInWithOtp "jane@example.com"]
  /\ resendCooldown s4 = 60
  /\ snd (handleResendCode envAllGood (cooldownTicks 59 s4)) = []
  /\ resendCooldown (cooldownTicks 60 s4) = 0.
Proof. repeat split. Qed.

(** ** The two persistence effects at open *)

(** X27.  When the flow opens without claim target and the store can
    be written, the save effect has replaced whatever the store held by
    the draft of the initial data before the restore effect reads it:
    the restore effect reads that draft back and the flow data stay the
    initial ones. *)
Lemma open_reads_back_its_own_draft (P : Props) (now : Z) (store : Storage) :
  isOpen P = true ->
  claimProfile P = None ->
  openEffects P now true (initialState P) store
  = (Some (Parsed (toSave (getInitialStep P) (initialData P) now)),
     initialState P).
Proof.
  intros Ho Hc. rewrite openEffects_cases.
  cbn [step data initialState]. rewrite Ho.
  assert (isAuthStep (getInitialStep P) = false) as Ha.
  { unfold getInitialStep. rewrite Hc.
    destruct (initialIntent P) as [[|]|], (initialProviderType P); reflexivity. }
  rewrite Ha. reflexivity.
Qed.

(* ================================================================== *)
(** * Further properties of the flow *)
(* ================================================================== *)

(** ** Back navigation *)

(** X1.  The step a flow starts at can never be left backwards:
    whatever the presets, [canGoBack] is false in the initial state. *)
Theorem entry_step_cannot_go_back (P : Props) :
  canGoBack P (initialState P) = false.
Proof.
  unfold canGoBack, initialState, getInitialStep. cbn [step].
  destruct (claimProfile P), (initialIntent P) as [[|]|],
    (initialProviderType P); reflexivity.
Qed.

(** X2.  Where [canGoBack] is false, [goBack] only clears the error
    message: step, data and every other cell stay. *)
Theorem goBack_blocked_keeps_state (P : Props) (s : State) :
  canGoBack P s = false -> goBack P s = setError "" s.
Proof.
  unfold canGoBack, goBack. cbn [step setError].
  destruct (step s); intro H;
    destruct (initialIntent P) as [[|]|], (initialProviderType P),
      (claimProfile P); try discriminate H; reflexivity.
Qed.

Lemma goBack_blocked_keeps_state_witness :
  goBack propsClaim (initialState propsClaim)
  = setError "" (initialState propsClaim).
Proof.
  exact (goBack_blocked_keeps_state propsClaim (initialState propsClaim) eq_refl).
Defined.

(** ** Bounds of the step counter *)

(** X3.  The ordinal shown is never 0, also on the intent step whose
    table entry is 0, and never more than 4; the total is 2, 3 or 4. *)
Theorem step_counter_bounds (stp : AuthFlowStep) (d : FlowData) (auth : bool) :
  1 <= stepNumber (getStepConfig stp d auth) <= 4
  /\ 2 <= totalSteps (getStepConfig stp d auth) <= 4.
Proof.
  unfold getStepConfig, isProviderData, isOrgData.
  destruct (intent d) as [[|]|], (providerType d) as [[|]|], auth, stp;
    cbn; lia.
Qed.

(** ** The branch invariant *)

Lemma restoreEffect_claim (P : Props) now store prev cp :
  claimProfile P = Some cp -> restoreEffect P now store prev = (store, prev).
Proof.
  intro Hc. unfold restoreEffect. rewrite Hc. destruct (isOpen P); reflexivity.
Qed.

Lemma restoreEffect_intent (P : Props) now store (i : UserIntent) :
  initialIntent P = Some i ->
  claimProfile P = None ->
  intent (snd (restoreEffect P now store (initialData P))) = Some i.
Proof.
  intros Hi Hc.
  assert (intent (initialData P) = Some i) as H0
    by (unfold initialData; rewrite Hc; exact Hi).
  unfold restoreEffect, intentMatches. rewrite Hi, Hc.
  destruct (isOpen P); [|exact H0].
  destruct store as [[txt|v]|]; try exact H0.
  destruct (isFresh now (saved_timestamp v)); [|exact H0].
  destruct (saved_data v) as [dd|]; [|exact H0].
  destruct (p_intent dd) as [[j|]|] eqn:Ej; try exact H0.
  destruct (UserIntent_eqb j i) eqn:Eji; [|exact H0].
  cbn [snd]. unfold spread. cbn [intent]. rewrite Ej. cbn [over].
  destruct j, i; try discriminate Eji; reflexivity.
Qed.

Lemma openState_branchInvariant (P : Props) now store :
  branchInvariant P (openState P now store).
Proof.
  unfold branchInvariant, openState. cbn [step data setData initialState].
  destruct (claimProfile P) as [cp|] eqn:Hc.
  - rewrite (restoreEffect_claim P now store _ cp Hc). cbn [snd].
    unfold getInitialStep, initialData. rewrite Hc. cbn.
    repeat split; intros; try discriminate; congruence.
  - destruct (initialIntent P) as [i|] eqn:Hi.
    + pose proof (restoreEffect_intent P now store i Hi Hc) as Hint.
      unfold getInitialStep. rewrite Hc, Hi.
      destruct i, (initialProviderType P); cbn;
        repeat split; intros; try discriminate; try exact Hint.
    + unfold getInitialStep. rewrite Hc, Hi. cbn.
      repeat split; intros; try discriminate.
Qed.

(** A handler that keeps the step and the flow data keeps the invariant. *)
Lemma branchInvariant_frame (P : Props) (s s' : State) :
  branchInvariant P s -> step s' = step s -> data s' = data s ->
  branchInvariant P s'.
Proof.
  unfold branchInvariant. intros H Es Ed. rewrite Es, Ed. exact H.
Qed.

(** Off the identity steps the flow has no claim target preset. *)
Lemma branchInvariant_no_claim (P : Props) (s : State) :
  branchInvariant P s -> isAuthStep (step s) = false -> claimProfile P = None.
Proof.
  intros [_ [_ [_ [_ [_ Hc]]]]] Hs.
  destruct (claimProfile P) as [cp|]; [|reflexivity].
  destruct (Hc cp eq_refl) as [Ha _]. congruence.
Qed.

Ltac close_branch :=
  unfold branchInvariant; cbn;
  repeat split; intros; try discriminate; try congruence; auto.

Lemma dispatch_branchInvariant env (P : Props) (user : option User) ev s :
  progressInvariant s ->
  branchInvariant P s ->
  offered ev s = true ->
  branchInvariant P (fst (dispatch env P user ev s)).
Proof.
  intros Horg Hinv Hoff. unfold progressInvariant in Horg.
  pose proof (branchInvariant_no_claim P s Hinv) as Hnc.
  pose proof Hinv as [Hp [Hf [Ha [Hv [Hi Hc]]]]].
  destruct ev; cbn [dispatch fst]; cbn [offered] in Hoff;
    try (apply AuthFlowStep_eqb_eq in Hoff).
  - (* intent select *)
    rewrite Hoff in *. specialize (Hnc eq_refl).
    destruct i; close_branch.
  - (* provider type select *)
    rewrite Hoff in *. specialize (Hnc eq_refl). specialize (Hp eq_refl).
    close_branch.
  - (* provider info next *)
    apply andb_true_iff in Hoff. destruct Hoff as [Hoff _].
    apply AuthFlowStep_eqb_eq in Hoff.
    unfold handleProviderInfoNext.
    destruct (isOrgData (data s)).
    + rewrite Hoff in *. specialize (Hnc eq_refl). specialize (Hp eq_refl).
      close_branch.
    + destruct (is_some user).
      * apply (branchInvariant_frame P s); auto using handleComplete_step,
          handleComplete_data.
      * rewrite Hoff in *. specialize (Hnc eq_refl). specialize (Hp eq_refl).
        close_branch.
  - (* org search next *)
    unfold handleOrgSearchNext.
    set (s1 := match selectedOrgId s with Some _ => _ | None => s end).
    rewrite Hoff in *. specialize (Hnc eq_refl). specialize (Hp eq_refl).
    assert (step s1 = step_org_search /\ intent (data s1) = Some provider)
      as [Es Ed].
    { subst s1. destruct (selectedOrgId s) as [sel|]; [|split; assumption].
      destruct (Js.truthy sel); [|split; assumption].
      destruct (findProfile sel (searchResults s)); split; assumption. }
    clearbody s1.
    destruct (is_some user).
    + unfold branchInvariant.
      rewrite handleComplete_step, handleComplete_data, Es, Ed, Hnc.
      cbn. repeat split; intros; try discriminate; congruence.
    + unfold branchInvariant. cbn [fst step data setStep]. rewrite Ed, Hnc.
      cbn. repeat split; intros; try discriminate; congruence.
  - (* family info next *)
    apply andb_true_iff in Hoff. destruct Hoff as [Hoff _].
    apply AuthFlowStep_eqb_eq in Hoff.
    rewrite Hoff in *. specialize (Hnc eq_refl). specialize (Hf eq_refl).
    close_branch.
  - (* family needs next *)
    unfold handleFamilyNeedsNext. destruct (is_some user).
    + apply (branchInvariant_frame P s); auto using handleComplete_step,
        handleComplete_data.
    + rewrite Hoff in *. specialize (Hnc eq_refl). specialize (Hf eq_refl).
      close_branch.
  - (* back *)
    assert (forall s', step s' = step s -> data s' = data s ->
                       branchInvariant P s') as Hframe
      by (intros; apply (branchInvariant_frame P s); assumption).
    unfold goBack. cbn [step data setError].
    destruct (step s) eqn:Es; cbn [isAuthStep] in Hnc;
      try specialize (Hnc eq_refl);
      try (contradiction Hv; reflexivity);
      try (apply Hframe; cbn; congruence).
    + (* provider type *)
      specialize (Hp eq_refl).
      destruct (initialIntent P) eqn:Ei;
        [apply Hframe; cbn; congruence|].
      unfold branchInvariant; cbn; rewrite ?Hnc;
        repeat split; intros; try discriminate; try congruence.
    + (* provider info *)
      specialize (Hp eq_refl).
      destruct (initialProviderType P);
        [apply Hframe; cbn; congruence|].
      unfold branchInvariant; cbn; rewrite ?Hnc;
        repeat split; intros; try discriminate; try congruence.
    + (* org search *)
      specialize (Hp eq_refl).
      unfold branchInvariant; cbn; rewrite ?Hnc;
        repeat split; intros; try discriminate; try congruence.
    + (* family info *)
      specialize (Hf eq_refl).
      destruct (initialIntent P) eqn:Ei;
        [apply Hframe; cbn; congruence|].
      unfold branchInvariant; cbn; rewrite ?Hnc;
        repeat split; intros; try discriminate; try congruence.
    + (* family needs *)
      specialize (Hf eq_refl).
      unfold branchInvariant; cbn; rewrite ?Hnc;
        repeat split; intros; try discriminate; try congruence.
    + (* auth *)
      specialize (Ha eq_refl).
      destruct (claimProfile P) as [cp|] eqn:Ecp;
        [apply Hframe; cbn; congruence|].
      unfold isProviderData.
      destruct (intent (data s)) as [[|]|] eqn:Eint;
        [ | destruct (isOrgData (data s)) | contradiction Ha; reflexivity ];
        unfold branchInvariant; cbn; rewrite ?Eint;
        repeat split; intros; try discriminate; try congruence.
    + (* verify code *)
      specialize (Ha eq_refl).
      unfold branchInvariant. cbn.
      repeat split; intros; try discriminate; try congruence.
      all: destruct (Hc cp ltac:(assumption)) as [_ [? [? [? ?]]]]; assumption.
  - (* field edit *)
    destruct (field_edit_keeps_branch p (data s) Hoff) as [E1 [E2 [E3 E4]]].
    unfold branchInvariant. cbn [updateData setData step data].
    rewrite E1, E2, E3, E4. exact Hinv.
  - apply (branchInvariant_frame P s); auto.
  - apply (branchInvariant_frame P s); auto.
  - apply (branchInvariant_frame P s); auto.
  - (* sign up *)
    destruct (handleSignUp_shape env s) as [Ed [Es|Es]].
    + apply (branchInvariant_frame P s); auto.
    + specialize (Ha ltac:(rewrite Hoff; reflexivity)).
      unfold branchInvariant. rewrite Ed, Es. cbn.
      repeat split; intros; try discriminate; try congruence.
      all: destruct (Hc cp ltac:(assumption)) as [_ [? [? [? ?]]]]; assumption.
  - destruct (handleSignIn_shape env s) as [Ed Es].
    apply (branchInvariant_frame P s); auto.
  - (* send code *)
    destruct (handleSendOtpForSignIn_shape env s) as [Ed [Es|Es]].
    + apply (branchInvariant_frame P s); auto.
    + specialize (Ha ltac:(rewrite Hoff; reflexivity)).
      unfold branchInvariant. rewrite Ed, Es. cbn.
      repeat split; intros; try discriminate; try congruence.
      all: destruct (Hc cp ltac:(assumption)) as [_ [? [? [? ?]]]]; assumption.
  - destruct (handleVerifyOtp_shape env s) as [Ed Es].
    apply (branchInvariant_frame P s); auto.
  - destruct (handleResendCode_shape env s) as [Ed Es].
    apply (branchInvariant_frame P s); auto.
  - apply (branchInvariant_frame P s); [exact Hinv | |];
      unfold cooldownTick; destruct (Nat.ltb 0 _); reflexivity.
  - destruct (claimAutoCompleteEffect_shape env P user s) as [Ed Es].
    apply (branchInvariant_frame P s); auto.
Qed.

(** X4.  In every state of an open flow the branch selectors agree with
    the step: provider steps have intent provider, family steps intent
    family, the identity steps some intent; the intent step only shows
    when no intent was preset; a claim flow never leaves the identity
    steps and keeps the intent, the provider type and the claim target
    it was opened with. *)
Theorem reachable_branch_invariant (P : Props) (user : option User) (s : State) :
  reachable P user s -> branchInvariant P s.
Proof.
  induction 1 as [user now store | user env ev s Hr IH Hoff | user user' s Hr IH].
  - apply openState_branchInvariant.
  - apply (dispatch_branchInvariant env P user ev s); try assumption.
    apply (reachable_invariant P user), Hr.
  - exact IH.
Qed.

Lemma reachable_branch_invariant_witness :
  branchInvariant propsClaim (initialState propsClaim).
Proof.
  apply (reachable_branch_invariant propsClaim None).
  exact (reach_open propsClaim None 0%Z None).
Defined.






(** X6.  In a flow opened to claim a listing, a commit whose identity
    and account steps succeed always updates that very listing, with the
    merge computed against it, and never inserts a profile. *)
Theorem claim_flow_commit_updates_target
    (P : Props) (user : option User) (s st : State) (env : Env) (cp : Profile.t) :
  reachable P user s ->
  claimProfile P = Some cp ->
  Profile.id cp <> "" ->
  accountResolved env = true ->
  let calls := snd (handleComplete env (data s) st) in
  (exists acc, In (DbUpdateProfile (Profile.id cp)
                     (claimUpdate (data s) cp (acct_id acc))) calls)
  /\ (forall row, ~ In (DbInsertProfile row) calls).
Proof.
  intros Hr Hc Hid Ha calls.
  destruct (reachable_branch_invariant P user s Hr) as [_ [_ [_ [_ [_ Hcl]]]]].
  destruct (Hcl cp Hc) as [_ [Hi [_ [Hcid Hcp]]]].
  apply truthy_iff in Hid.
  unfold accountResolved in Ha.
  apply andb_true_iff in Ha. destruct Ha as [Ha Hacc].
  apply andb_true_iff in Ha. destruct Ha as [Hcfg Hu].
  subst calls. unfold handleComplete. rewrite Hcfg. cbn [negb].
  destruct (getUser env) as [u|]; [|discriminate Hu].
  assert (forall acc calls0,
    (forall row, ~ In (DbInsertProfile row) calls0) ->
    In (DbUpdateProfile (Profile.id cp) (claimUpdate (data s) cp (acct_id acc)))
       (snd (commitProfile env (data s) acc calls0
               (setError "" (setLoading true st))))
    /\ (forall row, ~ In (DbInsertProfile row)
          (snd (commitProfile env (data s) acc calls0
                  (setError "" (setLoading true st)))))) as Hb.
  { intros acc calls0 H0.
    unfold commitProfile, createProviderProfile, finishCommit, caught, failWith.
    rewrite Hi, Hcid, Hcp, Hid.
    destruct (claimErr env), (accountErr env); cbn [fst snd];
      (split;
       [ repeat (apply in_or_app; first [right; left; reflexivity | left]);
         apply in_or_app; right; left; reflexivity
       | intros row Hin;
         repeat (apply in_app_or in Hin; destruct Hin as [Hin|Hin]);
         try (apply (H0 row Hin));
         cbn in Hin;
         repeat (destruct Hin as [Hin|Hin]; try discriminate Hin);
         try contradiction ]). }
  destruct (account env) as [acc|].
  - destruct (Hb acc [GwGetUser]) as [H1 H2].
    + intros row [H|[]]; discriminate H.
    + split; [exists acc; exact H1 | exact H2].
  - destruct (ensureAccount env) as [e|[acc|]]; try discriminate Hacc.
    destruct (Hb acc [GwGetUser; ApiEnsureAccount
        (Js.or_else (displayName (data s))
           (Js.or_else (orgName (data s))
              match user_email u with Some e => before_at e | None => "" end))])
      as [H1 H2].
    + intros row [H|[H|[]]]; discriminate H.
    + split; [exists acc; exact H1 | exact H2].
Qed.

Lemma claim_flow_commit_updates_target_witness :
  exists acc,
    In (DbUpdateProfile (Profile.id listingAustin)
          (claimUpdate (data (initialState propsClaim)) listingAustin
             (acct_id acc)))
       (snd (handleComplete envAllGood (data (initialState propsClaim))
               (initialState propsClaim))).
Proof.
  apply (claim_flow_commit_updates_target propsClaim None
           (initialState propsClaim) (initialState propsClaim) envAllGood
           listingAustin).
  - exact (reach_open propsClaim None 0%Z None).
  - reflexivity.
  - discriminate.
  - reflexivity.
Defined.

(** X7.  Back mirrors forward: when a forward event (a selection, a
    Continue button, a sign-up or code request that leads to the
    verification step) has moved an open flow to another step, [goBack]
    from there returns to the step the event started from.  For the
    provider-type selection this needs that no provider type was preset:
    with a preset the provider-info step cannot be left backwards. *)
Theorem back_undoes_forward
    (P : Props) (user : option User) (s : State) (env : Env) (ev : Event) :
  reachable P user s ->
  offered ev s = true ->
  isForward P ev = true ->
  step (fst (dispatch env P user ev s)) <> step s ->
  step (goBack P (fst (dispatch env P user ev s))) = step s.
Proof.
  intros Hr Hoff Hfw.
  pose proof (reachable_branch_invariant P user s Hr) as Hinv.
  pose proof (branchInvariant_no_claim P s Hinv) as Hnc.
  destruct Hinv as [Hp [Hf [Ha [Hv [Hi Hc]]]]].
  pose proof (reachable_invariant P user s Hr) as Horg.
  unfold progressInvariant in Horg.
  destruct ev; try discriminate Hfw; cbn [dispatch fst]; cbn [offered] in Hoff;
    try (apply AuthFlowStep_eqb_eq in Hoff).
  - (* intent select *)
    intros _. rewrite Hoff in *. specialize (Hi eq_refl).
    destruct i; unfold goBack; cbn; rewrite Hi; reflexivity.
  - (* provider type select *)
    intros _. rewrite Hoff. cbn [isForward] in Hfw.
    unfold goBack; cbn. destruct (initialProviderType P);
      [discriminate Hfw | reflexivity].
  - (* provider info next *)
    apply andb_true_iff in Hoff. destruct Hoff as [Hoff _].
    apply AuthFlowStep_eqb_eq in Hoff.
    rewrite Hoff in *. specialize (Hnc eq_refl). specialize (Hp eq_refl).
    unfold handleProviderInfoNext.
    destruct (isOrgData (data s)) eqn:Eo.
    + intros _. reflexivity.
    + destruct (is_some user).
      * rewrite handleComplete_step. intro H. exfalso. apply H. exact Hoff.
      * intros _. unfold goBack, isProviderData. cbn.
        rewrite Hnc, Hp, Eo. reflexivity.
  - (* org search next *)
    rewrite Hoff in *. specialize (Hnc eq_refl). specialize (Hp eq_refl).
    specialize (Horg eq_refl).
    unfold handleOrgSearchNext.
    set (s1 := match selectedOrgId s with Some _ => _ | None => s end).
    assert (step s1 = step_org_search /\ intent (data s1) = Some provider
            /\ isOrgData (data s1) = true) as [Es [Ed Eo]].
    { subst s1. destruct (selectedOrgId s) as [sel|]; [|repeat split; assumption].
      destruct (Js.truthy sel); [|repeat split; assumption].
      destruct (findProfile sel (searchResults s)); repeat split; assumption. }
    clearbody s1.
    destruct (is_some user).
    + rewrite handleComplete_step, Es. intro H. exfalso. apply H. reflexivity.
    + intros _. unfold goBack, isProviderData. cbn.
      rewrite Hnc, Ed, Eo. reflexivity.
  - (* family info next *)
    apply andb_true_iff in Hoff. destruct Hoff as [Hoff _].
    apply AuthFlowStep_eqb_eq in Hoff.
    intros _. rewrite Hoff. reflexivity.
  - (* family needs next *)
    rewrite Hoff in *. specialize (Hnc eq_refl). specialize (Hf eq_refl).
    unfold handleFamilyNeedsNext. destruct (is_some user).
    + rewrite handleComplete_step. intro H. exfalso. apply H. exact Hoff.
    + intros _. unfold goBack, isProviderData. cbn.
      rewrite Hnc, Hf. reflexivity.
  - (* sign up *)
    destruct (handleSignUp_shape env s) as [_ [Es|Es]]; rewrite Es.
    + intro H. exfalso. apply H. reflexivity.
    + intros _. unfold goBack. cbn [step setError]. rewrite Es.
      cbn. symmetry. exact Hoff.
  - (* send code *)
    destruct (handleSendOtpForSignIn_shape env s) as [_ [Es|Es]]; rewrite Es.
    + intro H. exfalso. apply H. reflexivity.
    + intros _. unfold goBack. cbn [step setError]. rewrite Es.
      cbn. symmetry. exact Hoff.
Qed.

Lemma back_undoes_forward_witness :
  step (goBack propsNoPreset
          (fst (dispatch envAllGood propsNoPreset None (EvIntentSelect family)
                  (initialState propsNoPreset))))
  = step_intent.
Proof.
  apply (back_undoes_forward propsNoPreset None (initialState propsNoPreset)
           envAllGood (EvIntentSelect family)).
  - exact (reach_open propsNoPreset None 0%Z None).
  - reflexivity.
  - reflexivity.
  - discriminate.
Defined.

(** With a provider type preset but no intent preset the way back from
    the provider-info step is closed although the flow came from the
    provider-type step. *)
Example preset_type_blocks_back :
  let P := {| isOpen := true; initialIntent := None;
              initialProviderType := Some organization;
              claimProfile := None; defaultToSignIn := false |} in
  let s1 := handleIntentSelect provider (initialState P) in
  let s2 := handleProviderTypeSelect caregiver s1 in
  step s1 = step_provider_type
  /\ step s2 = step_provider_info
  /\ canGoBack P s2 = false
  /\ step (goBack P s2) = step_provider_info.
Proof. repeat split. Qed.

(** ** Draft round trip *)



(** The same reopening with a store that can be written: the draft of
    the earlier flow is gone and the flow starts empty. *)
Example draft_lost_on_writable_open :
  openEffects propsNoPreset 1500000 true (initialState propsNoPreset)
    (fst (saveEffect propsNoPreset 1000 true stateAtFamilyNeeds None))
  = (Some (Parsed (toSave step_intent INITIAL_DATA 1500000)),
     initialState propsNoPreset).
Proof. reflexivity. Qed.

Lemma open_reads_back_its_own_draft_witness :
  openEffects propsProvider 2000 true (initialState propsProvider)
    (Some draftJane)
  = (Some (Parsed (toSave step_provider_type (initialData propsProvider) 2000)),
     initialState propsProvider).
Proof.
  exact (open_reads_back_its_own_draft propsProvider 2000 (Some draftJane)
           eq_refl eq_refl).
Defined.

(** ** The runs of the commit *)

Lemma failedState_failWith (msg : string) (calls : list Call) (st : State) :
  msg <> "" ->
  failedState st (failWith msg calls (setError "" (setLoading true st))).
Proof.
  intro H. exists msg. split; [exact H | reflexivity].
Qed.

Lemma went_wrong_nonempty (m : string) : MSG_WENT_WRONG m <> "".
Proof. discriminate. Qed.

Lemma finishCommit_trace env d acc pid pre write st :
  forallb isPreamble pre = true ->
  isProfileWrite write = true ->
  writtenId env write = Some pid ->
  commitTrace env d st
    (finishCommit env d acc pid (pre ++ [write])%list
       (setError "" (setLoading true st))).
Proof.
  intros Hpre Hw Hid. exists pre. split; [exact Hpre|]. right.
  exists write. split; [exact Hw|]. right.
  exists acc, pid,
    (Js.or_else (Js.or_empty (acct_display_name acc))
       (Js.or_else (displayName d) (orgName d))).
  split; [exact Hid|].
  unfold finishCommit, caught.
  destruct (accountErr env) as [m|].
  - left. split.
    + cbn [snd failWith]. rewrite <- app_assoc. reflexivity.
    + apply failedState_failWith, went_wrong_nonempty.
  - right. split; [|reflexivity].
    cbn [snd]. unfold membershipCalls, exitCalls.
    destruct (intent d) as [[|]|]; rewrite <- ?app_assoc; reflexivity.
Qed.

Lemma commitProfile_trace env d acc pre st :
  forallb isPreamble pre = true ->
  commitTrace env d st
    (commitProfile env d acc pre (setError "" (setLoading true st))).
Proof.
  intro Hpre. unfold commitProfile.
  assert (forall row,
    commitTrace env d st
      match insertProfile env row with
      | (cs, inl m) => caught m (pre ++ cs)%list (setError "" (setLoading true st))
      | (cs, inr pid) =>
          finishCommit env d acc pid (pre ++ cs)%list
            (setError "" (setLoading true st))
      end) as Hins.
  { intro row. unfold insertProfile.
    destruct (insertResult env) as [m|newId] eqn:Ei.
    - exists pre. split; [exact Hpre|]. right.
      exists (DbInsertProfile row). split; [reflexivity|]. left.
      split; [reflexivity|]. apply failedState_failWith, went_wrong_nonempty.
    - apply finishCommit_trace; [exact Hpre | reflexivity |].
      cbn. rewrite Ei. reflexivity. }
  destruct (intent d) as [[|]|].
  - apply Hins.
  - unfold createProviderProfile.
    destruct (claimedProfileId d) as [cid|]; [|apply Hins].
    destruct (claimedProfile d) as [tgt|]; [|apply Hins].
    destruct (Js.truthy cid); [|apply Hins].
    destruct (claimErr env) as [m|].
    + exists pre. split; [exact Hpre|]. right.
      exists (DbUpdateProfile cid (claimUpdate d tgt (acct_id acc))).
      split; [reflexivity|]. left.
      split; [reflexivity|]. apply failedState_failWith, went_wrong_nonempty.
    + apply finishCommit_trace; [exact Hpre | reflexivity | reflexivity].
  - exists pre. split; [exact Hpre|]. left.
    split; [reflexivity|]. apply failedState_failWith. discriminate.
Qed.

(** Every run of [handleComplete] is a commit trace. *)
Lemma handleComplete_trace (env : Env) (d : FlowData) (st : State) :
  commitTrace env d st (handleComplete env d st).
Proof.
  unfold handleComplete.
  destruct (configured env); cbn [negb].
  - destruct (getUser env) as [u|].
    + destruct (account env) as [acc|].
      * apply commitProfile_trace. reflexivity.
      * destruct (ensureAccount env) as [e|[acc|]].
        -- eexists. split; [|left; split; [reflexivity|]].
           ++ reflexivity.
           ++ apply failedState_failWith, went_wrong_nonempty.
        -- apply commitProfile_trace. reflexivity.
        -- eexists. split; [|left; split; [reflexivity|]].
           ++ reflexivity.
           ++ apply failedState_failWith. discriminate.
    + exists [GwGetUser]. split; [reflexivity|]. left.
      split; [reflexivity|]. apply failedState_failWith. discriminate.
  - exists []. split; [reflexivity|]. left.
    split; [reflexivity|]. apply failedState_failWith. discriminate.
Qed.

Lemma in_after_preamble (pre l : list Call) (c : Call) :
  forallb isPreamble pre = true ->
  isPreamble c = false ->
  In c (pre ++ l) -> In c l.
Proof.
  intros Hpre Hc Hin. apply in_app_or in Hin. destruct Hin as [Hin|Hin].
  - rewrite forallb_forall in Hpre. rewrite (Hpre c Hin) in Hc. discriminate Hc.
  - exact Hin.
Qed.

Lemma preamble_has_no (f : Call -> bool) (pre : list Call) :
  (forall c, isPreamble c = true -> f c = false) ->
  forallb isPreamble pre = true ->
  existsb f pre = false.
Proof.
  intros Hf Hpre. induction pre as [|c pre IH]; [reflexivity|].
  cbn in *. apply andb_true_iff in Hpre. destruct Hpre as [Hc Hpre].
  rewrite (Hf c Hc), (IH Hpre). reflexivity.
Qed.

Lemma preamble_nonexit (pre : list Call) :
  forallb isPreamble pre = true ->
  forallb (fun c => negb (isFlowExit c)) pre = true.
Proof.
  intro Hpre. induction pre as [|c pre IH]; [reflexivity|].
  cbn in *. apply andb_true_iff in Hpre. destruct Hpre as [Hc Hpre].
  rewrite (IH Hpre). destruct c; try discriminate Hc; reflexivity.
Qed.

Lemma profile_write_nonexit (c : Call) :
  isProfileWrite c = true -> negb (isFlowExit c) = true.
Proof. destruct c; intro H; try discriminate H; reflexivity. Qed.

(** X9.  A commit either fails cleanly or completes fully.  A failed
    commit leaves a non-empty error with loading off and no other cell
    changed, and has made none of the exit calls: the draft is not
    cleared, the flow is not closed, nothing navigates.  A completed
    commit has, in this order, written a profile and updated the
    account, and then cleared the draft, refreshed the account data,
    closed the flow and navigated (families to /browse, providers to
    /portal); only the error is cleared and loading stays on. *)
Theorem commit_fails_cleanly_or_completes (env : Env) (d : FlowData) (st : State) :
  let r := handleComplete env d st in
  (failedState st r
   /\ forallb (fun c => negb (isFlowExit c)) (snd r) = true)
  \/ (fst r = setError "" (setLoading true st)
      /\ exists before,
           snd r = (before ++ exitCalls d)%list
           /\ forallb (fun c => negb (isFlowExit c)) before = true
           /\ existsb isProfileWrite before = true
           /\ existsb isAccountUpdate before = true).
Proof.
  intro r. destruct (handleComplete_trace env d st) as [pre [Hpre H]].
  fold r in H.
  pose proof (preamble_nonexit pre Hpre) as Hne.
  destruct H as [[Hc Hf] | [write [Hw [[Hc Hf] | [acc [pid [name [Hid
                   [[Hc Hf] | [Hc Hs]]]]]]]]]].
  - left. split; [exact Hf|]. rewrite Hc. exact Hne.
  - left. split; [exact Hf|]. rewrite Hc, forallb_app, Hne. cbn.
    rewrite (profile_write_nonexit write Hw). reflexivity.
  - left. split; [exact Hf|]. rewrite Hc, forallb_app, Hne. cbn.
    rewrite (profile_write_nonexit write Hw). reflexivity.
  - right. split; [exact Hs|].
    exists (pre ++ [write; DbUpdateAccount (acct_id acc) pid name]
              ++ membershipCalls d acc)%list.
    split; [rewrite Hc, <- !app_assoc; reflexivity|].
    rewrite !forallb_app, !existsb_app, Hne. cbn.
    rewrite (profile_write_nonexit write Hw), Hw.
    unfold membershipCalls.
    destruct (intent d) as [[|]|]; cbn; rewrite ?orb_true_r; repeat split.
Qed.

(** X10.  The free membership belongs to provider commits that
    completed: a family commit never touches memberships, a commit that
    failed never did, and a provider commit that closed the flow has
    upserted the membership of its account. *)
Theorem membership_iff_provider_commit_completed
    (env : Env) (d : FlowData) (st : State) :
  let calls := snd (handleComplete env d st) in
  (forall a, In (DbUpsertMembership a) calls ->
             intent d = Some provider /\ In OnClose calls)
  /\ (intent d = Some provider -> In OnClose calls ->
      exists a, In (DbUpsertMembership a) calls).
Proof.
  intro calls. destruct (handleComplete_trace env d st) as [pre [Hpre H]].
  fold calls in H. cbn [snd] in H.
  destruct H as [[Hc Hf] | [write [Hw [[Hc Hf] | [acc [pid [name [Hid
                   [[Hc Hf] | [Hc Hs]]]]]]]]]];
    change (snd (handleComplete env d st)) with calls in Hc; rewrite Hc.
  - split.
    + intros a Hin. rewrite forallb_forall in Hpre.
      specialize (Hpre _ Hin). discriminate Hpre.
    + intros _ Hin. rewrite forallb_forall in Hpre.
      specialize (Hpre _ Hin). discriminate Hpre.
  - split.
    + intros a Hin. apply in_after_preamble in Hin; [|exact Hpre|reflexivity].
      destruct Hin as [Hin|[]]. subst write. discriminate Hw.
    + intros _ Hin. apply in_after_preamble in Hin; [|exact Hpre|reflexivity].
      destruct Hin as [Hin|[]]. subst write. discriminate Hw.
  - split.
    + intros a Hin. apply in_after_preamble in Hin; [|exact Hpre|reflexivity].
      destruct Hin as [Hin|[Hin|[]]]; [subst write; discriminate Hw | discriminate Hin].
    + intros _ Hin. apply in_after_preamble in Hin; [|exact Hpre|reflexivity].
      destruct Hin as [Hin|[Hin|[]]]; [subst write; discriminate Hw | discriminate Hin].
  - assert (In OnClose (pre ++ [write; DbUpdateAccount (acct_id acc) pid name]
                          ++ membershipCalls d acc ++ exitCalls d)) as Hclose.
    { apply in_or_app. right. apply in_or_app. right. apply in_or_app. right.
      cbn. tauto. }
    split.
    + intros a Hin. split; [|exact Hclose].
      apply in_after_preamble in Hin; [|exact Hpre|reflexivity].
      unfold membershipCalls in Hin.
      destruct (intent d) as [[|]|]; [ | reflexivity | ];
        cbn in Hin;
        repeat (destruct Hin as [Hin|Hin];
                try (subst write; discriminate Hw); try discriminate Hin);
        contradiction.
    + intros Hi _. exists (acct_id acc).
      apply in_or_app. right. apply in_or_app. right. apply in_or_app. left.
      unfold membershipCalls. rewrite Hi. left. reflexivity.
Qed.

Lemma membership_iff_provider_commit_completed_witness :
  exists a,
    In (DbUpsertMembership a)
       (snd (handleComplete envAllGood flowDallas (initialState propsProvider))).
Proof.
  apply (proj2 (membership_iff_provider_commit_completed envAllGood flowDallas
                  (initialState propsProvider))).
  - reflexivity.
  - cbn. tauto.
Defined.

(** X11.  A commit writes at most one profile, and it updates the
    account only after that write and only with the profile id the
    write yielded: the id of the listing it claimed or the id the
    insert returned. *)
Theorem account_points_to_written_profile
    (env : Env) (d : FlowData) (st : State) :
  let calls := snd (handleComplete env d st) in
  List.length (filter isProfileWrite calls) <= 1
  /\ (forall id pid name,
        In (DbUpdateAccount id pid name) calls ->
        exists before write after,
          calls = (before ++ write :: DbUpdateAccount id pid name :: after)%list
          /\ isProfileWrite write = true
          /\ writtenId env write = Some pid).
Proof.
  intro calls. destruct (handleComplete_trace env d st) as [pre [Hpre H]].
  fold calls in H. cbn [snd] in H.
  assert (filter isProfileWrite pre = []) as Hfp.
  { clear H. induction pre as [|c pre IH]; [reflexivity|].
    cbn in *. apply andb_true_iff in Hpre. destruct Hpre as [Hc Hpre].
    rewrite (IH Hpre). destruct c; try discriminate Hc; reflexivity. }
  destruct H as [[Hc Hf] | [write [Hw [[Hc Hf] | [acc [pid [name [Hid
                   [[Hc Hf] | [Hc Hs]]]]]]]]]];
    change (snd (handleComplete env d st)) with calls in Hc; rewrite Hc.
  - split; [rewrite Hfp; cbn; lia|].
    intros id0 pid0 name0 Hin. rewrite forallb_forall in Hpre.
    specialize (Hpre _ Hin). discriminate Hpre.
  - split; [rewrite filter_app, Hfp; cbn; rewrite Hw; cbn; lia|].
    intros id0 pid0 name0 Hin.
    apply in_after_preamble in Hin; [|exact Hpre|reflexivity].
    destruct Hin as [Hin|[]]. subst write. discriminate Hw.
  - split; [rewrite filter_app, Hfp; cbn; rewrite Hw; cbn; lia|].
    intros id0 pid0 name0 Hin.
    apply in_after_preamble in Hin; [|exact Hpre|reflexivity].
    destruct Hin as [Hin|[Hin|[]]]; [subst write; discriminate Hw|].
    injection Hin as <- <- <-.
    exists pre, write, []. repeat split; assumption.
  - split.
    + rewrite filter_app, Hfp. cbn. rewrite Hw.
      rewrite filter_app. unfold membershipCalls.
      destruct (intent d) as [[|]|]; cbn; lia.
    + intros id0 pid0 name0 Hin.
      apply in_after_preamble in Hin; [|exact Hpre|reflexivity].
      destruct Hin as [Hin|[Hin|Hin]]; [subst write; discriminate Hw | |].
      * injection Hin as <- <- <-.
        exists pre, write, (membershipCalls d acc ++ exitCalls d)%list.
        repeat split; assumption.
      * exfalso. unfold membershipCalls in Hin.
        destruct (intent d) as [[|]|]; cbn in Hin;
          repeat (destruct Hin as [Hin|Hin]; try discriminate Hin);
          contradiction.
Qed.

Lemma account_points_to_written_profile_witness :
  exists before write after,
    snd (handleComplete envAllGood flowDallas (initialState propsProvider))
    = (before ++ write :: DbUpdateAccount "acct-1" "listing-1"
                           "Sunrise Senior Living" :: after)%list
    /\ isProfileWrite write = true
    /\ writtenId envAllGood write = Some "listing-1".
Proof.
  apply (proj2 (account_points_to_written_profile envAllGood flowDallas
                  (initialState propsProvider))).
  cbn. tauto.
Defined.

(** ** Handlers and the outside *)

Lemma handleComplete_unconfigured env d s :
  configured env = false -> snd (handleComplete env d s) = [].
Proof. intro H. unfold handleComplete. rewrite H. reflexivity. Qed.

(** X12.  When the backend is not configured no handler, no tick of
    the timer and no evaluation of the auto-complete effect makes any
    outside call: nothing reaches the gateway, the account API, the
    database or the router, nothing closes the flow and nothing clears
    the draft.  The two persistence effects are no part of this: they
    do not consult the configuration, and an open flow off the identity
    steps still writes its draft. *)
Theorem unconfigured_backend_makes_no_call
    (env : Env) (P : Props) (user : option User) (ev : Event) (s : State) :
  configured env = false ->
  snd (dispatch env P user ev s) = []
  /\ (forall now store,
        isOpen P = true -> isAuthStep (step s) = false ->
        saveEffect P now true s store
        = (Some (Parsed (toSave (step s) (data s) now)), true)).
Proof.
  intro Hc. split;
    [|intros now store Ho Hs; unfold saveEffect; rewrite Ho, Hs; reflexivity].
  destruct ev; cbn [dispatch snd]; try reflexivity.
  - unfold handleProviderInfoNext.
    destruct (isOrgData (data s)); [reflexivity|].
    destruct (is_some user); [apply handleComplete_unconfigured, Hc | reflexivity].
  - unfold handleOrgSearchNext.
    destruct (is_some user); [apply handleComplete_unconfigured, Hc | reflexivity].
  - unfold handleFamilyNeedsNext.
    destruct (is_some user); [apply handleComplete_unconfigured, Hc | reflexivity].
  - unfold handleSignUp. rewrite Hc.
    destruct (Nat.ltb _ 8); reflexivity.
  - unfold handleSignIn. rewrite Hc. reflexivity.
  - unfold handleSendOtpForSignIn. rewrite Hc.
    destruct (negb (Js.truthy _)); reflexivity.
  - unfold handleVerifyOtp. rewrite Hc.
    destruct (negb (Nat.eqb _ 8)); reflexivity.
  - unfold handleResendCode. rewrite Hc.
    destruct (Nat.ltb 0 _); reflexivity.
  - unfold claimAutoCompleteEffect.
    destruct (snd (claimLatch P user (claimAutoCompleteRef s))); [|reflexivity].
    pose proof (handleComplete_unconfigured env (data s) (setLatch true s) Hc) as H.
    destruct (handleComplete env (data s) (setLatch true s)) as [s1 cs].
    exact H.
Qed.

Lemma unconfigured_backend_makes_no_call_witness :
  snd (dispatch envUnconfigured propsNoPreset None EvSignUp stateAtAuth) = [].
Proof.
  exact (proj1 (unconfigured_backend_makes_no_call envUnconfigured propsNoPreset
                  None EvSignUp stateAtAuth eq_refl)).
Defined.

Lemma handleComplete_settles env d st :
  loading (fst (handleComplete env d st)) = false
  \/ In OnClose (snd (handleComplete env d st)).
Proof.
  destruct (handleComplete_trace env d st) as [pre [Hpre H]].
  destruct H as [[Hc Hf] | [write [Hw [[Hc Hf] | [acc [pid [name [Hid
                   [[Hc Hf] | [Hc Hs]]]]]]]]]];
    try (left; destruct Hf as [e [_ Hf]]; rewrite Hf; reflexivity).
  right. rewrite Hc.
  apply in_or_app. right. apply in_or_app. right. apply in_or_app. right.
  cbn. tauto.
Qed.

Lemma snd_let_pair {A B C : Type} (p : A * B) (f : A -> B -> C * B) :
  snd (let '(a, b) := p in f a b) = snd (f (fst p) (snd p)).
Proof. destruct p; reflexivity. Qed.

(** X13.  No handler strands the user: from a state that is not
    loading, every event leaves the flow either not loading, so that the
    submit action is enabled again, or closed by a commit that
    completed. *)
Theorem handlers_settle
    (env : Env) (P : Props) (user : option User) (ev : Event) (s : State) :
  loading s = false ->
  loading (fst (dispatch env P user ev s)) = false
  \/ In OnClose (snd (dispatch env P user ev s)).
Proof.
  intro Hl.
  assert (forall d st (pre : list Call),
            loading (fst (let '(s', cs) := handleComplete env d st in
                          (s', (pre ++ cs)%list))) = false
            \/ In OnClose (snd (let '(s', cs) := handleComplete env d st in
                                (s', (pre ++ cs)%list)))) as Hk.
  { intros d st pre. destruct (handleComplete_settles env d st) as [H|H];
      destruct (handleComplete env d st) as [s' cs]; cbn [fst snd] in *.
    - left. exact H.
    - right. apply in_or_app. right. exact H. }
  destruct ev; cbn [dispatch]; try (left; exact Hl).
  - left. destruct i; exact Hl.
  - unfold handleProviderInfoNext.
    destruct (isOrgData (data s)); [left; exact Hl|].
    destruct (is_some user); [apply handleComplete_settles | left; exact Hl].
  - unfold handleOrgSearchNext.
    destruct (is_some user); [apply handleComplete_settles|].
    left. destruct (selectedOrgId s) as [sel|]; [|exact Hl].
    destruct (Js.truthy sel); [|exact Hl].
    destruct (findProfile sel (searchResults s)); exact Hl.
  - unfold handleFamilyNeedsNext.
    destruct (is_some user); [apply handleComplete_settles | left; exact Hl].
  - left. unfold goBack. cbn [step data setError].
    destruct (step s), (initialIntent P), (initialProviderType P),
      (claimProfile P), (isProviderData (data s)), (isOrgData (data s));
      exact Hl.
  - unfold handleSignUp, failWith.
    destruct (Nat.ltb _ 8); [left; exact Hl|].
    destruct (configured env); cbn [negb]; [|left; reflexivity].
    destruct (signUp env) as [[m|[|] ids]|].
    + left. destruct (Js.includes m _); reflexivity.
    + apply Hk.
    + left. destruct ids as [[|n]|]; try reflexivity;
        destruct (signInWithOtp env); reflexivity.
    + left. reflexivity.
  - unfold handleSignIn, failWith.
    destruct (configured env); cbn [negb]; [|left; reflexivity].
    destruct (signInWithPassword env) as [[m|]|];
      [left; reflexivity | apply Hk | left; reflexivity].
  - left. unfold handleSendOtpForSignIn, failWith.
    destruct (negb (Js.truthy _)); [exact Hl|].
    destruct (configured env); cbn [negb]; [|reflexivity].
    destruct (signInWithOtp env) as [[m|]|]; try reflexivity.
    destruct (Js.includes m "not found" || Js.includes m "not registered")%bool;
      reflexivity.
  - unfold handleVerifyOtp, failWith.
    destruct (negb (Nat.eqb _ 8)); [left; exact Hl|].
    destruct (configured env); cbn [negb]; [|left; reflexivity].
    destruct (verifyOtp env) as [[m|]|].
    + left. destruct (Js.includes m "expired"); [reflexivity|].
      destruct (Js.includes m "invalid"); reflexivity.
    + apply Hk.
    + left. reflexivity.
  - left. unfold handleResendCode, failWith.
    destruct (Nat.ltb 0 _); [exact Hl|].
    destruct (configured env); cbn [negb]; [|reflexivity].
    destruct (signInWithOtp env) as [[m|]|]; reflexivity.
  - left. unfold cooldownTick. destruct (Nat.ltb 0 _); exact Hl.
  - unfold claimAutoCompleteEffect.
    destruct (snd (claimLatch P user (claimAutoCompleteRef s))).
    + destruct (handleComplete_settles env (data s) (setLatch true s)) as [H|H];
        destruct (handleComplete env (data s) (setLatch true s)) as [s1 cs];
        cbn [fst snd] in *; [left | right; exact H].
      destruct (negb (isOpen P)); exact H.
    + left. cbn [fst]. destruct (negb (isOpen P)); exact Hl.
Qed.

Lemma handlers_settle_witness :
  loading (fst (dispatch envWrongCode propsNoPreset None EvVerifyOtp stateAtVerify))
  = false
  \/ In OnClose
       (snd (dispatch envWrongCode propsNoPreset None EvVerifyOtp stateAtVerify)).
Proof.
  exact (handlers_settle envWrongCode propsNoPreset None EvVerifyOtp
           stateAtVerify eq_refl).
Defined.

(** ** Claiming from the org-search step *)

(** X14.  For a signed-in user the Continue button of the org-search
    step commits with the flow data of the current render: the claim
    keys it has just queued are in the next state but not in the data
    the commit runs on.  So when the selected listing is found and the
    data carry no claim target yet, the commit inserts a new profile
    and does not update the selected listing. *)
Theorem signed_in_org_claim_inserts_new_profile
    (env : Env) (u : User) (s : State) (sel : string) (profile : Profile.t) :
  selectedOrgId s = Some sel ->
  sel <> "" ->
  findProfile sel (searchResults s) = Some profile ->
  claimedProfileId (data s) = None ->
  intent (data s) = Some provider ->
  accountResolved env = true ->
  let r := handleOrgSearchNext env (Some u) s in
  claimedProfileId (data (fst r)) = Some sel
  /\ claimedProfile (data (fst r)) = Some profile
  /\ (exists row, In (DbInsertProfile row) (snd r))
  /\ (forall id upd, ~ In (DbUpdateProfile id upd) (snd r)).
Proof.
  intros Hsel Hne Hfind Hcid Hi Ha r.
  apply truthy_iff in Hne.
  subst r. unfold handleOrgSearchNext. rewrite Hsel, Hne, Hfind. cbn [is_some].
  rewrite handleComplete_data. cbn [updateData setData data spread over
    p_claimedProfileId p_claimedProfile claimedProfileId claimedProfile].
  split; [reflexivity|]. split; [reflexivity|].
  unfold accountResolved in Ha.
  apply andb_true_iff in Ha. destruct Ha as [Ha Hacc].
  apply andb_true_iff in Ha. destruct Ha as [Hcfg Hu].
  unfold handleComplete. rewrite Hcfg. cbn [negb].
  destruct (getUser env) as [cu|]; [|discriminate Hu].
  assert (forall acc pre st,
    (forall rid upd, ~ In (DbUpdateProfile rid upd) pre) ->
    (exists row, In (DbInsertProfile row)
                   (snd (commitProfile env (data s) acc pre st)))
    /\ (forall rid upd, ~ In (DbUpdateProfile rid upd)
                         (snd (commitProfile env (data s) acc pre st)))) as Hb.
  { intros acc pre st Hpre.
    unfold commitProfile, createProviderProfile, insertProfile, finishCommit,
      caught, failWith.
    rewrite Hi, Hcid.
    destruct (insertResult env), (accountErr env); cbn [fst snd];
      (split;
       [ eexists; repeat (apply in_or_app; first [right; left; reflexivity | left]);
         apply in_or_app; right; left; reflexivity
       | intros rid upd Hin;
         repeat (apply in_app_or in Hin; destruct Hin as [Hin|Hin]);
         try (apply (Hpre rid upd Hin));
         cbn in Hin;
         repeat (destruct Hin as [Hin|Hin]; try discriminate Hin);
         try contradiction ]). }
  destruct (account env) as [acc|].
  - apply Hb. intros rid upd [H|[]]; discriminate H.
  - destruct (ensureAccount env) as [e|[acc|]]; try discriminate Hacc.
    apply Hb. intros rid upd [H|[H|[]]]; discriminate H.
Qed.

Lemma signed_in_org_claim_inserts_new_profile_witness :
  exists row,
    In (DbInsertProfile row)
       (snd (handleOrgSearchNext envAllGood
               (Some {| user_email := Some "owner@example.com" |})
               stateAtOrgSearch)).
Proof.
  apply (signed_in_org_claim_inserts_new_profile envAllGood
           {| user_email := Some "owner@example.com" |} stateAtOrgSearch
           "listing-1" listingAustin);
    try reflexivity.
  discriminate.
Defined.

(** X15.  For a user who is not signed in, the Continue button of the
    org-search step stores the selected listing as claim target and
    moves to the identity step without any outside call; the commit that
    a sign-in then starts updates that listing, with the merge computed
    against it, and inserts nothing. *)
Theorem org_claim_then_sign_in_updates_listing
    (env : Env) (s : State) (sel : string) (profile : Profile.t) :
  selectedOrgId s = Some sel ->
  sel <> "" ->
  findProfile sel (searchResults s) = Some profile ->
  intent (data s) = Some provider ->
  accountResolved env = true ->
  signInWithPassword env = Resolved None ->
  let s1 := fst (handleOrgSearchNext env None s) in
  let calls := snd (handleSignIn env s1) in
  step s1 = step_auth
  /\ snd (handleOrgSearchNext env None s) = []
  /\ claimedProfileId (data s1) = Some sel
  /\ claimedProfile (data s1) = Some profile
  /\ (exists acc, In (DbUpdateProfile sel
                        (claimUpdate (data s1) profile (acct_id acc))) calls)
  /\ (forall row, ~ In (DbInsertProfile row) calls).
Proof.
  intros Hsel Hne Hfind Hi Ha Hsign s1 calls.
  apply truthy_iff in Hne.
  assert (s1 = setStep step_auth
                 (setData
                    (spread (data s)
                       {| p_email := None; p_password := None; p_displayName := None;
                          p_intent := None; p_providerType := None;
                          p_orgName := None; p_city := None; p_state := None;
                          p_zip := None; p_careTypes := None; p_category := None;
                          p_description := None; p_phone := None;
                          p_visibleToFamilies := None; p_visibleToProviders := None;
                          p_claimedProfileId := Some (Some sel);
                          p_claimedProfile := Some (Some profile);
                          p_careRecipientName := None;
                          p_careRecipientRelation := None; p_careNeeds := None |})
                    s)) as E1.
  { subst s1. unfold handleOrgSearchNext. rewrite Hsel, Hne, Hfind. reflexivity. }
  assert (snd (handleOrgSearchNext env None s) = []) as E0
    by (unfold handleOrgSearchNext; reflexivity).
  assert (intent (data s1) = Some provider
          /\ claimedProfileId (data s1) = Some sel
          /\ claimedProfile (data s1) = Some profile) as [Hi1 [Hc1 Hp1]].
  { rewrite E1. cbn. repeat split. exact Hi. }
  split; [rewrite E1; reflexivity|]. split; [exact E0|].
  split; [exact Hc1|]. split; [exact Hp1|].
  clearbody s1. clear E1 E0.
  unfold accountResolved in Ha.
  apply andb_true_iff in Ha. destruct Ha as [Ha Hacc].
  apply andb_true_iff in Ha. destruct Ha as [Hcfg Hu].
  subst calls. unfold handleSignIn. rewrite Hcfg, Hsign. cbn [negb].
  rewrite snd_let_pair. cbn [snd].
  unfold handleComplete. rewrite Hcfg. cbn [negb].
  destruct (getUser env) as [cu|]; [|discriminate Hu].
  cbn [data setLoading setError].
  assert (forall acc pre st,
    (forall row, ~ In (DbInsertProfile row) pre) ->
    In (DbUpdateProfile sel (claimUpdate (data s1) profile (acct_id acc)))
       (GwSignInWithPassword (email (data s1)) (password (data s1))
        :: snd (commitProfile env (data s1) acc pre st))
    /\ (forall row, ~ In (DbInsertProfile row)
          (GwSignInWithPassword (email (data s1)) (password (data s1))
           :: snd (commitProfile env (data s1) acc pre st)))) as Hb.
  { intros acc pre st Hpre.
    unfold commitProfile, createProviderProfile, finishCommit, caught, failWith.
    rewrite Hi1, Hc1, Hp1, Hne.
    destruct (claimErr env), (accountErr env); cbn [fst snd];
      (split;
       [ right;
         repeat (apply in_or_app; first [right; left; reflexivity | left]);
         apply in_or_app; right; left; reflexivity
       | intros row [Hin|Hin]; [discriminate Hin|];
         repeat (apply in_app_or in Hin; destruct Hin as [Hin|Hin]);
         try (apply (Hpre row Hin));
         cbn in Hin;
         repeat (destruct Hin as [Hin|Hin]; try discriminate Hin);
         try contradiction ]). }
  destruct (account env) as [acc|].
  - destruct (Hb acc [GwGetUser] (setError "" (setLoading true
        (setLoading false (setLoading true (setError "" s1)))))) as [H1 H2].
    + intros row [H|[]]; discriminate H.
    + split; [exists acc; exact H1 | exact H2].
  - destruct (ensureAccount env) as [e|[acc|]]; try discriminate Hacc.
    match goal with
    | |- context [commitProfile env (data s1) acc ?pre ?st] =>
        destruct (Hb acc pre st) as [H1 H2]
    end.
    + intros row [H|[H|[]]]; discriminate H.
    + split; [exists acc; exact H1 | exact H2].
Qed.

Lemma org_claim_then_sign_in_updates_listing_witness :
  step (fst (handleOrgSearchNext envAllGood None stateAtOrgSearch)) = step_auth
  /\ snd (handleOrgSearchNext envAllGood None stateAtOrgSearch) = [].
Proof.
  split;
    apply (org_claim_then_sign_in_updates_listing envAllGood stateAtOrgSearch
             "listing-1" listingAustin);
    try reflexivity; discriminate.
Defined.

(** The whole run of that example. *)
Example org_claim_then_sign_in_calls :
  snd (handleSignIn envAllGood
         (fst (handleOrgSearchNext envAllGood None stateAtOrgSearch)))
  = [ GwSignInWithPassword "someone.else@example.com" "another secret";
      GwGetUser;
      DbUpdateProfile "listing-1"
        {| cu_account_id := "acct-1"; cu_claim_state := "pending";
           cu_display_name := None; cu_city := None; cu_state := None;
           cu_zip := Some "75201";
           cu_care_types := Some ["Memory Care"];
           cu_description := Some "A small memory care home.";
           cu_phone := None |};
      DbUpdateAccount "acct-1" "listing-1" "Sunrise Senior Living";
      DbUpsertMembership "acct-1";
      StorageRemove; RefreshAccountData; OnClose; RouterPush "/portal" ].
Proof. reflexivity. Qed.

(** ** The collected answers *)

Lemma sameExceptSecrets_refl (d : FlowData) : sameExceptSecrets d d.
Proof. repeat split. Qed.

(** X16.  The answers the flow collected are changed by the inputs and
    the two selectors only.  Every other event, whether it succeeds or
    fails (navigation, sign-up, sign-in, code request, verification,
    resend, commit, timer, auto-complete), leaves the flow data as they
    are, except that the org-search Continue button sets the two claim
    fields. *)
Theorem answers_change_only_by_inputs
    (env : Env) (P : Props) (user : option User) (ev : Event) (s : State) :
  setsAnswers ev = false ->
  let d' := data (fst (dispatch env P user ev s)) in
  sameExceptSecrets (data s) d'
  /\ email d' = email (data s)
  /\ password d' = password (data s)
  /\ (ev <> EvOrgSearchNext -> d' = data s).
Proof.
  intros Hev d'.
  assert (ev = EvOrgSearchNext \/ d' = data s) as [E|E].
  { subst d'. destruct ev; try discriminate Hev; cbn [dispatch fst];
      try (right; reflexivity).
    - right. unfold handleProviderInfoNext.
      destruct (isOrgData (data s)); [reflexivity|].
      destruct (is_some user); [apply handleComplete_data | reflexivity].
    - left. reflexivity.
    - right. unfold handleFamilyNeedsNext.
      destruct (is_some user); [apply handleComplete_data | reflexivity].
    - right. unfold goBack. cbn [step data setError].
      destruct (step s), (initialIntent P), (initialProviderType P),
        (claimProfile P), (isProviderData (data s)), (isOrgData (data s));
        reflexivity.
    - right. apply handleSignUp_shape.
    - right. apply handleSignIn_shape.
    - right. apply handleSendOtpForSignIn_shape.
    - right. apply handleVerifyOtp_shape.
    - right. apply handleResendCode_shape.
    - right. unfold cooldownTick. destruct (Nat.ltb 0 _); reflexivity.
    - right. apply claimAutoCompleteEffect_shape. }
  - subst d' ev. cbn [dispatch]. unfold handleOrgSearchNext.
    set (s1 := match selectedOrgId s with Some _ => _ | None => s end).
    assert (sameExceptSecrets (data s) (data s1)
            /\ email (data s1) = email (data s)
            /\ password (data s1) = password (data s)) as [H1 [H2 H3]].
    { subst s1. destruct (selectedOrgId s) as [sel|];
        [|repeat split].
      destruct (Js.truthy sel); [|repeat split].
      destruct (findProfile sel (searchResults s)); repeat split. }
    clearbody s1.
    destruct (is_some user); [rewrite handleComplete_data|];
      (split; [exact H1 | split; [exact H2 | split; [exact H3|]]]);
      intro H; contradiction H; reflexivity.
  - rewrite E. split; [apply sameExceptSecrets_refl|]. repeat split.
Qed.

Lemma answers_change_only_by_inputs_witness :
  data (fst (dispatch envWrongCode propsNoPreset None EvVerifyOtp stateAtVerify))
  = flowJane.
Proof.
  apply (answers_change_only_by_inputs envWrongCode propsNoPreset None
           EvVerifyOtp stateAtVerify eq_refl).
  discriminate.
Defined.

(** ** Slugs *)

Lemma dropDashes_cons (c : ascii) (r : string) :
  dropDashes (String c r) = if isDash c then dropDashes r else String c r.
Proof.
  destruct c as [[] [] [] [] [] [] [] []]; reflexivity.
Qed.

Lemma slug_char_not_dash (c : ascii) : is_slug_char c = true -> isDash c = false.
Proof.
  intro H. unfold isDash. destruct (Ascii.eqb_spec c "-") as [->|]; [|reflexivity].
  discriminate H.
Qed.

Lemma dashify_cons (b : bool) (c : ascii) (r : string) :
  dashify b (String c r)
  = if is_slug_char (lower c) then String (lower c) (dashify false r)
    else if b then dashify true r else String "-" (dashify true r).
Proof. reflexivity. Qed.

(** [dashify] yields slug characters and dashes only. *)
Lemma dashify_chars (b : bool) (s : string) :
  allChars (fun c => is_slug_char c || isDash c)%bool (dashify b s) = true.
Proof.
  revert b. induction s as [|c r IH]; intro b; [reflexivity|].
  rewrite dashify_cons.
  destruct (is_slug_char (lower c)) eqn:E.
  - cbn. rewrite E, IH. reflexivity.
  - destruct b; [apply IH|]. cbn. rewrite IH. reflexivity.
Qed.

(** [dashify] never yields two dashes in a row, and no dash at the
    start when it starts inside a run. *)
Lemma dashify_noDoubleDash (b : bool) (s : string) :
  noDoubleDash b (dashify b s) = true.
Proof.
  revert b. induction s as [|c r IH]; intro b; [reflexivity|].
  rewrite dashify_cons.
  destruct (is_slug_char (lower c)) eqn:E.
  - cbn. rewrite (slug_char_not_dash _ E). apply IH.
  - destruct b; [apply IH|]. cbn. apply IH.
Qed.

Lemma noDoubleDash_weaken (t : string) :
  noDoubleDash true t = true -> noDoubleDash false t = true.
Proof.
  destruct t as [|c r]; [reflexivity|]. cbn.
  destruct (isDash c); [discriminate | tauto].
Qed.

Lemma noDoubleDash_true_start (t : string) :
  noDoubleDash true t = true -> startsWithDash t = false.
Proof.
  destruct t as [|c r]; [reflexivity|]. cbn.
  destruct (isDash c); [discriminate | reflexivity].
Qed.

Lemma dropDashes_no_start (t : string) : startsWithDash (dropDashes t) = false.
Proof.
  induction t as [|c r IH]; [reflexivity|].
  rewrite dropDashes_cons. destruct (isDash c) eqn:E; [exact IH|].
  cbn. exact E.
Qed.

Lemma dropDashes_id (t : string) : startsWithDash t = false -> dropDashes t = t.
Proof.
  destruct t as [|c r]; [reflexivity|]. cbn [startsWithDash]. intro H.
  rewrite dropDashes_cons, H. reflexivity.
Qed.

Lemma dropDashes_allChars f (t : string) :
  allChars f t = true -> allChars f (dropDashes t) = true.
Proof.
  induction t as [|c r IH]; [reflexivity|]. intro H.
  rewrite dropDashes_cons. destruct (isDash c); [|exact H].
  cbn in H. apply andb_true_iff in H. apply IH, H.
Qed.

Lemma dropDashes_noDoubleDash (t : string) :
  noDoubleDash false t = true -> noDoubleDash false (dropDashes t) = true.
Proof.
  induction t as [|c r IH]; [reflexivity|]. intro H.
  rewrite dropDashes_cons. destruct (isDash c) eqn:E; [|exact H].
  cbn in H. rewrite E in H. cbn in H.
  apply IH, noDoubleDash_weaken, H.
Qed.

Lemma dropEndDashes_cons (c : ascii) (r : string) :
  dropEndDashes (String c r)
  = match dropEndDashes r with
    | EmptyString => if isDash c then EmptyString else String c EmptyString
    | kept => String c kept
    end.
Proof. reflexivity. Qed.

Lemma dropEndDashes_allChars f (t : string) :
  allChars f t = true -> allChars f (dropEndDashes t) = true.
Proof.
  induction t as [|c r IH]; [reflexivity|]. intro H.
  cbn in H. apply andb_true_iff in H. destruct H as [Hc Hr].
  rewrite dropEndDashes_cons. specialize (IH Hr).
  destruct (dropEndDashes r) as [|k kept].
  - destruct (isDash c); [reflexivity|]. cbn. rewrite Hc. reflexivity.
  - cbn [allChars]. rewrite Hc. exact IH.
Qed.

Lemma dropEndDashes_no_end (t : string) : endsWithDash (dropEndDashes t) = false.
Proof.
  induction t as [|c r IH]; [reflexivity|].
  rewrite dropEndDashes_cons.
  destruct (dropEndDashes r) as [|k kept].
  - destruct (isDash c) eqn:E; [reflexivity|]. cbn. exact E.
  - exact IH.
Qed.

Lemma dropEndDashes_start (t : string) :
  startsWithDash t = false -> startsWithDash (dropEndDashes t) = false.
Proof.
  destruct t as [|c r]; [reflexivity|]. cbn [startsWithDash]. intro H.
  rewrite dropEndDashes_cons.
  destruct (dropEndDashes r); [rewrite H|]; cbn; try exact H; reflexivity.
Qed.

Lemma dropEndDashes_noDoubleDash (p : bool) (t : string) :
  noDoubleDash p t = true -> noDoubleDash p (dropEndDashes t) = true.
Proof.
  revert p. induction t as [|c r IH]; intro p; [reflexivity|]. intro H.
  rewrite dropEndDashes_cons. cbn in H.
  destruct (isDash c) eqn:E.
  - apply andb_true_iff in H. destruct H as [Hp Hr]. specialize (IH true Hr).
    destruct (dropEndDashes r) as [|k kept]; [reflexivity|].
    cbn [noDoubleDash]. rewrite E, Hp. exact IH.
  - specialize (IH false H).
    destruct (dropEndDashes r) as [|k kept]; cbn [noDoubleDash]; rewrite E;
      [reflexivity | exact IH].
Qed.

Lemma generateSlug_split (name city state suffix : string) :
  generateSlug name city state suffix = slugBase name city state ++ "-" ++ suffix.
Proof. reflexivity. Qed.

(** X17.  The slug is its base, a dash and the random suffix; the base
    consists of lower-case letters, digits and dashes only, has no dash
    at its start or its end and no two dashes in a row, whatever the
    name, city and state. *)
Theorem slug_base_is_clean (name city state suffix : string) :
  generateSlug name city state suffix = slugBase name city state ++ "-" ++ suffix
  /\ allChars (fun c => is_slug_char c || isDash c)%bool
       (slugBase name city state) = true
  /\ startsWithDash (slugBase name city state) = false
  /\ endsWithDash (slugBase name city state) = false
  /\ noDoubleDash false (slugBase name city state) = true.
Proof.
  unfold slugBase.
  set (t := dashify false (join_space (filter Js.truthy [name; city; state]))).
  assert (allChars (fun c => is_slug_char c || isDash c)%bool t = true) as Hc
    by apply dashify_chars.
  assert (noDoubleDash false t = true) as Hd by apply dashify_noDoubleDash.
  split; [reflexivity|]. repeat split.
  - apply dropEndDashes_allChars, dropDashes_allChars, Hc.
  - apply dropEndDashes_start, dropDashes_no_start.
  - apply dropEndDashes_no_end.
  - apply dropEndDashes_noDoubleDash, dropDashes_noDoubleDash, Hd.
Qed.

Example slug_of_messy_input :
  generateSlug "  St. Mary's  Home " "" "TX" "ab12" = "st-mary-s-home-tx-ab12"
  /\ generateSlug "" "" "" "ab12" = "-ab12".
Proof. split; reflexivity. Qed.

(** *** The two slug generators *)

Lemma append_assoc_s (a b c : string) : (a ++ b) ++ c = a ++ (b ++ c).
Proof. induction a as [|x a IH]; [reflexivity|]. cbn. rewrite IH. reflexivity. Qed.

Lemma append_empty_r (a : string) : a ++ "" = a.
Proof. induction a as [|x a IH]; [reflexivity|]. cbn. rewrite IH. reflexivity. Qed.

Lemma dropDashes_dashify (b : bool) (s : string) :
  dropDashes (dashify b s) = dashify true (skipSeparators s).
Proof.
  revert b. induction s as [|c r IH]; intro b; [reflexivity|].
  rewrite dashify_cons. cbn [skipSeparators].
  destruct (is_slug_char (lower c)) eqn:E.
  - rewrite dropDashes_cons, (slug_char_not_dash _ E), dashify_cons, E.
    reflexivity.
  - destruct b; [apply IH|]. rewrite dropDashes_cons. cbn [isDash Ascii.eqb].
    change (isDash "-") with true. cbv iota. apply IH.
Qed.

Lemma stripLeadingDash_dropDashes (t : string) :
  noDoubleDash false t = true ->
  CreateProfile.stripLeadingDash t = dropDashes t.
Proof.
  destruct t as [|c r]; [reflexivity|]. intro H.
  cbn [CreateProfile.stripLeadingDash]. rewrite dropDashes_cons.
  cbn in H. destruct (isDash c); [|reflexivity].
  symmetry. apply dropDashes_id, noDoubleDash_true_start, H.
Qed.

Lemma stripTrailingDash_cons (c : ascii) (r : string) :
  CreateProfile.stripTrailingDash (String c r)
  = match r with
    | EmptyString => if isDash c then EmptyString else String c EmptyString
    | _ => String c (CreateProfile.stripTrailingDash r)
    end.
Proof. destruct r; reflexivity. Qed.

Lemma stripTrailingDash_dropEndDashes (p : bool) (t : string) :
  noDoubleDash p t = true ->
  CreateProfile.stripTrailingDash t = dropEndDashes t.
Proof.
  revert p. induction t as [|c r IH]; intro p; [reflexivity|]. intro H.
  rewrite stripTrailingDash_cons, dropEndDashes_cons.
  destruct r as [|d r']; [reflexivity|].
  cbn [noDoubleDash] in H.
  assert (noDoubleDash (isDash c) (String d r') = true) as Hr.
  { destruct (isDash c); [apply andb_true_iff in H; apply H | exact H]. }
  rewrite <- (IH _ Hr).
  destruct (CreateProfile.stripTrailingDash (String d r')) as [|k kept] eqn:Es;
    [|reflexivity].
  (* the rest is a single dash, so [c] is not one *)
  rewrite stripTrailingDash_cons in Es.
  destruct r' as [|e r'']; [|discriminate Es].
  destruct (isDash d) eqn:Ed; [|discriminate Es].
  cbn [noDoubleDash] in Hr. rewrite Ed in Hr.
  destruct (isDash c); [discriminate Hr | reflexivity].
Qed.

Lemma dashify_double_space (b : bool) (a t : string) :
  dashify b (a ++ " " ++ " " ++ t) = dashify b (a ++ " " ++ t).
Proof.
  revert b. induction a as [|c r IH]; intro b.
  - destruct b; reflexivity.
  - change (String c r ++ " " ++ " " ++ t) with (String c (r ++ " " ++ " " ++ t)).
    change (String c r ++ " " ++ t) with (String c (r ++ " " ++ t)).
    rewrite !dashify_cons, !IH. reflexivity.
Qed.

Lemma dropEndDashes_dashify_trailing_space (b : bool) (s : string) :
  dropEndDashes (dashify b (s ++ " ")) = dropEndDashes (dashify b s).
Proof.
  revert b. induction s as [|c r IH]; intro b.
  - destruct b; reflexivity.
  - change (String c r ++ " ") with (String c (r ++ " ")).
    rewrite !dashify_cons.
    destruct (is_slug_char (lower c)).
    + rewrite !dropEndDashes_cons, IH. reflexivity.
    + destruct b; [apply IH|]. rewrite !dropEndDashes_cons, IH. reflexivity.
Qed.

Lemma skipSeparators_trailing_space (s : string) :
  skipSeparators (s ++ " ")
  = match skipSeparators s with
    | EmptyString => EmptyString
    | kept => kept ++ " "
    end.
Proof.
  induction s as [|c r IH]; [reflexivity|].
  change (String c r ++ " ") with (String c (r ++ " ")).
  cbn [skipSeparators]. destruct (is_slug_char (lower c)); [reflexivity | exact IH].
Qed.

Lemma slugNormal_trailing_space (s : string) :
  dropEndDashes (dropDashes (dashify false (s ++ " ")))
  = dropEndDashes (dropDashes (dashify false s)).
Proof.
  rewrite !dropDashes_dashify, skipSeparators_trailing_space.
  destruct (skipSeparators s) as [|k kept]; [reflexivity|].
  apply dropEndDashes_dashify_trailing_space.
Qed.

Lemma slugNormal_leading_space (s : string) :
  dropEndDashes (dropDashes (dashify false (" " ++ s)))
  = dropEndDashes (dropDashes (dashify false s)).
Proof. rewrite !dropDashes_dashify. reflexivity. Qed.

Lemma truthy_false_empty (s : string) : Js.truthy s = false -> s = "".
Proof. destruct s; [reflexivity | discriminate]. Qed.

(** Joining the non-empty parts and joining all three parts give the
    same slug base. *)
Lemma slugNormal_join (name city state : string) :
  dropEndDashes (dropDashes (dashify false (name ++ " " ++ city ++ " " ++ state)))
  = slugBase name city state.
Proof.
  unfold slugBase. cbn [filter].
  destruct (Js.truthy name) eqn:En; [|apply truthy_false_empty in En; subst name];
    (destruct (Js.truthy city) eqn:Ec; [|apply truthy_false_empty in Ec; subst city]);
    (destruct (Js.truthy state) eqn:Es; [|apply truthy_false_empty in Es; subst state]);
    cbn [join_space].
  - reflexivity.
  - assert (name ++ " " ++ city ++ " " ++ "" = (name ++ " " ++ city) ++ " ") as E
      by (rewrite append_assoc_s; reflexivity).
    rewrite E. apply slugNormal_trailing_space.
  - change ("" ++ " " ++ state) with (" " ++ state).
    rewrite dashify_double_space. destruct name; reflexivity.
  - change ("" ++ " " ++ "") with (" " ++ "").
    rewrite dashify_double_space.
    change (name ++ " " ++ "") with (name ++ " ").
    rewrite slugNormal_trailing_space. destruct name; reflexivity.
  - change ("" ++ " " ++ city ++ " " ++ state) with (" " ++ city ++ " " ++ state).
    rewrite slugNormal_leading_space. destruct city; reflexivity.
  - change ("" ++ " " ++ city ++ " " ++ "") with (" " ++ city ++ " ").
    rewrite slugNormal_leading_space, slugNormal_trailing_space.
    destruct city; reflexivity.
  - change ("" ++ " " ++ "" ++ " " ++ state) with (" " ++ " " ++ state).
    rewrite !slugNormal_leading_space. destruct state; reflexivity.
  - reflexivity.
Qed.

(** X18.  The slug generator of the create-profile page and the one of
    the flow compute the same slug for the same name, city, state and
    random suffix: joining all three parts with spaces and removing one
    dash at each end gives what joining the non-empty parts and removing
    all dashes at the ends gives. *)
Theorem slug_generators_agree (name city state suffix : string) :
  CreateProfile.generateSlug name city state suffix
  = generateSlug name city state suffix.
Proof.
  rewrite generateSlug_split. unfold CreateProfile.generateSlug.
  rewrite <- slugNormal_join.
  set (t := dashify false (name ++ " " ++ city ++ " " ++ state)).
  assert (noDoubleDash false t = true) as Hd by apply dashify_noDoubleDash.
  rewrite (stripLeadingDash_dropDashes t Hd).
  rewrite (stripTrailingDash_dropEndDashes false (dropDashes t)
             (dropDashes_noDoubleDash t Hd)).
  reflexivity.
Qed.

Example slug_generators_agree_example :
  CreateProfile.generateSlug "Sunrise Senior Living" "" "TX" "k3x9"
  = "sunrise-senior-living-tx-k3x9".
Proof. reflexivity. Qed.

(** ** Care-type chips *)

Lemma existsb_eqb_In (ct : string) (l : list string) :
  existsb (String.eqb ct) l = true <-> In ct l.
Proof.
  rewrite existsb_exists. split.
  - intros [x [Hin Heq]]. apply String.eqb_eq in Heq. subst x. exact Hin.
  - intro Hin. exists ct. split; [exact Hin | apply String.eqb_refl].
Qed.

(** X19.  A click on a care-type chip flips that type and no other: the
    type is in the new selection exactly when it was not in the old
    one, every other type is in the new selection exactly when it was
    in the old one, and a selection without duplicates stays without
    duplicates. *)
Theorem toggleCareType_flips_one (ct : string) (prev : list string) :
  (In ct (CreateProfile.toggleCareType ct prev) <-> ~ In ct prev)
  /\ (forall other, other <> ct ->
        (In other (CreateProfile.toggleCareType ct prev) <-> In other prev))
  /\ (NoDup prev -> NoDup (CreateProfile.toggleCareType ct prev)).
Proof.
  unfold CreateProfile.toggleCareType.
  destruct (existsb (String.eqb ct) prev) eqn:E.
  - assert (In ct prev) as Hin by (apply existsb_eqb_In; exact E).
    split; [|split].
    + split.
      * intro H. apply filter_In in H. destruct H as [_ H].
        rewrite String.eqb_refl in H. discriminate H.
      * intro H. contradiction.
    + intros other Hne. rewrite filter_In. split; [tauto|].
      intro H. split; [exact H|].
      apply negb_true_iff. apply String.eqb_neq. exact Hne.
    + intro Hnd. apply NoDup_filter. exact Hnd.
  - assert (~ In ct prev) as Hnin.
    { intro H. apply existsb_eqb_In in H. rewrite H in E. discriminate E. }
    split; [|split].
    + split; [intros _; exact Hnin|]. intros _. apply in_or_app. right. left.
      reflexivity.
    + intros other Hne. rewrite in_app_iff. split; [|tauto].
      intros [H|[H|[]]]; [exact H | contradiction Hne; symmetry; exact H].
    + intro Hnd. apply NoDup_app; [exact Hnd | repeat constructor; intros [] |].
      intros a Ha [H|[]]. subst a. contradiction.
Qed.

Lemma toggleCareType_flips_one_witness :
  NoDup (CreateProfile.toggleCareType "Hospice" ["Home Care"; "Hospice"])
  /\ CreateProfile.toggleCareType "Hospice" ["Home Care"; "Hospice"] = ["Home Care"]
  /\ CreateProfile.toggleCareType "Hospice" ["Home Care"] = ["Home Care"; "Hospice"].
Proof.
  split; [|split; reflexivity].
  apply (proj2 (proj2 (toggleCareType_flips_one "Hospice" ["Home Care"; "Hospice"]))).
  repeat constructor; cbn; intuition discriminate.
Defined.

(** ** Updates of the flow data *)

Lemma over_over {A : Type} (x : A) (p q : option A) :
  over (over x p) q = over x (laterKey q p).
Proof. destruct q, p; reflexivity. Qed.

Lemma over_same {A : Type} (x : A) (p : option A) : over (over x p) p = over x p.
Proof. destruct p; reflexivity. Qed.

(** X20.  Updates of the flow data compose with the later keys winning:
    two [updateData] in a row are one [updateData] with the merged
    partial; the same update twice is that update once; the empty
    update changes nothing. *)
Theorem updateData_composes (p q : Partial) (s : State) :
  updateData q (updateData p s) = updateData (mergePartial p q) s
  /\ updateData p (updateData p s) = updateData p s
  /\ data (updateData no_keys s) = data s.
Proof.
  split; [|split].
  - unfold updateData, spread, mergePartial. cbn. rewrite !over_over. reflexivity.
  - unfold updateData, spread. cbn. rewrite !over_same. reflexivity.
  - destruct s as [st d]. destruct d. reflexivity.
Qed.

(** ** Closing the flow *)

(** X21.  Closing the flow discards what it held in memory and leaves
    the draft alone: with [isOpen] false the save and restore effects do
    not touch the store, and the reset effect followed by the
    auto-complete effect makes no outside call and leaves the initial
    state of the presets, with empty error and code, cooldown 0 and the
    latch released, whatever the state was. *)
Theorem closing_resets_state_keeps_draft
    (env : Env) (P : Props) (user : option User) (s : State)
    (now : Z) (writable : bool) (store : Storage) :
  isOpen P = false ->
  claimAutoCompleteEffect env P user (resetEffect P s) = (initialState P, [])
  /\ saveEffect P now writable s store = (store, false)
  /\ restoreEffect P now store (data s) = (store, data s).
Proof.
  intro Hc. repeat split.
  - unfold resetEffect, claimAutoCompleteEffect, claimLatch. rewrite Hc. reflexivity.
  - unfold saveEffect. rewrite Hc. reflexivity.
  - unfold restoreEffect. rewrite Hc. reflexivity.
Qed.

Lemma closing_resets_state_keeps_draft_witness :
  claimAutoCompleteEffect envAllGood
    {| isOpen := false; initialIntent := None; initialProviderType := None;
       claimProfile := None; defaultToSignIn := false |}
    None
    (resetEffect
       {| isOpen := false; initialIntent := None; initialProviderType := None;
          claimProfile := None; defaultToSignIn := false |}
       stateAtVerify)
  = (initialState
       {| isOpen := false; initialIntent := None; initialProviderType := None;
          claimProfile := None; defaultToSignIn := false |}, []).
Proof.
  exact (proj1 (closing_resets_state_keeps_draft envAllGood
                  {| isOpen := false; initialIntent := None;
                     initialProviderType := None;
                     claimProfile := None; defaultToSignIn := false |}
                  None stateAtVerify 0%Z true None eq_refl)).
Defined.

(** ** Sign-up for an address that is already registered *)

(** X22.  A sign-up for a registered address is recognised in both
    forms the gateway reports it, an error that mentions "already
    registered" or a user without identities and without session: the
    flow shows the try-signing-in message, stays on the identity step
    with the data intact and loading off, and has called the gateway
    once: no code is requested and no commit starts. *)
Theorem sign_up_duplicate_identity (env : Env) (s : State) :
  8 <= String.length (password (data s)) ->
  configured env = true ->
  (exists m, signUp env = Resolved (SignUpError m)
             /\ Js.includes m "already registered" = true)
  \/ signUp env = Resolved (SignUpData false (Some 0)) ->
  handleSignUp env s
  = (setLoading false (setError MSG_ALREADY_REGISTERED s),
     [GwSignUp (email (data s)) (password (data s))
        (or_null (Js.or_else (displayName (data s)) (orgName (data s))))]).
Proof.
  intros Hp Hc H. unfold handleSignUp, failWith.
  apply Nat.ltb_ge in Hp. rewrite Hp, Hc. cbn [negb].
  destruct H as [[m [Hs Hm]] | Hs]; rewrite Hs; [rewrite Hm|]; reflexivity.
Qed.

Lemma sign_up_duplicate_identity_witness :
  error (fst (handleSignUp
                {| configured := true;
                   signUp := Resolved (SignUpError "User already registered");
                   signInWithOtp := Resolved None;
                   signInWithPassword := Resolved None;
                   verifyOtp := Resolved None;
                   getUser := None; account := None;
                   ensureAccount := EnsureOk None; claimErr := None;
                   insertResult := Inserted "profile-new";
                   accountErr := None; slugSuffix := "k3x9" |}
                stateAtAuth))
  = MSG_ALREADY_REGISTERED.
Proof.
  rewrite (sign_up_duplicate_identity _ stateAtAuth).
  - reflexivity.
  - cbn. lia.
  - reflexivity.
  - left. exists "User already registered". split; reflexivity.
Defined.

(** ** The identity provider *)

Lemma findById_some (wanted : string) (l : list Profile.t) (p : Profile.t) :
  AuthProvider.findById wanted l = Some p -> In p l /\ Profile.id p = wanted.
Proof.
  unfold AuthProvider.findById. intro H. apply find_some in H.
  destruct H as [Hin Heq]. apply String.eqb_eq in Heq. split; assumption.
Qed.

Lemma fetchAccountData_consistent (configured : bool) (db : AuthProvider.DbAnswers) :
  let d := AuthProvider.fetchAccountData configured db in
  (forall p, AuthProvider.d_activeProfile d = Some p ->
     In p (AuthProvider.d_profiles d)
     /\ exists acc, AuthProvider.d_account d = Some acc
                    /\ AuthProvider.active_profile_id acc = Some (Profile.id p))
  /\ (AuthProvider.d_account d = None ->
      AuthProvider.d_activeProfile d = None
      /\ AuthProvider.d_profiles d = []
      /\ AuthProvider.d_membership d = None).
Proof.
  unfold AuthProvider.fetchAccountData.
  destruct configured; cbn [negb];
    [|split; [intros p H; discriminate H | intros _; repeat split]].
  destruct (AuthProvider.q_account db) as [acc|];
    [|split; [intros p H; discriminate H | intros _; repeat split]].
  cbn. split; [|intro H; discriminate H].
  intros p H.
  destruct (AuthProvider.active_profile_id acc) as [wanted|] eqn:Ew;
    [|discriminate H].
  destruct (Js.truthy wanted); [|discriminate H].
  apply findById_some in H. destruct H as [Hin Hid].
  split; [exact Hin|]. exists acc. split; [reflexivity|].
  rewrite Ew, Hid. reflexivity.
Qed.

Lemma authStep_consistent (configured : bool) (st : AuthProvider.AuthState)
    (ev : AuthProvider.AuthEvent) :
  AuthProvider.consistent st ->
  AuthProvider.consistent (AuthProvider.authStep configured st ev).
Proof.
  intros Hst.
  assert (AuthProvider.consistent AuthProvider.signedOutState) as Hout.
  { repeat split; intros; try discriminate. }
  assert (forall u db,
            AuthProvider.consistent
              (AuthProvider.signedInState u
                 (AuthProvider.fetchAccountData configured db))) as Hin.
  { intros u db.
    destruct (fetchAccountData_consistent configured db) as [H1 H2].
    split; [exact H1 | split; [exact H2 | intro H; discriminate H]]. }
  assert (AuthProvider.consistent (AuthProvider.stopLoading st)) as Hstop
    by exact Hst.
  destruct ev as [su db | change su db | | db | pid err];
    cbn [AuthProvider.authStep].
  - destruct configured; cbn [negb]; [|exact Hstop].
    destruct su; [apply Hin | exact Hstop].
  - destruct configured; cbn [negb]; [|exact Hst].
    destruct change, su; try exact Hst; try exact Hout; apply Hin.
  - exact Hout.
  - unfold AuthProvider.refreshAccountData.
    destruct (AuthProvider.user st) as [u|] eqn:Eu; [|exact Hst].
    destruct (fetchAccountData_consistent configured db) as [H1 H2].
    split; [exact H1 | split; [exact H2 | intro H; discriminate H]].
  - unfold AuthProvider.switchProfile.
    destruct (AuthProvider.user st) as [u|] eqn:Eu; [|exact Hst].
    destruct (AuthProvider.account st) as [acc|] eqn:Ea; [|exact Hst].
    destruct configured; [|exact Hst].
    destruct err; [exact Hst|].
    split; [|split; intro H; discriminate H].
    cbn. intros p H. apply findById_some in H. destruct H as [Hp Hid].
    split; [exact Hp|]. eexists. split; [reflexivity|].
    cbn. rewrite Hid. reflexivity.
Qed.

(** A callback that finishes on the state of the render it was created
    in is the operation run in one piece. *)
Lemma authStepOn_same (configured : bool) (st : AuthProvider.AuthState)
    (ev : AuthProvider.AuthEvent) :
  AuthProvider.authStepOn configured st st ev
  = AuthProvider.authStep configured st ev.
Proof.
  destruct ev as [su db | change su db | | db | pid err];
    cbn [AuthProvider.authStepOn AuthProvider.authStep]; try reflexivity.
  unfold AuthProvider.switchProfileOn, AuthProvider.switchProfile.
  destruct (AuthProvider.user st), (AuthProvider.account st); reflexivity.
Qed.

Lemma authStepOn_cacheShape (configured : bool)
    (closure st : AuthProvider.AuthState) (ev : AuthProvider.AuthEvent) :
  AuthProvider.cacheShape st ->
  AuthProvider.cacheShape (AuthProvider.authStepOn configured closure st ev).
Proof.
  unfold AuthProvider.cacheShape. intro Hst.
  assert (forall db,
            AuthProvider.d_account (AuthProvider.fetchAccountData configured db) = None ->
            AuthProvider.d_profiles (AuthProvider.fetchAccountData configured db) = []
            /\ AuthProvider.d_membership (AuthProvider.fetchAccountData configured db) = None)
    as Hfetch.
  { intros db H.
    destruct (proj2 (fetchAccountData_consistent configured db) H) as [_ [H1 H2]].
    split; assumption. }
  destruct ev as [su db | change su db | | db | pid err];
    cbn [AuthProvider.authStepOn AuthProvider.authStep].
  - destruct configured; cbn [negb]; [|exact Hst].
    destruct su; [apply Hfetch | exact Hst].
  - destruct configured; cbn [negb]; [|exact Hst].
    destruct change, su; try exact Hst; try (intros _; split; reflexivity);
      apply Hfetch.
  - intros _. split; reflexivity.
  - unfold AuthProvider.refreshAccountDataOn.
    destruct (AuthProvider.user closure); [apply Hfetch | exact Hst].
  - unfold AuthProvider.switchProfileOn.
    destruct (AuthProvider.user closure); [|exact Hst].
    destruct (AuthProvider.account closure); [|exact Hst].
    destruct configured; [|exact Hst].
    destruct err; [exact Hst|].
    cbn. destruct (AuthProvider.account st); [intro H; discriminate H | exact Hst].
Qed.

(** X23.  The identity state the flow reads hangs together as long as
    the operations of the provider do not overlap, and only then.
    When every session load, auth state change, sign-out, refresh and
    profile switch finishes on the state it started from, then after
    any sequence of them, with any answers of the database, the active
    profile (if any) is one of the cached profiles and the one the
    account row points to, without account nothing of an account is
    cached, and without user there is no account.  When operations
    overlap, a callback finishing on a later state than the one of its
    closure, all that is kept is that without account there are no
    profiles and no membership: a refresh that was started by a
    signed-in user and finishes after the sign-out leaves the account
    of that user cached with no user. *)
Theorem auth_state_stays_consistent (configured : bool) :
  (forall evs : list AuthProvider.AuthEvent,
     AuthProvider.consistent
       (fold_left (fun st ev => AuthProvider.authStepOn configured st st ev)
          evs AuthProvider.initialAuthState))
  /\ (forall past st,
        AuthProvider.authRun configured past st -> AuthProvider.cacheShape st)
  /\ (forall (u : AuthProvider.AuthUser) (db : AuthProvider.DbAnswers)
             (acc : AuthProvider.AccountRow),
        AuthProvider.q_account db = Some acc ->
        exists past st,
          AuthProvider.authRun true past st
          /\ AuthProvider.user st = None
          /\ AuthProvider.account st = Some acc
          /\ ~ AuthProvider.consistent st).
Proof.
  split; [|split].
  - assert (AuthProvider.consistent AuthProvider.initialAuthState) as H0.
    { repeat split; intros; try discriminate. }
    intro evs. revert H0. generalize AuthProvider.initialAuthState.
    induction evs as [|ev evs IH]; intros st Hst; [exact Hst|].
    cbn [fold_left]. apply IH. rewrite authStepOn_same.
    apply authStep_consistent, Hst.
  - intros past st Hrun.
    induction Hrun as [|past st closure ev Hrun IH Hin].
    + intros _. split; reflexivity.
    + apply authStepOn_cacheShape, IH.
  - intros u db acc Hacc.
    set (st0 := AuthProvider.initialAuthState).
    set (st1 := AuthProvider.authStepOn true st0 st0
                  (AuthProvider.SessionLoaded (Some u) db)).
    set (st2 := AuthProvider.authStepOn true st1 st1 AuthProvider.SignOut).
    exists [st2; st1; st0],
      (AuthProvider.authStepOn true st1 st2 (AuthProvider.RefreshAccountData db)).
    assert (AuthProvider.authRun true [st1; st0] st2) as Hrun2.
    { apply AuthProvider.run_event; [|left; reflexivity].
      apply AuthProvider.run_event; [|left; reflexivity].
      apply AuthProvider.run_mount. }
    split.
    { apply AuthProvider.run_event; [exact Hrun2 | right; left; reflexivity]. }
    assert (AuthProvider.account
              (AuthProvider.authStepOn true st1 st2
                 (AuthProvider.RefreshAccountData db)) = Some acc) as Ea.
    { cbn. unfold AuthProvider.fetchAccountData. cbn [negb]. rewrite Hacc.
      reflexivity. }
    split; [reflexivity|]. split; [exact Ea|].
    intros [_ [_ H]]. rewrite Ea in H. specialize (H eq_refl). discriminate H.
Qed.

Lemma auth_state_stays_consistent_witness :
  exists past st,
    AuthProvider.authRun true past st
    /\ AuthProvider.user st = None
    /\ AuthProvider.account st
       = Some {| AuthProvider.account_id := "acct-1";
                 AuthProvider.active_profile_id := Some "listing-1" |}
    /\ ~ AuthProvider.consistent st.
Proof.
  apply (proj2 (proj2 (auth_state_stays_consistent true))
           {| AuthProvider.id := "u1"; AuthProvider.email := "owner@example.com" |}
           {| AuthProvider.q_account :=
                Some {| AuthProvider.account_id := "acct-1";
                        AuthProvider.active_profile_id := Some "listing-1" |};
              AuthProvider.q_profiles := Some [listingAustin];
              AuthProvider.q_membership := None |}).
  reflexivity.
Defined.

(** The run of that example, event by event: the session of a user is
    loaded, a refresh starts, the user signs out, the refresh
    finishes. *)
Example refresh_after_sign_out :
  let u := {| AuthProvider.id := "u1"; AuthProvider.email := "owner@example.com" |} in
  let db := {| AuthProvider.q_account :=
                 Some {| AuthProvider.account_id := "acct-1";
                         AuthProvider.active_profile_id := Some "listing-1" |};
               AuthProvider.q_profiles := Some [listingAustin];
               AuthProvider.q_membership := None |} in
  let st1 := AuthProvider.authStep true AuthProvider.initialAuthState
               (AuthProvider.SessionLoaded (Some u) db) in
  let st2 := AuthProvider.authStep true st1 AuthProvider.SignOut in
  let st3 := AuthProvider.refreshAccountDataOn true db st1 st2 in
  AuthProvider.user st1 = Some u
  /\ st2 = AuthProvider.signedOutState
  /\ AuthProvider.user st3 = None
  /\ AuthProvider.profiles st3 = [listingAustin]
  /\ AuthProvider.activeProfile st3 = Some listingAustin.
Proof. repeat split. Qed.

(** X24.  A profile switch that the database accepts makes the chosen
    profile the active one when the account owns it, and leaves no
    active profile when it does not, while the account row points to
    the chosen id either way; a switch the database rejects, or one
    without user, account or backend, changes nothing. *)
Theorem switch_profile_outcome
    (configured : bool) (profileId : string) (updateError : option string)
    (st : AuthProvider.AuthState) :
  let st' := AuthProvider.switchProfile configured profileId updateError st in
  (AuthProvider.user st <> None -> AuthProvider.account st <> None ->
   configured = true -> updateError = None ->
   (exists acc, AuthProvider.account st' = Some acc
                /\ AuthProvider.active_profile_id acc = Some profileId)
   /\ AuthProvider.profiles st' = AuthProvider.profiles st
   /\ ((exists p, In p (AuthProvider.profiles st) /\ Profile.id p = profileId) ->
       exists p, AuthProvider.activeProfile st' = Some p
                 /\ In p (AuthProvider.profiles st)
                 /\ Profile.id p = profileId)
   /\ ((forall p, In p (AuthProvider.profiles st) -> Profile.id p <> profileId) ->
       AuthProvider.activeProfile st' = None))
  /\ (AuthProvider.user st = None \/ AuthProvider.account st = None
      \/ configured = false \/ updateError <> None ->
      st' = st).
Proof.
  intro st'. subst st'. unfold AuthProvider.switchProfile. split.
  - intros Hu Ha Hc He.
    destruct (AuthProvider.user st) as [u|]; [|contradiction Hu; reflexivity].
    destruct (AuthProvider.account st) as [acc|]; [|contradiction Ha; reflexivity].
    subst configured updateError. cbn.
    split; [eexists; split; reflexivity|]. split; [reflexivity|]. split.
    + intros [p [Hin Hid]].
      destruct (AuthProvider.findById profileId (AuthProvider.profiles st))
        as [q|] eqn:Ef.
      * apply findById_some in Ef. exists q. tauto.
      * exfalso. unfold AuthProvider.findById in Ef.
        apply (find_none _ _ Ef) in Hin. rewrite Hid, String.eqb_refl in Hin.
        discriminate Hin.
    + intro Hnone.
      destruct (AuthProvider.findById profileId (AuthProvider.profiles st))
        as [q|] eqn:Ef; [|reflexivity].
      apply findById_some in Ef. destruct Ef as [Hin Hid].
      contradiction (Hnone q Hin Hid).
  - intros H.
    destruct (AuthProvider.user st) as [u|]; [|reflexivity].
    destruct (AuthProvider.account st) as [acc|]; [|reflexivity].
    destruct configured; [|reflexivity].
    destruct updateError; [reflexivity|].
    destruct H as [H|[H|[H|H]]]; try discriminate H. contradiction H. reflexivity.
Qed.

Lemma switch_profile_outcome_witness :
  let st := {| AuthProvider.user :=
                 Some {| AuthProvider.id := "u1";
                         AuthProvider.email := "owner@example.com" |};
               AuthProvider.account :=
                 Some {| AuthProvider.account_id := "acct-1";
                         AuthProvider.active_profile_id := None |};
               AuthProvider.activeProfile := None;
               AuthProvider.profiles := [listingAustin];
               AuthProvider.membership := None;
               AuthProvider.isLoading := false |} in
  exists p,
    AuthProvider.activeProfile
      (AuthProvider.switchProfile true "listing-1" None st) = Some p
    /\ In p (AuthProvider.profiles st)
    /\ Profile.id p = "listing-1".
Proof.
  intro st.
  apply (proj1 (switch_profile_outcome true "listing-1" None st));
    try discriminate; try reflexivity.
  exists listingAustin. split; [left|]; reflexivity.
Defined.

(** ** The progress bar *)



Ltac split_in :=
  repeat match goal with
         | H : _ \/ _ |- _ => destruct H as [H|H]
         | H : False |- _ => destruct H
         end.

(** ** The create-profile page *)

(** X26.  A submit of the create-profile page inserts a profile only
    for a signed-in user with an account, a chosen kind, a configured
    backend and a name, city and state that are not blank, and the row
    then carries these three trimmed; without user it only opens the
    sign-in modal; with incomplete input it does nothing at all, not
    even an error message.  It makes at most one insert, and it starts
    the trial membership only when the account has none and the
    profile insert and the account update went through. *)
Theorem page_submit_guards
    (env : CreateProfilePage.PageEnv) (f : CreateProfilePage.Form) :
  let r := CreateProfilePage.handleSubmit env f in
  (forall row, In (CreateProfilePage.InsertProfile row) (snd r) ->
     CreateProfilePage.page_user env <> None
     /\ CreateProfilePage.page_account env <> None
     /\ CreateProfilePage.kind f <> None
     /\ CreateProfilePage.page_configured env = true
     /\ CreateProfilePage.row_display_name row = Js.trim (CreateProfilePage.name f)
     /\ CreateProfilePage.row_city row = Js.trim (CreateProfilePage.city f)
     /\ CreateProfilePage.row_state row = Js.trim (CreateProfilePage.state f)
     /\ CreateProfilePage.row_display_name row <> ""
     /\ CreateProfilePage.row_city row <> ""
     /\ CreateProfilePage.row_state row <> "")
  /\ (CreateProfilePage.page_user env = None ->
      r = (f, [CreateProfilePage.OpenAuthModal "claim" "/for-providers/create"]))
  /\ (CreateProfilePage.page_user env <> None ->
      existsb CreateProfilePage.isInsertProfile (snd r) = false ->
      r = (f, []))
  /\ List.length (filter CreateProfilePage.isInsertProfile (snd r)) <= 1
  /\ (forall a t, In (CreateProfilePage.InsertTrialMembership a t) (snd r) ->
        CreateProfilePage.page_existingMembership env = false
        /\ CreateProfilePage.page_accountErr env = None
        /\ exists newId,
             CreateProfilePage.page_insert env = Inserted newId
             /\ In (CreateProfilePage.UpdateAccount a newId) (snd r)).
Proof.
  intro r. subst r. unfold CreateProfilePage.handleSubmit.
  destruct (CreateProfilePage.page_user env) as [u|];
    [|repeat split; intros; cbn in *; split_in;
      try discriminate; try congruence; try lia].
  destruct (CreateProfilePage.page_account env) as [acc|];
    [|repeat split; intros; cbn in *; try contradiction; try discriminate;
      try congruence; try lia].
  destruct (CreateProfilePage.kind f) as [k|] eqn:Ek;
    [|repeat split; intros; cbn in *; try contradiction; try discriminate;
      try congruence; try lia].
  destruct (Js.truthy (Js.trim (CreateProfilePage.name f))) eqn:En;
    [|repeat split; intros; cbn in *; try contradiction; try discriminate;
      try congruence; try lia].
  destruct (Js.truthy (Js.trim (CreateProfilePage.city f))) eqn:Ec;
    [|repeat split; intros; cbn in *; try contradiction; try discriminate;
      try congruence; try lia].
  destruct (Js.truthy (Js.trim (CreateProfilePage.state f))) eqn:Es;
    [|repeat split; intros; cbn in *; try contradiction; try discriminate;
      try congruence; try lia].
  destruct (CreateProfilePage.page_configured env) eqn:Ecf;
    [|repeat split; intros; cbn in *; try contradiction; try discriminate;
      try congruence; try lia].
  cbn [andb].
  apply truthy_iff in En. apply truthy_iff in Ec. apply truthy_iff in Es.
  unfold CreateProfilePage.pageCaught.
  destruct (CreateProfilePage.page_insert env) as [m|newId];
    [|destruct (CreateProfilePage.page_accountErr env) as [m|];
      [|destruct (CreateProfilePage.page_existingMembership env)]];
    cbn [fst snd app];
    (split; [|split; [|split; [|split]]]);
    try (intro H; discriminate H);
    try (intros _ H; discriminate H);
    try (cbn; lia);
    try (intros row Hin; cbn in Hin; split_in; try discriminate;
         match goal with
         | H : CreateProfilePage.InsertProfile _ = CreateProfilePage.InsertProfile _
           |- _ => injection H as <-
         end;
         cbn; repeat split; try discriminate; assumption);
    intros a t Hin; cbn in Hin; split_in; try discriminate.
  match goal with
  | H : CreateProfilePage.InsertTrialMembership _ _ = _ |- _ =>
      injection H as <- <-
  end.
  repeat split. exists newId. split; [reflexivity|]. cbn. tauto.
Qed.

Lemma page_submit_guards_witness :
  List.length
    (filter CreateProfilePage.isInsertProfile
       (snd (CreateProfilePage.handleSubmit CreateProfilePage.pageEnvGood
               CreateProfilePage.formSunrise))) <= 1
  /\ exists newId,
       CreateProfilePage.page_insert CreateProfilePage.pageEnvGood = Inserted newId
       /\ In (CreateProfilePage.UpdateAccount "acct-1" newId)
             (snd (CreateProfilePage.handleSubmit CreateProfilePage.pageEnvGood
                     CreateProfilePage.formSunrise)).
Proof.
  destruct (page_submit_guards CreateProfilePage.pageEnvGood
              CreateProfilePage.formSunrise) as [_ [_ [_ [H4 H5]]]].
  split; [exact H4|].
  apply (H5 "acct-1" "2026-03-01T00:00:00.000Z"). vm_compute. tauto.
Defined.

(** The calls of a submit that goes through, and of one with a blank
    city. *)
Example page_submit_calls :
  snd (CreateProfilePage.handleSubmit CreateProfilePage.pageEnvGood
         CreateProfilePage.formSunrise)
  = [ CreateProfilePage.InsertProfile
        {| CreateProfilePage.row_account_id := "acct-1";
           CreateProfilePage.row_slug := "sunrise-senior-living-austin-tx-k3x9";
           CreateProfilePage.row_type := organization;
           CreateProfilePage.row_category := Some "assisted_living";
           CreateProfilePage.row_display_name := "Sunrise Senior Living";
           CreateProfilePage.row_description := None;
           CreateProfilePage.row_phone := None;
           CreateProfilePage.row_city := "Austin";
           CreateProfilePage.row_state := "TX";
           CreateProfilePage.row_zip := None;
           CreateProfilePage.row_care_types := ["Memory Care"];
           CreateProfilePage.row_claim_state := "claimed";
           CreateProfilePage.row_verification_state := "unverified";
           CreateProfilePage.row_source := "user_created" |};
      CreateProfilePage.UpdateAccount "acct-1" "profile-new";
      CreateProfilePage.SelectMembership "acct-1";
      CreateProfilePage.InsertTrialMembership "acct-1" "2026-03-01T00:00:00.000Z";
      CreateProfilePage.Refresh;
      CreateProfilePage.Push "/portal" ].
Proof. reflexivity. Qed.

(** A name of no-break spaces is blank: the submit does nothing.  A
    name padded with them is inserted trimmed. *)
Example page_submit_nbsp_name :
  CreateProfilePage.handleSubmit CreateProfilePage.pageEnvGood
    (CreateProfilePage.formNamed (NBSP ++ NBSP))
  = (CreateProfilePage.formNamed (NBSP ++ NBSP), [])
  /\ (exists row rest,
        snd (CreateProfilePage.handleSubmit CreateProfilePage.pageEnvGood
               (CreateProfilePage.formNamed (NBSP ++ "Sunrise" ++ EM_SPACE)))
        = CreateProfilePage.InsertProfile row :: rest
        /\ CreateProfilePage.row_display_name row = "Sunrise").
Proof.
  split; [reflexivity|]. eexists. eexists. split; reflexivity.
Qed.

Lemma reachable_progress_within_total_witness :
  stepNumber (progressOf (getUser envAllGood) (initialState propsClaim))
  = totalSteps (progressOf (getUser envAllGood) (initialState propsClaim)) + 1.
Proof.
  apply (reachable_progress_within_total propsClaim (getUser envAllGood)
           (initialState propsClaim)).
  - apply (reach_user propsClaim None).
    exact (reach_open propsClaim None 0%Z None).
  - reflexivity.
Defined.

(** A family flow in which the sign-in succeeds and the account setup
    fails: the flow is still on the identity step, the user is now
    signed in, and the progress bar shows step 3 of 2. *)
Example signed_in_after_failed_commit_shows_3_of_2 :
  let P := propsFamily in
  let env := envAccountSetupFails in
  let s0 := openState P 0 None in
  let s1 := fst (dispatch env P None (EvEdit (editDisplayName "Jane Doe")) s0) in
  let s2 := fst (dispatch env P None EvFamilyInfoNext s1) in
  let s3 := fst (dispatch env P None EvFamilyNeedsNext s2) in
  let s3e := fst (dispatch env P None
                    (EvEdit (editSignIn "jane@example.com" "correct horse")) s3) in
  let s4 := fst (dispatch env P None EvSignIn s3e) in
  reachable P (getUser env) s4
  /\ step s4 = step_auth
  /\ error s4 = "Something went wrong: Service unavailable"
  /\ snd (dispatch env P None EvSignIn s3e)
     = [GwSignInWithPassword "jane@example.com" "correct horse"; GwGetUser;
        ApiEnsureAccount "Jane Doe"]
  /\ showProgress s4 = true
  /\ stepNumber (progressOf (getUser env) s4) = 3
  /\ totalSteps (progressOf (getUser env) s4) = 2.
Proof.
  intros P env s0 s1 s2 s3 s3e s4. split; [|repeat split].
  apply (reach_user P None).
  repeat (apply reach_step; [|reflexivity]).
  apply reach_open.
Qed.
